(** * Human-in-the-loop warehouse chatbot: pending-query store and agent turn

    A shallow embedding of [scripts/chatbot/warehouse_tools.py] (the pending
    query registry and the six SQL-preparing tools) and of the turn handling in
    [scripts/chatbot/chatbot.py] (tool dispatch, the graph loop and the
    post-processing done by [chat]).

    Conventions.
    - A Python [dict] keyed by strings whose order is irrelevant is a
      [gmap string _]; a dict that is serialised (so that key order is
      observable) is an association list inside [VDict].
    - A Python [str] is a [string]; the whitespace and case functions below
      follow CPython on the ASCII range.
    - A Python exception is an [Exc] outcome carrying [str(e)].
    - A Python [float] is the rational number it denotes; the program only
      stores and prints the one float it handles, the creation time.
    - Calls that leave the repository (json, uuid, time, Snowflake, pandas,
      the language model) are oracles: fields of [Platform], or arguments. *)

From stdpp Require Import gmap strings list pretty.
From Stdlib Require Import Ascii QArith.

Local Set Warnings "-register-all".
Local Open Scope string_scope.
Local Open Scope Z_scope.
Local Open Scope list_scope.

(** ** Exceptions *)

Inductive Exc (A : Type) : Type :=
| Raised (msg : string)
| Returned (a : A).
Arguments Raised {A} msg.
Arguments Returned {A} a.

#[global] Instance Exc_ret : MRet Exc := fun A a => Returned a.
#[global] Instance Exc_bind : MBind Exc := fun A B f m =>
  match m with
  | Raised msg => Raised msg
  | Returned a => f a
  end.

(** ** Python values (what [json.loads] produces and [json.dumps] consumes) *)

Inductive value : Type :=
| VNone
| VBool (b : bool)
| VInt (z : Z)
| VFloat (q : Q)
| VStr (s : string)
| VList (l : list value)
| VDict (items : list (string * value)).

(** [d.get(key)] on a dict given by its items. *)
Fixpoint dict_get (key : string) (items : list (string * value)) : option value :=
  match items with
  | [] => None
  | (k, v) :: rest => if bool_decide (k = key) then Some v else dict_get key rest
  end.

Definition dict_keys (items : list (string * value)) : list string := items.*1.

(** ** Python string operations

    A string is ASCII text, one character per element: on such text the
    operations below are those of [str]. Outside ASCII [str] knows further
    whitespace and further letters, which the operations below leave alone. *)

Definition nl : string := String (ascii_of_nat 10) EmptyString.

(** [str.isspace] on one ASCII character: TAB..CR, FS..US and the blank. *)
Definition isspace (c : ascii) : bool :=
  let n := nat_of_ascii c in
  ((9 <=? n)%nat && (n <=? 13)%nat) || ((28 <=? n)%nat && (n <=? 32)%nat).

Fixpoint lstrip (s : string) : string :=
  match s with
  | EmptyString => EmptyString
  | String c rest => if isspace c then lstrip rest else s
  end.

Definition rstrip (s : string) : string := String.rev (lstrip (String.rev s)).

(** [s.strip()] *)
Definition strip (s : string) : string := rstrip (lstrip s).

(** [s.split()]: the maximal runs of non-blank characters. [word] holds the
    run being read, last character first. *)
Fixpoint split_from (word : string) (s : string) : list string :=
  match s with
  | EmptyString =>
      if bool_decide (word = EmptyString) then [] else [String.rev word]
  | String c rest =>
      if isspace c
      then (if bool_decide (word = EmptyString) then split_from EmptyString rest
            else String.rev word :: split_from EmptyString rest)
      else split_from (String c word) rest
  end.

Definition split (s : string) : list string := split_from EmptyString s.

Definition upper_char (c : ascii) : ascii :=
  let n := nat_of_ascii c in
  if ((97 <=? n)%nat && (n <=? 122)%nat) then ascii_of_nat (n - 32) else c.

(** [s.upper()] *)
Fixpoint upper (s : string) : string :=
  match s with
  | EmptyString => EmptyString
  | String c rest => String (upper_char c) (upper rest)
  end.

(** [sep.join(parts)] *)
Definition join (sep : string) (parts : list string) : string := String.concat sep parts.

(** [s[:n]] *)
Fixpoint str_take (n : nat) (s : string) : string :=
  match n, s with
  | S n', String c rest => String c (str_take n' rest)
  | _, _ => EmptyString
  end.

(** A triple-quoted literal, one list element per source line. *)
Definition py_lines (ls : list string) : string := join nl ls.

(** Truthiness of an [Optional[str]] argument, and its text once it is known
    to be given. *)
Definition given (o : option string) : bool :=
  match o with
  | Some s => negb (bool_decide (s = EmptyString))
  | None => false
  end.

Definition text (o : option string) : string := default EmptyString o.

(** ** The platform the program runs on *)

Class Platform : Type := {
  (** [json.dumps(obj)] *)
  json_dumps : value -> string;
  (** [json.loads(s)]; [Raised] on malformed text *)
  json_loads : string -> Exc value;
  (** [str(obj)] for an object that is not a [str] *)
  py_str : value -> string;
  (** [pd.DataFrame(rows, columns=cols).to_json(orient="records", date_format="iso")] *)
  records_to_json : list string -> list (list value) -> Exc string;
  (** [os.getenv("SNOWFLAKE_DATABASE", "DB_T23")] *)
  SNOWFLAKE_DATABASE : string;
  (** [os.getenv("SNOWFLAKE_SCHEMA", "SC_T23")] *)
  SNOWFLAKE_SCHEMA : string;
}.

(** What one call needs from [uuid.uuid4()] and [time.time()]. *)
Record Entropy : Type := {
  fresh_uuid : string;
  now : Q;
}.

(** How the warehouse answers one connection: [snowflake.connector.connect],
    then [cursor.execute(sql)] with [fetchall] and [description]. *)
Record Snowflake : Type := {
  sf_connect : Exc unit;
  sf_run : string -> Exc (list string * list (list value));
}.

(** * scripts/chatbot/warehouse_tools.py *)

Module warehouse_tools.

Definition MARTS_SCHEMA : string := "MART".

Record PendingQuery : Type := {
  query_id : string;
  tool_name : string;
  sql : string;
  created_at : Q;
}.

(** [dataclasses.asdict(pq)]: the fields in declaration order. *)
Definition asdict (pq : PendingQuery) : value :=
  VDict [("query_id", VStr (query_id pq));
         ("tool_name", VStr (tool_name pq));
         ("sql", VStr (sql pq));
         ("created_at", VFloat (created_at pq))].

(** The process state the module touches: the module-level dict
    [_PENDING_QUERIES], and a record of every statement handed to
    [cursor.execute], tagged with the query id it was executed for. *)
Record World : Type := {
  _PENDING_QUERIES : gmap string PendingQuery;
  warehouse_log : list (string * string);
}.

Definition with_pending (d : gmap string PendingQuery) (w : World) : World :=
  {| _PENDING_QUERIES := d; warehouse_log := warehouse_log w |}.

Definition with_statement (entry : string * string) (w : World) : World :=
  {| _PENDING_QUERIES := _PENDING_QUERIES w;
     warehouse_log := warehouse_log w ++ [entry] |}.

(** [d.pop(key, None)] *)
Definition dict_pop (key : string) (d : gmap string PendingQuery)
  : option PendingQuery * gmap string PendingQuery :=
  (d !! key, delete key d).

Definition _register_pending_query (tool_name sql : string) (e : Entropy) (w : World)
  : PendingQuery * World :=
  let query_id := fresh_uuid e in
  let pq := {| query_id := query_id; tool_name := tool_name;
               sql := strip sql; created_at := now e |} in
  (pq, with_pending (<[query_id := pq]> (_PENDING_QUERIES w)) w).

Definition get_pending_query (query_id : string) (w : World) : option PendingQuery :=
  _PENDING_QUERIES w !! query_id.

Definition cancel_pending_query (query_id : string) (w : World) : bool * World :=
  let '(popped, d) := dict_pop query_id (_PENDING_QUERIES w) in
  (bool_decide (is_Some popped), with_pending d w).

Definition NO_PENDING_QUERY : string :=
  "No pending query found (it may have been executed or cancelled already).".

(** The body of [with get_chatbot_snowflake_connection() as conn: ...].
    The context manager rewraps every exception, from [connect] and from the
    body alike, as [Snowflake connection failed: ...]. The world records the
    statement, under the [query_id] of the call, as soon as [cursor.execute]
    is reached. *)
Definition run_on_snowflake `{Platform} (sf : Snowflake) (query_id : string)
    (pq : PendingQuery) (w : World) : Exc string * World :=
  match sf_connect sf with
  | Raised msg => (Raised ("Snowflake connection failed: " +:+ msg), w)
  | Returned _ =>
      let w' := with_statement (query_id, sql pq) w in
      match sf_run sf (sql pq) with
      | Raised msg => (Raised ("Snowflake connection failed: " +:+ msg), w')
      | Returned (columns, results) =>
          match results with
          | [] => (Returned "Query executed successfully but returned no rows.", w')
          | _ :: _ =>
              match records_to_json columns results with
              | Raised msg => (Raised ("Snowflake connection failed: " +:+ msg), w')
              | Returned js => (Returned js, w')
              end
          end
      end
  end.

Definition execute_pending_query `{Platform} (sf : Snowflake) (query_id : string) (w : World)
  : string * World :=
  let '(popped, d) := dict_pop query_id (_PENDING_QUERIES w) in
  let w := with_pending d w in
  match popped with
  | None => (NO_PENDING_QUERY, w)
  | Some pq =>
      match run_on_snowflake sf query_id pq w with
      | (Returned out, w') => (out, w')
      | (Raised msg, w') => ("Error executing query: " +:+ msg, w')
      end
  end.

(** The dict handed to [json.dumps] by [_pending_response]. *)
Definition pending_payload (pq : PendingQuery) : value :=
  VDict [("status", VStr "PENDING_APPROVAL"); ("query", asdict pq)].

Definition _pending_response `{Platform} (pq : PendingQuery) : string :=
  json_dumps (pending_payload pq).

(** [parts[0]] *)
Definition first_item (parts : list string) : Exc string :=
  match parts with
  | [] => Raised "list index out of range"
  | p :: _ => Returned p
  end.

(** *** query_transactions *)

(** The [try] body of [query_transactions] up to the SQL text. *)
Definition query_transactions_sql `{Platform}
    (customer_id customer_name asset_symbol transaction_type : option string)
    (limit : Z) : Exc string :=
  let conditions : list string := [] in
  let conditions :=
    if given customer_id
    then conditions ++ ["c.customer_id = '" +:+ text customer_id +:+ "'"]
    else conditions in
  conditions ←
    (if given customer_name then
       let name_parts := split (strip (text customer_name)) in
       if bool_decide (2 ≤ length name_parts)%nat then
         first_name ← first_item name_parts;
         let last_name := join " " (drop 1 name_parts) in
         mret (conditions ++
           ["TRIM(c.first_name) ILIKE '%" +:+ first_name +:+
            "%' AND TRIM(c.last_name) ILIKE '%" +:+ last_name +:+ "%'"])
       else
         name ← first_item name_parts;
         mret (conditions ++
           ["TRIM(c.first_name) ILIKE ('%" +:+ name +:+
            "%') OR TRIP(c.last_name) ILIKE '%" +:+ name +:+ "%'"])
     else mret conditions);
  let conditions :=
    if given asset_symbol
    then conditions ++ ["h.asset_symbol = '" +:+ text asset_symbol +:+ "'"]
    else conditions in
  let conditions :=
    if given transaction_type
    then conditions ++ ["t.transaction_type = '" +:+ upper (text transaction_type) +:+ "'"]
    else conditions in
  let where_clause :=
    match conditions with
    | [] => EmptyString
    | _ :: _ => "WHERE " +:+ join " AND " conditions
    end in
  mret (py_lines [
    EmptyString;
    "        SELECT";
    "            c.customer_id,";
    "            c.first_name,";
    "            c.last_name,";
    "            h.asset_symbol,";
    "            h.asset_type,";
    "            t.transaction_type,";
    "            t.transaction_amount,";
    "            t.fee_amount,";
    "            t.transaction_timestamp,";
    "            t.data_date,";
    "            c.customer_tier,";
    "            c.country";
    "        FROM " +:+ SNOWFLAKE_DATABASE +:+ "." +:+ SNOWFLAKE_SCHEMA +:+ "_" +:+ MARTS_SCHEMA +:+ ".fct_transactions t";
    "        JOIN " +:+ SNOWFLAKE_DATABASE +:+ "." +:+ SNOWFLAKE_SCHEMA +:+ "_" +:+ MARTS_SCHEMA +:+ ".dim_customer c";
    "            ON t.customer_hk = c.customer_hk";
    "        JOIN " +:+ SNOWFLAKE_DATABASE +:+ "." +:+ SNOWFLAKE_SCHEMA +:+ "_" +:+ MARTS_SCHEMA +:+ ".dim_asset h";
    "            ON t.asset_hk = h.asset_hk";
    "        " +:+ where_clause;
    "        ORDER BY t.transaction_timestamp DESC";
    "        LIMIT " +:+ pretty limit;
    "        " ]).

Definition query_transactions `{Platform}
    (customer_id customer_name asset_symbol transaction_type : option string)
    (limit : Z) (e : Entropy) (w : World) : string * World :=
  match query_transactions_sql customer_id customer_name asset_symbol transaction_type limit with
  | Returned sql =>
      let '(pq, w') := _register_pending_query "query_transactions" sql e w in
      (_pending_response pq, w')
  | Raised msg => ("Error preparing transactions query: " +:+ msg, w)
  end.

(** *** query_asset_prices *)

Definition query_asset_prices_sql `{Platform}
    (asset_symbol asset_type : option string) (days limit : Z) : string :=
  let conditions :=
    ["observed_at >= DATEADD(day, -" +:+ pretty days +:+ ", CURRENT_DATE())"] in
  let conditions :=
    if given asset_symbol
    then conditions ++ ["asset_symbol = '" +:+ text asset_symbol +:+ "'"]
    else conditions in
  let conditions :=
    if given asset_type
    then conditions ++ ["asset_type = '" +:+ text asset_type +:+ "'"]
    else conditions in
  let where_clause := "WHERE " +:+ join " AND " conditions in
  py_lines [
    EmptyString;
    "        SELECT";
    "            asset_symbol,";
    "            asset_type,";
    "            observed_at,";
    "            price,";
    "            volume,";
    "            price_source,";
    "            asset_class,";
    "            price_date";
    "        FROM " +:+ SNOWFLAKE_DATABASE +:+ "." +:+ SNOWFLAKE_SCHEMA +:+ "_" +:+ MARTS_SCHEMA +:+ ".fct_asset_prices";
    "        " +:+ where_clause;
    "        ORDER BY observed_at DESC";
    "        LIMIT " +:+ pretty limit;
    "        " ].

Definition query_asset_prices `{Platform}
    (asset_symbol asset_type : option string) (days limit : Z)
    (e : Entropy) (w : World) : string * World :=
  let sql := query_asset_prices_sql asset_symbol asset_type days limit in
  let '(pq, w') := _register_pending_query "query_asset_prices" sql e w in
  (_pending_response pq, w').

(** *** query_transaction_summary *)

Definition valid_groups : list string :=
  ["asset_symbol"; "customer_tier"; "country"; "transaction_type"].

Definition query_transaction_summary_sql `{Platform} (group_by : string) (limit : Z) : string :=
  py_lines [
    EmptyString;
    "        SELECT";
    "            " +:+ group_by +:+ ",";
    "            COUNT(*) as transaction_count,";
    "            SUM(t.transaction_amount) as total_amount,";
    "            AVG(t.transaction_amount) as avg_amount,";
    "            SUM(t.fee_amount) as total_fees,";
    "            COUNT(DISTINCT t.customer_hk) as unique_customers";
    "        FROM " +:+ SNOWFLAKE_DATABASE +:+ "." +:+ SNOWFLAKE_SCHEMA +:+ "_" +:+ MARTS_SCHEMA +:+ ".fct_transactions t";
    "        JOIN " +:+ SNOWFLAKE_DATABASE +:+ "." +:+ SNOWFLAKE_SCHEMA +:+ "_" +:+ MARTS_SCHEMA +:+ ".dim_customer c";
    "            ON t.customer_hk = c.customer_hk";
    "        JOIN " +:+ SNOWFLAKE_DATABASE +:+ "." +:+ SNOWFLAKE_SCHEMA +:+ "_" +:+ MARTS_SCHEMA +:+ ".dim_asset h";
    "            ON t.asset_hk = h.asset_hk";
    "        GROUP BY " +:+ group_by;
    "        ORDER BY total_amount DESC";
    "        LIMIT " +:+ pretty limit;
    "        " ].

Definition query_transaction_summary `{Platform}
    (group_by : string) (limit : Z) (e : Entropy) (w : World) : string * World :=
  if negb (bool_decide (group_by ∈ valid_groups))
  then ("Invalid group_by. Must be one of: " +:+ join ", " valid_groups, w)
  else
    let sql := query_transaction_summary_sql group_by limit in
    let '(pq, w') := _register_pending_query "query_transaction_summary" sql e w in
    (_pending_response pq, w').

(** *** query_price_trends *)

Definition query_price_trends_sql `{Platform} (asset_symbol : string) (days : Z) : string :=
  py_lines [
    EmptyString;
    "        SELECT";
    "            asset_symbol,";
    "            price_date,";
    "            observed_at,";
    "            price,";
    "            volume,";
    "            price_source,";
    "            LAG(price) OVER (ORDER BY observed_at) as previous_price,";
    "            price - LAG(price) OVER (ORDER BY observed_at) as price_change,";
    "            ((price - LAG(price) OVER (ORDER BY observed_at)) / LAG(price) OVER (ORDER BY observed_at)) * 100 as price_change_pct";
    "        FROM " +:+ SNOWFLAKE_DATABASE +:+ "." +:+ SNOWFLAKE_SCHEMA +:+ "_" +:+ MARTS_SCHEMA +:+ ".fct_asset_prices";
    "        WHERE asset_symbol = '" +:+ asset_symbol +:+ "'";
    "            AND observed_at >= DATEADD(day, -" +:+ pretty days +:+ ", CURRENT_DATE())";
    "        ORDER BY observed_at ASC";
    "        " ].

Definition query_price_trends `{Platform}
    (asset_symbol : string) (days : Z) (e : Entropy) (w : World) : string * World :=
  let sql := query_price_trends_sql asset_symbol days in
  let '(pq, w') := _register_pending_query "query_price_trends" sql e w in
  (_pending_response pq, w').

(** *** query_news_events *)

Definition query_news_events_sql `{Platform} (asset_symbol : option string) (limit : Z) : string :=
  let where_clause :=
    if given asset_symbol
    then "WHERE h.asset_symbol = '" +:+ text asset_symbol +:+ "'"
    else EmptyString in
  py_lines [
    EmptyString;
    "        SELECT";
    "            h.asset_symbol,";
    "            n.title,";
    "            n.description,";
    "            n.published_at,";
    "            n.ingestion_source";
    "        FROM " +:+ SNOWFLAKE_DATABASE +:+ "." +:+ SNOWFLAKE_SCHEMA +:+ "_" +:+ MARTS_SCHEMA +:+ ".fct_news_events n";
    "        JOIN " +:+ SNOWFLAKE_DATABASE +:+ "." +:+ SNOWFLAKE_SCHEMA +:+ "_" +:+ MARTS_SCHEMA +:+ ".dim_asset h";
    "            ON n.asset_hk = h.asset_hk";
    "        " +:+ where_clause;
    "        ORDER BY n.published_at DESC";
    "        LIMIT " +:+ pretty limit;
    "        " ].

Definition query_news_events `{Platform}
    (asset_symbol : option string) (limit : Z) (e : Entropy) (w : World) : string * World :=
  let sql := query_news_events_sql asset_symbol limit in
  let '(pq, w') := _register_pending_query "query_news_events" sql e w in
  (_pending_response pq, w').

(** *** query_customer_by_name *)

Definition query_customer_by_name_sql `{Platform} (customer_name : string) (limit : Z)
  : Exc string :=
  let name_parts := split (strip customer_name) in
  where_clause ←
    (if bool_decide (2 ≤ length name_parts)%nat then
       first_name ← first_item name_parts;
       let last_name := join " " (drop 1 name_parts) in
       mret ("WHERE TRIM(c.first_name) ILIKE '%" +:+ first_name +:+
             "%' AND TRIM(c.last_name) LIKE '%" +:+ last_name +:+ "%'")
     else
       name ← first_item name_parts;
       mret ("WHERE TRIM(c.first_name) LIKE '%" +:+ name +:+
             "%' OR TRIM(c.last_name) LIKE '%" +:+ name +:+ "%'"));
  mret (py_lines [
    EmptyString;
    "        SELECT";
    "            c.customer_id,";
    "            c.first_name,";
    "            c.last_name,";
    "            c.email_addr,";
    "            c.country,";
    "            c.customer_tier,";
    "            c.risk_tolerance,";
    "            c.company_name";
    "        FROM " +:+ SNOWFLAKE_DATABASE +:+ "." +:+ SNOWFLAKE_SCHEMA +:+ "_" +:+ MARTS_SCHEMA +:+ ".dim_customer c";
    "        " +:+ where_clause;
    "        ORDER BY c.customer_id";
    "        LIMIT " +:+ pretty limit;
    "        " ]).

Definition query_customer_by_name `{Platform}
    (customer_name : string) (limit : Z) (e : Entropy) (w : World) : string * World :=
  match query_customer_by_name_sql customer_name limit with
  | Returned sql =>
      let '(pq, w') := _register_pending_query "query_customer_by_name" sql e w in
      (_pending_response pq, w')
  | Raised msg => ("Error preparing customer search query: " +:+ msg, w)
  end.

(** *** WAREHOUSE_TOOLS *)

(** The [name] of each tool in [WAREHOUSE_TOOLS], in list order. *)
Definition WAREHOUSE_TOOLS : list string :=
  ["query_transactions"; "query_asset_prices"; "query_transaction_summary";
   "query_price_trends"; "query_news_events"; "query_customer_by_name"].


End warehouse_tools.

(** * scripts/chatbot/chatbot.py *)

Module chatbot.
Import warehouse_tools.

(** ** Messages *)

(** [msg.content] is a [str], or a list of content blocks. *)
Inductive Content : Type :=
| CText (s : string)
| CBlocks (blocks : list value).

(** One entry of [AIMessage.tool_calls]: [{"name": ..., "args": ..., "id": ...}]. *)
Record ToolCall : Type := {
  tc_name : string;
  tc_args : value;
  tc_id : string;
}.

Inductive Message : Type :=
| SystemMessage (content : Content)
| HumanMessage (content : Content)
| AIMessage (content : Content) (tool_calls : list ToolCall)
| ToolMessage (content : Content) (name : string) (tool_call_id : string).

Definition content_of (msg : Message) : Content :=
  match msg with
  | SystemMessage c | HumanMessage c | AIMessage c _ | ToolMessage c _ _ => c
  end.

(** [msg.tool_calls] where [hasattr(msg, "tool_calls")], and [[]] elsewhere:
    the guard [hasattr(msg, "tool_calls") and msg.tool_calls] holds exactly
    when this list is not empty. *)
Definition tool_calls_of (msg : Message) : list ToolCall :=
  match msg with
  | AIMessage _ tcs => tcs
  | _ => []
  end.

(** ** The agent graph *)

(** [tool.invoke(tool_args)]: a result or an exception, and the world after
    the call. *)
Definition Tool (W : Type) : Type := value -> W -> Exc value * W.

(** What [_create_agent_graph] closes over: the system prompt, the model with
    the tools bound (answering the full message list), [self.tools_by_name],
    and the number of node executions after which the graph runtime gives up
    an invocation by raising. *)
Record Graph (W : Type) : Type := {
  system_prompt : string;
  llm_with_tools : list Message -> Exc Message;
  tools_by_name : gmap string (Tool W);
  recursion_limit : nat;
}.
Arguments system_prompt {W} g.
Arguments llm_with_tools {W} g.
Arguments tools_by_name {W} g.
Arguments recursion_limit {W} g.

(** [str(tool_result) if not isinstance(tool_result, str) else tool_result] *)
Definition result_text `{Platform} (tool_result : value) : string :=
  match tool_result with
  | VStr s => s
  | other => py_str other
  end.

(** [chatbot_node]: the messages it adds to the state. *)
Definition chatbot_node {W} (g : Graph W) (messages : list Message) : Exc (list Message) :=
  let full_messages := SystemMessage (CText (system_prompt g)) :: messages in
  response ← llm_with_tools g full_messages;
  mret [response].

(** The [try] block in the loop of [tools_node], for one tool call. *)
Definition try_tool_call `{Platform} {W} (g : Graph W) (tool_call : ToolCall) (w : W)
  : Exc Message * W :=
  let tool_name := tc_name tool_call in
  let tool_args := tc_args tool_call in
  match tools_by_name g !! tool_name with
  | Some tool =>
      match tool tool_args w with
      | (Returned tool_result, w') =>
          (Returned (ToolMessage (CText (result_text tool_result)) tool_name (tc_id tool_call)), w')
      | (Raised msg, w') => (Raised msg, w')
      end
  | None =>
      (Returned (ToolMessage (CText ("Tool " +:+ tool_name +:+ " not found"))
                             tool_name (tc_id tool_call)), w)
  end.

(** One iteration of the loop: the [try] block and its [except Exception]. *)
Definition run_tool_call `{Platform} {W} (g : Graph W) (tool_call : ToolCall) (w : W)
  : Message * W :=
  match try_tool_call g tool_call w with
  | (Returned output, w') => (output, w')
  | (Raised msg, w') =>
      (ToolMessage (CText ("Error: " +:+ msg)) (tc_name tool_call) (tc_id tool_call), w')
  end.

(** [for tool_call in last_message.tool_calls: ... outputs.append(...)] *)
Fixpoint run_tool_calls `{Platform} {W} (g : Graph W) (tool_calls : list ToolCall)
    (outputs : list Message) (w : W) : list Message * W :=
  match tool_calls with
  | [] => (outputs, w)
  | tool_call :: rest =>
      let '(output, w') := run_tool_call g tool_call w in
      run_tool_calls g rest (outputs ++ [output]) w'
  end.

(** [tools_node]: the messages it adds to the state. *)
Definition tools_node `{Platform} {W} (g : Graph W) (messages : list Message) (w : W)
  : list Message * W :=
  match last messages with
  | None => ([], w)
  | Some last_message =>
      match tool_calls_of last_message with
      | [] => ([], w)
      | tool_calls => run_tool_calls g tool_calls [] w
      end
  end.

Inductive Route : Type := route_tools | route_end.

Definition route_query (messages : list Message) : Route :=
  match last messages with
  | None => route_end
  | Some last_message =>
      match tool_calls_of last_message with
      | [] => route_end
      | _ :: _ => route_tools
      end
  end.

Inductive Node : Type := node_chatbot | node_tools.

(** The compiled graph: START -> chatbot, chatbot -> tools or END by
    [route_query], tools -> chatbot. Every node's messages are appended to
    the state. [steps] is what is left of the recursion limit; the text
    raised at the limit stands for the one of the graph runtime's
    [GraphRecursionError]. *)
Fixpoint run_graph `{Platform} {W} (g : Graph W) (steps : nat) (node : Node)
    (messages : list Message) (w : W) : Exc (list Message) * W :=
  match steps with
  | O => (Raised "Recursion limit reached without hitting a stop condition.", w)
  | S steps =>
      match node with
      | node_chatbot =>
          match chatbot_node g messages with
          | Raised msg => (Raised msg, w)
          | Returned added =>
              let messages := messages ++ added in
              match route_query messages with
              | route_tools => run_graph g steps node_tools messages w
              | route_end => (Returned messages, w)
              end
          end
      | node_tools =>
          let '(added, w') := tools_node g messages w in
          run_graph g steps node_chatbot (messages ++ added) w'
      end
  end.

(** [self.graph.invoke({"messages": [HumanMessage(content=question)]}, config)]
    on a thread whose checkpoint holds [history]. *)
Definition graph_invoke `{Platform} {W} (g : Graph W) (history : list Message)
    (question : string) (w : W) : Exc (list Message) * W :=
  run_graph g (recursion_limit g) node_chatbot (history ++ [HumanMessage (CText question)]) w.

(** ** chat *)

(** One entry of [sources]: [{"content": ..., "metadata": ...}]. *)
Record Source : Type := {
  src_content : string;
  src_metadata : value;
}.

(** The dict [chat] returns. [pending_queries] is [None] where the key is
    not set. *)
Record TurnResult : Type := {
  answer : Content;
  sources : list Source;
  warehouse_tools_used : list string;
  rag_tools_used : list string;
  pending_queries : option (list value);
  method : string;
}.

Definition _try_parse_pending_query_payload `{Platform} (payload : string) : option value :=
  match json_loads payload with
  | Raised _ => None
  | Returned (VDict items) =>
      match dict_get "status" items, dict_get "query" items with
      | Some (VStr status), Some (VDict query) =>
          if bool_decide (status = "PENDING_APPROVAL") then Some (VDict query) else None
      | _, _ => None
      end
  | Returned _ => None
  end.

(** The four lists [chat] fills while it walks the messages of the turn. *)
Record Tally : Type := {
  t_sources : list Source;
  t_warehouse : list string;
  t_rag : list string;
  t_pending : list value;
}.

Definition empty_tally : Tally :=
  {| t_sources := []; t_warehouse := []; t_rag := []; t_pending := [] |}.

(** [for tool in WAREHOUSE_TOOLS: if tool.name == tool_name: append; break] *)
Fixpoint note_warehouse_tool (tools : list string) (tool_name : string)
    (used : list string) : list string :=
  match tools with
  | [] => used
  | tool :: rest =>
      if bool_decide (tool = tool_name) then used ++ [tool_name]
      else note_warehouse_tool rest tool_name used
  end.

(** The body of [for tool_call in msg.tool_calls]. *)
Definition note_tool_call (t : Tally) (tool_call : ToolCall) : Tally :=
  let tool_name := tc_name tool_call in
  {| t_sources := t_sources t;
     t_warehouse := note_warehouse_tool WAREHOUSE_TOOLS tool_name (t_warehouse t);
     t_rag := if bool_decide (tool_name = "document_search")
              then t_rag t ++ [tool_name] else t_rag t;
     t_pending := t_pending t |}.

(** [value[:200] + "..."]: defined on a [str], a [TypeError] on a list (which
    cannot be concatenated with a [str]) and on anything that has no slices. *)
Definition preview (v : value) : Exc string :=
  match v with
  | VStr s => Returned (str_take 200 s +:+ "...")
  | _ => Raised "TypeError"
  end.

(** The body of [for doc in docs[:3]], appending to [sources] in place: an
    exception leaves what was appended before it. *)
Fixpoint append_sources `{Platform} (docs : list value) (sources : list Source)
  : Exc unit * list Source :=
  match docs with
  | [] => (Returned (), sources)
  | doc :: rest =>
      match doc with
      | VDict items =>
          match preview (default (VStr (py_str doc)) (dict_get "page_content" items)) with
          | Returned shown =>
              append_sources rest
                (sources ++ [{| src_content := shown;
                                src_metadata := default (VDict []) (dict_get "metadata" items) |}])
          | Raised msg => (Raised msg, sources)
          end
      | _ => append_sources rest sources
      end
  end.

(** The [try] block under [if tool_name == "document_search"]. *)
Definition try_document_sources `{Platform} (content : Content) (sources : list Source)
  : Exc unit * list Source :=
  match (match content with
         | CText s => json_loads s
         | CBlocks blocks => Returned (VList blocks)
         end) with
  | Raised msg => (Raised msg, sources)
  | Returned (VList docs) => append_sources (take 3 docs) sources
  | Returned _ => (Returned (), sources)
  end.

(** The [try] block with its [except: pass]. *)
Definition document_sources `{Platform} (content : Content) (sources : list Source)
  : list Source :=
  (try_document_sources content sources).2.

(** The body of [if isinstance(msg, ToolMessage)]. *)
Definition note_tool_message `{Platform} (t : Tally) (content : Content) (tool_name : string)
  : Tally :=
  let t :=
    if bool_decide (tool_name = "document_search") then
      {| t_sources := document_sources content (t_sources t);
         t_warehouse := t_warehouse t;
         t_rag := if bool_decide ("document_search" ∈ t_rag t)
                  then t_rag t else t_rag t ++ ["document_search"];
         t_pending := t_pending t |}
    else t in
  match content with
  | CText payload =>
      match _try_parse_pending_query_payload payload with
      | Some pq =>
          {| t_sources := t_sources t; t_warehouse := t_warehouse t; t_rag := t_rag t;
             t_pending := t_pending t ++ [pq] |}
      | None => t
      end
  | CBlocks _ => t
  end.

(** The body of [for msg in messages_this_turn]. *)
Definition note_message `{Platform} (t : Tally) (msg : Message) : Tally :=
  let t := foldl note_tool_call t (tool_calls_of msg) in
  match msg with
  | ToolMessage content tool_name _ => note_tool_message t content tool_name
  | _ => t
  end.

Definition tally_messages `{Platform} (messages_this_turn : list Message) : Tally :=
  foldl note_message empty_tally messages_this_turn.

(** [len(current_state.values.get("messages", [])) if current_state.values else 0],
    and [0] when [get_state] raised. *)
Definition count_messages_before (state_values : Exc (gmap string (list Message))) : nat :=
  match state_values with
  | Returned values =>
      if bool_decide (dom values = ∅) then 0%nat
      else length (default [] (values !! "messages"))
  | Raised _ => 0%nat
  end.

(** [result["messages"][messages_before:] if messages_before > 0 else result["messages"]] *)
Definition select_this_turn (messages_before : nat) (messages : list Message) : list Message :=
  if bool_decide (0 < messages_before)%nat then drop messages_before messages else messages.

(** [answer or fallback] *)
Definition answer_or (answer : Content) (fallback : string) : Content :=
  match answer with
  | CText s => if bool_decide (s = EmptyString) then CText fallback else answer
  | CBlocks [] => CText fallback
  | CBlocks (_ :: _) => answer
  end.

(** The [try] body of [chat], given what [self.graph.get_state(config)] and
    [self.graph.invoke(...)] did. *)
Definition chat_body `{Platform} (state_values : Exc (gmap string (list Message)))
    (invoked : Exc (list Message)) : Exc TurnResult :=
  let messages_before := count_messages_before state_values in
  messages ← invoked;
  final_message ← match last messages with
                  | Some m => Returned m
                  | None => Raised "list index out of range"
                  end;
  let answer := content_of final_message in
  let messages_this_turn := select_this_turn messages_before messages in
  let t := tally_messages messages_this_turn in
  match t_pending t with
  | _ :: _ =>
      mret {| answer := answer_or answer
                "I can run a warehouse query to answer that. Please review and approve the SQL.";
              sources := t_sources t;
              warehouse_tools_used := t_warehouse t;
              rag_tools_used := t_rag t;
              pending_queries := Some (t_pending t);
              method := "pending_approval" |}
  | [] =>
      mret {| answer := answer_or answer "I couldn't generate a response.";
              sources := t_sources t;
              warehouse_tools_used := t_warehouse t;
              rag_tools_used := t_rag t;
              pending_queries := None;
              method := "agent_with_tools" |}
  end.

(** The dict built by the [except Exception as e] of [chat]. *)
Definition error_result (msg : string) : TurnResult :=
  {| answer := CText ("I encountered an error: " +:+ msg +:+
                      ". Please try rephrasing your question.");
     sources := [];
     warehouse_tools_used := [];
     rag_tools_used := [];
     pending_queries := None;
     method := "error" |}.

Definition chat `{Platform} (state_values : Exc (gmap string (list Message)))
    (invoked : Exc (list Message)) : TurnResult :=
  match chat_body state_values invoked with
  | Returned result => result
  | Raised msg => error_result msg
  end.

(** [chat(question, thread_id)] on the graph: [state_values] is what
    [get_state] answers for the thread, [history] what its checkpoint holds. *)
Definition chat_on_graph `{Platform} {W} (g : Graph W)
    (state_values : Exc (gmap string (list Message))) (history : list Message)
    (question : string) (w : W) : TurnResult * W :=
  let '(invoked, w') := graph_invoke g history question w in
  (chat state_values invoked, w').

Definition execute_approved_query `{Platform} (sf : Snowflake) (query_id : string) (w : World)
  : string * World :=
  execute_pending_query sf query_id w.

Definition cancel_query (query_id : string) (w : World) : bool * World :=
  cancel_pending_query query_id w.

End chatbot.

(** * Call sequences on the pending-query store *)

Module store_trace.
Import warehouse_tools.

(** One call that touches [_PENDING_QUERIES], with what the outside world
    does during the call. *)
Inductive StoreCall : Type :=
| Stage (tool_name sql : string) (e : Entropy)
| Cancel (query_id : string)
| Execute (sf : Snowflake) (query_id : string).

Inductive Reply : Type :=
| Staged (pq : PendingQuery)
| Cancelled (found : bool)
| Executed (out : string).

Definition perform `{Platform} (c : StoreCall) (w : World) : Reply * World :=
  match c with
  | Stage tool_name sql e =>
      let '(pq, w') := _register_pending_query tool_name sql e w in (Staged pq, w')
  | Cancel query_id =>
      let '(found, w') := cancel_pending_query query_id w in (Cancelled found, w')
  | Execute sf query_id =>
      let '(out, w') := execute_pending_query sf query_id w in (Executed out, w')
  end.

(** The calls one after the other; the replies in call order. *)
Fixpoint perform_all `{Platform} (cs : list StoreCall) (w : World) : list Reply * World :=
  match cs with
  | [] => ([], w)
  | c :: rest =>
      let '(r, w1) := perform c w in
      let '(rs, w2) := perform_all rest w1 in
      (r :: rs, w2)
  end.

(** The call hands out [q] as a new query id. *)
Definition stages (q : string) (c : StoreCall) : bool :=
  match c with
  | Stage _ _ e => bool_decide (fresh_uuid e = q)
  | _ => false
  end.

(** The call is an approve or a cancel of [q]. *)
Definition consumes (q : string) (c : StoreCall) : bool :=
  match c with
  | Stage _ _ _ => false
  | Cancel query_id | Execute _ query_id => bool_decide (query_id = q)
  end.

(** The reply of a consuming call that found no record. *)
Definition found_nothing (r : Reply) : bool :=
  match r with
  | Staged _ => false
  | Cancelled found => negb found
  | Executed out => bool_decide (out = NO_PENDING_QUERY)
  end.

(** How many statements the warehouse was handed on behalf of [q]. *)
Definition executions (q : string) (w : World) : nat :=
  length (filter (λ entry, entry.1 = q) (warehouse_log w)).

(** Every reply to a call that consumes [q] says that nothing was found. *)
Fixpoint all_found_nothing (q : string) (cs : list StoreCall) (rs : list Reply) : bool :=
  match cs, rs with
  | c :: cs', r :: rs' =>
      (if consumes q c then found_nothing r else true) && all_found_nothing q cs' rs'
  | _, _ => true
  end.

End store_trace.

(** * Invocations of the warehouse tools *)

Module tool_calls.
Import warehouse_tools.

(** One validated invocation of a tool of [WAREHOUSE_TOOLS]. *)
Inductive WarehouseCall : Type :=
| call_query_transactions
    (customer_id customer_name asset_symbol transaction_type : option string) (limit : Z)
| call_query_asset_prices (asset_symbol asset_type : option string) (days limit : Z)
| call_query_transaction_summary (group_by : string) (limit : Z)
| call_query_price_trends (asset_symbol : string) (days : Z)
| call_query_news_events (asset_symbol : option string) (limit : Z)
| call_query_customer_by_name (customer_name : string) (limit : Z).

Definition name_of (c : WarehouseCall) : string :=
  match c with
  | call_query_transactions _ _ _ _ _ => "query_transactions"
  | call_query_asset_prices _ _ _ _ => "query_asset_prices"
  | call_query_transaction_summary _ _ => "query_transaction_summary"
  | call_query_price_trends _ _ => "query_price_trends"
  | call_query_news_events _ _ => "query_news_events"
  | call_query_customer_by_name _ _ => "query_customer_by_name"
  end.

Definition invoke `{Platform} (c : WarehouseCall) (e : Entropy) (w : World) : string * World :=
  match c with
  | call_query_transactions customer_id customer_name asset_symbol transaction_type limit =>
      query_transactions customer_id customer_name asset_symbol transaction_type limit e w
  | call_query_asset_prices asset_symbol asset_type days limit =>
      query_asset_prices asset_symbol asset_type days limit e w
  | call_query_transaction_summary group_by limit =>
      query_transaction_summary group_by limit e w
  | call_query_price_trends asset_symbol days => query_price_trends asset_symbol days e w
  | call_query_news_events asset_symbol limit => query_news_events asset_symbol limit e w
  | call_query_customer_by_name customer_name limit =>
      query_customer_by_name customer_name limit e w
  end.

(** The SQL text the arguments build, where they build one: no exception on
    the way, and a [group_by] that is accepted. *)
Definition built_sql `{Platform} (c : WarehouseCall) : option string :=
  match c with
  | call_query_transactions customer_id customer_name asset_symbol transaction_type limit =>
      match query_transactions_sql customer_id customer_name asset_symbol transaction_type limit with
      | Returned sql => Some sql
      | Raised _ => None
      end
  | call_query_asset_prices asset_symbol asset_type days limit =>
      Some (query_asset_prices_sql asset_symbol asset_type days limit)
  | call_query_transaction_summary group_by limit =>
      if bool_decide (group_by ∈ valid_groups)
      then Some (query_transaction_summary_sql group_by limit) else None
  | call_query_price_trends asset_symbol days =>
      Some (query_price_trends_sql asset_symbol days)
  | call_query_news_events asset_symbol limit =>
      Some (query_news_events_sql asset_symbol limit)
  | call_query_customer_by_name customer_name limit =>
      match query_customer_by_name_sql customer_name limit with
      | Returned sql => Some sql
      | Raised _ => None
      end
  end.

(** A warehouse tool as [tools_node] calls it, [tool.invoke(tool_args)]: the
    tool decorator checks the argument dict against the parameters of the
    function ([validate], raising on a mismatch), then the function runs with
    what [uuid4] and [time] give at that moment ([draw]). *)
Definition as_tool `{Platform} (validate : value → Exc WarehouseCall)
    (draw : World → Entropy) : chatbot.Tool World :=
  λ tool_args w,
    match validate tool_args with
    | Raised msg => (Raised msg, w)
    | Returned c =>
        let '(out, w') := invoke c (draw w) w in
        (Returned (VStr out), w')
    end.

End tool_calls.

(** * A reference platform

    A small JSON printer and reader in the layout of [json.dumps] (a blank
    after [,] and [:]), the [repr] of the same objects, and the compact layout
    of [DataFrame.to_json], enough to run the program on concrete inputs of
    ASCII text: strings with the escapes for the quote, the backslash, line
    feed, tab and carriage return; floats written in full where they have at
    most 17 decimals, and never in exponent notation; an object read with a
    key twice keeps the place of the first and the value of the last. *)

Module reference.

Definition quote_char : ascii := ascii_of_nat 34.
Definition backslash : ascii := ascii_of_nat 92.
Definition quote : string := String quote_char EmptyString.

Fixpoint escape (s : string) : string :=
  match s with
  | EmptyString => EmptyString
  | String c rest =>
      let n := nat_of_ascii c in
      if bool_decide (n = 34%nat) then String backslash (String quote_char (escape rest))
      else if bool_decide (n = 92%nat) then String backslash (String backslash (escape rest))
      else if bool_decide (n = 10%nat) then String backslash (String "n" (escape rest))
      else if bool_decide (n = 9%nat) then String backslash (String "t" (escape rest))
      else if bool_decide (n = 13%nat) then String backslash (String "r" (escape rest))
      else String c (escape rest)
  end.

(** The digits of [n], padded with zeros on the left to [width] characters. *)
Definition padded (width : nat) (n : Z) : string :=
  let digits := pretty n in
  String.concat EmptyString (replicate (width - String.length digits) "0") +:+ digits.

(** The least number of decimals, from [k] on and at most [k + fuel], that
    write [q] in full. *)
Fixpoint decimals (fuel : nat) (k : nat) (q : Q) : nat :=
  match fuel with
  | O => k
  | S fuel =>
      if bool_decide ((Z.abs (Qnum q) * 10 ^ Z.of_nat k) `mod` Z.pos (Qden q) = 0) then k
      else decimals fuel (S k) q
  end.

Definition dump_float (q : Q) : string :=
  let k := decimals 16 1 q in
  let scale := 10 ^ Z.of_nat k in
  let scaled := (Z.abs (Qnum q) * scale) `div` Z.pos (Qden q) in
  (if bool_decide (Qnum q < 0) then "-" else EmptyString) +:+
  pretty (scaled `div` scale) +:+ "." +:+ padded k (scaled `mod` scale).

Fixpoint dumps (v : value) : string :=
  match v with
  | VNone => "null"
  | VBool true => "true"
  | VBool false => "false"
  | VInt z => pretty z
  | VFloat q => dump_float q
  | VStr s => quote +:+ escape s +:+ quote
  | VList l => "[" +:+ join ", " (map dumps l) +:+ "]"
  | VDict items =>
      "{" +:+ join ", " (map (λ kv, quote +:+ escape kv.1 +:+ quote +:+ ": " +:+ dumps kv.2) items)
          +:+ "}"
  end.

(** The text of a string literal after its opening quote, and what follows
    the closing quote. [acc] holds the characters read, last first. *)
Fixpoint read_string (acc : string) (s : string) : option (string * string) :=
  match s with
  | EmptyString => None
  | String c rest =>
      if bool_decide (nat_of_ascii c = 34%nat) then Some (String.rev acc, rest)
      else if bool_decide (nat_of_ascii c = 92%nat) then
        match rest with
        | String d rest' =>
            let n := nat_of_ascii d in
            if bool_decide (n = 34%nat) then read_string (String quote_char acc) rest'
            else if bool_decide (n = 92%nat) then read_string (String backslash acc) rest'
            else if bool_decide (n = 110%nat) then read_string (String (ascii_of_nat 10) acc) rest'
            else if bool_decide (n = 116%nat) then read_string (String (ascii_of_nat 9) acc) rest'
            else if bool_decide (n = 114%nat) then read_string (String (ascii_of_nat 13) acc) rest'
            else None
        | EmptyString => None
        end
      else read_string (String c acc) rest
  end.

Definition digit_of (c : ascii) : option Z :=
  let n := nat_of_ascii c in
  if bool_decide (48 ≤ n ≤ 57)%nat then Some (Z.of_nat n - 48) else None.

(** The longest run of digits at the front of [s]: its value, its length and
    the rest. *)
Fixpoint read_digits (acc : Z) (count : nat) (s : string) : Z * nat * string :=
  match s with
  | String c rest =>
      match digit_of c with
      | Some d => read_digits (10 * acc + d) (S count) rest
      | None => (acc, count, s)
      end
  | EmptyString => (acc, count, s)
  end.

Definition read_number (s : string) : option (value * string) :=
  let '(negative, s) :=
    match s with
    | String "-" rest => (true, rest)
    | _ => (false, s)
    end in
  let sign := if negative : bool then -1 else 1 in
  match read_digits 0 0 s with
  | (_, O, _) => None
  | (whole, S _, String "." rest) =>
      match read_digits 0 0 rest with
      | (_, O, _) => None
      | (frac, S k, rest') =>
          let scale := 10 ^ Z.of_nat (S k) in
          Some (VFloat (Qred (Qmake (sign * (whole * scale + frac)) (Z.to_pos scale))), rest')
      end
  | (whole, S _, rest) => Some (VInt (sign * whole), rest)
  end.

(** [prefix] at the front of [s]: what follows it. *)
Fixpoint after (prefix s : string) : option string :=
  match prefix, s with
  | EmptyString, _ => Some s
  | String p prefix', String c rest =>
      if bool_decide (p = c) then after prefix' rest else None
  | String _ _, EmptyString => None
  end.

(** The elements of a list after its first one, up to the closing bracket.
    [n] bounds the number of elements. *)
Fixpoint read_elements (read : string -> option (value * string)) (n : nat)
    (acc : list value) (s : string) : option (list value * string) :=
  match n with
  | O => None
  | S n =>
      match lstrip s with
      | String "]" rest => Some (acc, rest)
      | String "," rest =>
          match read rest with
          | Some (v, rest') => read_elements read n (acc ++ [v]) rest'
          | None => None
          end
      | _ => None
      end
  end.

(** [d[key] = v] on the items read so far. *)
Fixpoint put (key : string) (v : value) (items : list (string * value))
  : list (string * value) :=
  match items with
  | [] => [(key, v)]
  | (k, old) :: rest =>
      if bool_decide (k = key) then (k, v) :: rest else (k, old) :: put key v rest
  end.

Definition read_member (read : string -> option (value * string)) (s : string)
  : option (string * value * string) :=
  match lstrip s with
  | String c rest =>
      if bool_decide (nat_of_ascii c = 34%nat) then
        match read_string EmptyString rest with
        | Some (key, rest1) =>
            match lstrip rest1 with
            | String ":" rest2 =>
                match read rest2 with
                | Some (v, rest3) => Some (key, v, rest3)
                | None => None
                end
            | _ => None
            end
        | None => None
        end
      else None
  | EmptyString => None
  end.

Fixpoint read_members (read : string -> option (value * string)) (n : nat)
    (acc : list (string * value)) (s : string) : option (list (string * value) * string) :=
  match n with
  | O => None
  | S n =>
      match lstrip s with
      | String "}" rest => Some (acc, rest)
      | String "," rest =>
          match read_member read rest with
          | Some (key, v, rest') => read_members read n (put key v acc) rest'
          | None => None
          end
      | _ => None
      end
  end.

(** One value at the front of [s]. [depth] bounds the nesting. *)
Fixpoint read_value (depth : nat) (s : string) : option (value * string) :=
  match depth with
  | O => None
  | S depth =>
      let s := lstrip s in
      let bound := S (String.length s) in
      match s with
      | EmptyString => None
      | String c rest =>
          if bool_decide (nat_of_ascii c = 34%nat) then
            match read_string EmptyString rest with
            | Some (str, rest') => Some (VStr str, rest')
            | None => None
            end
          else if bool_decide (c = "["%char) then
            match lstrip rest with
            | String "]" rest' => Some (VList [], rest')
            | _ =>
                match read_value depth rest with
                | Some (v, rest') =>
                    match read_elements (read_value depth) bound [v] rest' with
                    | Some (l, rest'') => Some (VList l, rest'')
                    | None => None
                    end
                | None => None
                end
            end
          else if bool_decide (c = "{"%char) then
            match lstrip rest with
            | String "}" rest' => Some (VDict [], rest')
            | _ =>
                match read_member (read_value depth) rest with
                | Some (key, v, rest') =>
                    match read_members (read_value depth) bound [(key, v)] rest' with
                    | Some (items, rest'') => Some (VDict items, rest'')
                    | None => None
                    end
                | None => None
                end
            end
          else
            match after "null" s, after "true" s, after "false" s with
            | Some rest', _, _ => Some (VNone, rest')
            | _, Some rest', _ => Some (VBool true, rest')
            | _, _, Some rest' => Some (VBool false, rest')
            | None, None, None => read_number s
            end
      end
  end.

Definition loads (s : string) : Exc value :=
  match read_value (S (String.length s)) s with
  | Some (v, rest) =>
      match lstrip rest with
      | EmptyString => Returned v
      | String _ _ => Raised "Extra data"
      end
  | None => Raised "Expecting value"
  end.

(** [repr(s)] of a string: in single quotes, or in double quotes when it
    holds a single quote and no double one. *)
Definition hex_digit (n : nat) : ascii :=
  ascii_of_nat (if (n <? 10)%nat then 48 + n else 87 + n).

Fixpoint repr_escape (q : ascii) (s : string) : string :=
  match s with
  | EmptyString => EmptyString
  | String c rest =>
      let n := nat_of_ascii c in
      if bool_decide (n = 92%nat) then String backslash (String backslash (repr_escape q rest))
      else if bool_decide (c = q) then String backslash (String c (repr_escape q rest))
      else if bool_decide (n = 10%nat) then String backslash (String "n" (repr_escape q rest))
      else if bool_decide (n = 9%nat) then String backslash (String "t" (repr_escape q rest))
      else if bool_decide (n = 13%nat) then String backslash (String "r" (repr_escape q rest))
      else if bool_decide (n < 32 ∨ n = 127)%nat then
        String backslash (String "x" (String (hex_digit (n / 16))
                                        (String (hex_digit (n mod 16)) (repr_escape q rest))))
      else String c (repr_escape q rest)
  end.

Fixpoint holds (c : ascii) (s : string) : bool :=
  match s with
  | EmptyString => false
  | String d rest => bool_decide (c = d) || holds c rest
  end.

Definition repr_str (s : string) : string :=
  let q := if holds "'"%char s && negb (holds quote_char s) then quote_char else "'"%char in
  String q (repr_escape q s) +:+ String q EmptyString.

(** [repr(obj)], which is [str(obj)] for an object that is not a [str]. *)
Fixpoint py_repr (v : value) : string :=
  match v with
  | VNone => "None"
  | VBool true => "True"
  | VBool false => "False"
  | VInt z => pretty z
  | VFloat q => dump_float q
  | VStr s => repr_str s
  | VList l => "[" +:+ join ", " (map py_repr l) +:+ "]"
  | VDict items =>
      "{" +:+ join ", " (map (λ kv, repr_str kv.1 +:+ ": " +:+ py_repr kv.2) items) +:+ "}"
  end.

(** The compact layout of [to_json]: no blanks, and the slash escaped. *)
Fixpoint escape_slash (s : string) : string :=
  match s with
  | EmptyString => EmptyString
  | String c rest =>
      if bool_decide (c = "/"%char) then String backslash (String c (escape_slash rest))
      else String c (escape_slash rest)
  end.

Definition compact_str (s : string) : string := quote +:+ escape_slash (escape s) +:+ quote.

Fixpoint dumps_compact (v : value) : string :=
  match v with
  | VStr s => compact_str s
  | VList l => "[" +:+ join "," (map dumps_compact l) +:+ "]"
  | VDict items =>
      "{" +:+ join "," (map (λ kv, compact_str kv.1 +:+ ":" +:+ dumps_compact kv.2) items)
          +:+ "}"
  | other => dumps other
  end.

Definition to_records (columns : list string) (rows : list (list value)) : Exc string :=
  Returned (dumps_compact (VList (map (λ row, VDict (zip columns row)) rows))).

#[local] Instance platform : Platform := {|
  json_dumps := dumps;
  json_loads := loads;
  py_str := py_repr;
  records_to_json := to_records;
  SNOWFLAKE_DATABASE := "DB_T23";
  SNOWFLAKE_SCHEMA := "SC_T23";
|}.

End reference.

(** * What the properties are stated with *)

Module turn_spec.
Import warehouse_tools chatbot.

(** The payload shape with a three-field query object. *)
Definition three_field_payload (v : value) : Prop :=
  ∃ query_id tool_name sql : string,
    v = VDict [("status", VStr "PENDING_APPROVAL");
               ("query", VDict [("query_id", VStr query_id);
                                ("tool_name", VStr tool_name);
                                ("sql", VStr sql)])].

(** The pending query a message carries: a tool result whose text the
    detector accepts. *)
Definition detected_in `{Platform} (msg : Message) : option value :=
  match msg with
  | ToolMessage (CText payload) _ _ => _try_parse_pending_query_payload payload
  | _ => None
  end.

Definition detected_pending `{Platform} (messages : list Message) : list value :=
  omap detected_in messages.

(** The retrieved items a tool result holds, where it holds a list. *)
Definition retrieved_items `{Platform} (content : Content) : option (list value) :=
  match content with
  | CText s =>
      match json_loads s with
      | Returned (VList docs) => Some docs
      | _ => None
      end
  | CBlocks blocks => Some blocks
  end.

(** [s] is the source made from the retrieved item [doc]: the first 200
    characters of its page content, or of [str(doc)] when it has none,
    followed by the ellipsis; and its metadata. *)
Definition source_of_item `{Platform} (doc : value) (s : Source) : Prop :=
  ∃ (items : list (string * value)) (full : string),
    doc = VDict items ∧
    default (VStr (py_str doc)) (dict_get "page_content" items) = VStr full ∧
    src_content s = str_take 200 full +:+ "..." ∧
    src_metadata s = default (VDict []) (dict_get "metadata" items).

(** The tool-result message [output] answers [tool_call]: it carries a text,
    and the name and the id of the call. *)
Definition answers (tool_call : ToolCall) (output : Message) : Prop :=
  ∃ content : string,
    output = ToolMessage (CText content) (tc_name tool_call) (tc_id tool_call).

(** One node execution of the graph that leads to another node. *)
Inductive graph_step `{Platform} {W} (g : Graph W)
  : Node * list Message * W → Node * list Message * W → Prop :=
| step_to_tools (messages added : list Message) (w : W) :
    chatbot_node g messages = Returned added →
    route_query (messages ++ added) = route_tools →
    graph_step g (node_chatbot, messages, w) (node_tools, messages ++ added, w)
| step_to_chatbot (messages added : list Message) (w w' : W) :
    tools_node g messages w = (added, w') →
    graph_step g (node_tools, messages, w) (node_chatbot, messages ++ added, w').

(** The four lists of a result, [pending_queries] read with
    [result.get("pending_queries")] and nothing standing for no list. *)
Definition attributed (r : TurnResult)
  : list Source * list string * list string * list value :=
  (sources r, warehouse_tools_used r, rag_tools_used r, default [] (pending_queries r)).

Definition tallied (t : Tally) : list Source * list string * list string * list value :=
  (t_sources t, t_warehouse t, t_rag t, t_pending t).

(** ** PENDING_APPROVAL payloads, in the words of the specification *)

(** [text] is a PENDING_APPROVAL payload with the query [q]: it reads as a
    JSON object whose status is "PENDING_APPROVAL" and whose query is the
    object [q]. *)
Definition pending_approval_payload `{Platform} (text : string) (q : value) : Prop :=
  ∃ items query : list (string * value),
    json_loads text = Returned (VDict items) ∧
    dict_get "status" items = Some (VStr "PENDING_APPROVAL") ∧
    dict_get "query" items = Some (VDict query) ∧
    q = VDict query.

(** The message is a tool result whose text is a payload with the query [q]. *)
Definition carries_pending `{Platform} (msg : Message) (q : value) : Prop :=
  ∃ text name tool_call_id : string,
    msg = ToolMessage (CText text) name tool_call_id ∧ pending_approval_payload text q.

(** [detected] lists, in message order, the queries of the payloads among
    the messages. *)
Inductive pending_among `{Platform} : list Message → list value → Prop :=
| pending_none : pending_among [] []
| pending_hit (msg : Message) (q : value) (rest : list Message) (detected : list value) :
    carries_pending msg q →
    pending_among rest detected →
    pending_among (msg :: rest) (q :: detected)
| pending_miss (msg : Message) (rest : list Message) (detected : list value) :
    (∀ q, ¬ carries_pending msg q) →
    pending_among rest detected →
    pending_among (msg :: rest) detected.

(** ** Retrieved items *)



(** ** Tool dispatch, in the words of the specification *)

(** The tool calls, resolved by name one after the other from the world [w],
    give the tool-result messages [outputs] and leave the world [w']: a name
    that is not registered gives the "not found" message, a tool that raises
    gives the error text of its exception, a tool that returns gives the text
    of its result. *)
Inductive dispatched `{Platform} {W} (g : Graph W)
  : list ToolCall → W → list Message → W → Prop :=
| dispatched_none (w : W) : dispatched g [] w [] w
| dispatched_not_found (tool_call : ToolCall) (rest : list ToolCall) (w w' : W)
    (outputs : list Message) :
    tools_by_name g !! tc_name tool_call = None →
    dispatched g rest w outputs w' →
    dispatched g (tool_call :: rest) w
      (ToolMessage (CText ("Tool " +:+ tc_name tool_call +:+ " not found"))
                   (tc_name tool_call) (tc_id tool_call) :: outputs) w'
| dispatched_raised (tool_call : ToolCall) (rest : list ToolCall) (tool : Tool W)
    (msg : string) (w w1 w' : W) (outputs : list Message) :
    tools_by_name g !! tc_name tool_call = Some tool →
    tool (tc_args tool_call) w = (Raised msg, w1) →
    dispatched g rest w1 outputs w' →
    dispatched g (tool_call :: rest) w
      (ToolMessage (CText ("Error: " +:+ msg)) (tc_name tool_call) (tc_id tool_call)
         :: outputs) w'
| dispatched_returned (tool_call : ToolCall) (rest : list ToolCall) (tool : Tool W)
    (tool_result : value) (w w1 w' : W) (outputs : list Message) :
    tools_by_name g !! tc_name tool_call = Some tool →
    tool (tc_args tool_call) w = (Returned tool_result, w1) →
    dispatched g rest w1 outputs w' →
    dispatched g (tool_call :: rest) w
      (ToolMessage (CText (result_text tool_result)) (tc_name tool_call) (tc_id tool_call)
         :: outputs) w'.

End turn_spec.

(** * Sample inputs *)

Module samples.
Import warehouse_tools chatbot store_trace tool_calls.

Definition empty_world : World := {| _PENDING_QUERIES := ∅; warehouse_log := [] |}.

Definition entropy1 : Entropy := {| fresh_uuid := "3f2b8c1e"; now := 1700000000 # 1 |}.
Definition entropy2 : Entropy := {| fresh_uuid := "9a7d4e55"; now := 3400000001 # 2 |}.

(** A warehouse that is up and answers every statement with one row. *)
Definition warehouse_up : Snowflake :=
  {| sf_connect := Returned ();
     sf_run := λ _, Returned (["N"], [[VInt 1]]) |}.

(** The world after [query_price_trends("BTC", 7)]. *)
Definition staged_world : World :=
  (@query_price_trends reference.platform "BTC" 7 entropy1 empty_world).2.

Definition staged_query : PendingQuery :=
  (_register_pending_query "query_price_trends"
     (@query_price_trends_sql reference.platform "BTC" 7) entropy1 empty_world).1.

(** An approve of the staged query, with another staging before it and a
    second approve and a cancel after it. *)
Definition calls_before : list StoreCall := [Stage "query_news_events" "SELECT 2" entropy2].
Definition consuming_call : StoreCall := Execute warehouse_up "3f2b8c1e".
Definition calls_after : list StoreCall := [Execute warehouse_up "3f2b8c1e"; Cancel "3f2b8c1e"].

(** A first turn that asked for transactions, and a second turn that asks
    nothing of the warehouse. *)
Definition first_turn : list Message :=
  [HumanMessage (CText "Show me the transactions of John Doe");
   AIMessage (CText EmptyString)
     [{| tc_name := "query_transactions";
         tc_args := VDict [("customer_name", VStr "John Doe")];
         tc_id := "call_1" |}];
   ToolMessage (CText "Error: warehouse offline") "query_transactions" "call_1";
   AIMessage (CText "The warehouse is not reachable right now.") []].

Definition second_turn : list Message :=
  [HumanMessage (CText "Thanks, what is a stablecoin?");
   AIMessage (CText "A stablecoin is a token pegged to a reference asset.") []].

(** A tool result of [document_search] holding four items. *)
Definition four_items : list value :=
  [VDict [("page_content", VStr "Foundry AI is a platform.");
          ("metadata", VDict [("page", VInt 1)])];
   VInt 7;
   VDict [("metadata", VNone)];
   VDict [("page_content", VStr "never shown")]].

Definition four_documents : Content := CText (reference.dumps (VList four_items)).

(** A model that asks for two tools, then answers; and a graph where one
    requested tool is missing and the other raises. *)
Definition two_calls : list ToolCall :=
  [{| tc_name := "no_such_tool"; tc_args := VDict []; tc_id := "call_a" |};
   {| tc_name := "extract_text_from_image"; tc_args := VDict []; tc_id := "call_b" |}].

Definition scripted_model (messages : list Message) : Exc Message :=
  match last messages with
  | Some (HumanMessage _) => Returned (AIMessage (CText EmptyString) two_calls)
  | Some (ToolMessage _ _ _) => Returned (AIMessage (CText "Both tools failed.") [])
  | _ => Raised "unexpected history"
  end.

Definition failing_tools_graph : Graph World :=
  {| system_prompt := "You are an assistant.";
     llm_with_tools := scripted_model;
     tools_by_name := {["extract_text_from_image" := (λ _ w, (Raised "file not found", w))]};
     recursion_limit := 25 |}.

(** A model that asks for the price trends of BTC and then tells the user
    that the query waits for approval, on a graph that has the tool. *)
Definition trends_call : ToolCall :=
  {| tc_name := "query_price_trends";
     tc_args := VDict [("asset_symbol", VStr "BTC"); ("days", VInt 7)];
     tc_id := "call_t" |}.

Definition validate_trends (tool_args : value) : Exc WarehouseCall :=
  match tool_args with
  | VDict items =>
      match dict_get "asset_symbol" items, dict_get "days" items with
      | Some (VStr asset_symbol), Some (VInt days) =>
          Returned (call_query_price_trends asset_symbol days)
      | Some (VStr asset_symbol), None => Returned (call_query_price_trends asset_symbol 30)
      | _, _ => Raised "validation error"
      end
  | _ => Raised "validation error"
  end.

Definition approval_model (messages : list Message) : Exc Message :=
  match last messages with
  | Some (HumanMessage _) => Returned (AIMessage (CText EmptyString) [trends_call])
  | Some (ToolMessage _ _ _) =>
      Returned (AIMessage (CText "The query is ready and needs your approval.") [])
  | _ => Raised "unexpected history"
  end.

Definition approval_graph : Graph World :=
  {| system_prompt := "You are an assistant.";
     llm_with_tools := approval_model;
     tools_by_name :=
       {["query_price_trends" :=
           @as_tool reference.platform validate_trends (λ _, entropy1)]};
     recursion_limit := 25 |}.

(** The turn the approval graph makes of the question: the request, the
    payload of the staged query as its tool result, and the answer. *)
Definition staged_turn : list Message :=
  [HumanMessage (CText "How did BTC move this week?");
   AIMessage (CText EmptyString) [trends_call];
   ToolMessage (CText (@_pending_response reference.platform staged_query))
               "query_price_trends" "call_t";
   AIMessage (CText "The query is ready and needs your approval.") []].

(** A document search that found one page, asked for and answered in one
    turn. *)
Definition search_turn : list Message :=
  [HumanMessage (CText "What is Foundry AI?");
   AIMessage (CText EmptyString)
     [{| tc_name := "document_search"; tc_args := VDict [("query", VStr "Foundry AI")];
         tc_id := "call_s" |}];
   ToolMessage (CText (reference.dumps
                  (VList [VDict [("page_content", VStr "Foundry AI is a platform.");
                                 ("metadata", VDict [("page", VInt 1)])]])))
               "document_search" "call_s";
   AIMessage (CText "Foundry AI is a platform.") []].

Definition backend_down_graph : Graph World :=
  {| system_prompt := "You are an assistant.";
     llm_with_tools := λ _, Raised "connection refused";
     tools_by_name := ∅;
     recursion_limit := 25 |}.

End samples.

(** * More of Python *)

Module py_more.

Definition lower_char (c : ascii) : ascii :=
  let n := nat_of_ascii c in
  if ((65 <=? n)%nat && (n <=? 90)%nat) then ascii_of_nat (n + 32) else c.

(** [s.lower()] *)
Fixpoint lower (s : string) : string :=
  match s with
  | EmptyString => EmptyString
  | String c rest => String (lower_char c) (lower rest)
  end.

(** [needle in s] *)
Fixpoint contains (needle s : string) : bool :=
  String.prefix needle s ||
  match s with
  | EmptyString => false
  | String _ rest => contains needle rest
  end.

(** The truth value of an object: [bool(v)]. *)
Definition truthy (v : value) : bool :=
  match v with
  | VNone => false
  | VBool b => b
  | VInt z => negb (z =? 0)
  | VFloat q => negb (Qnum q =? 0)
  | VStr s => negb (bool_decide (s = EmptyString))
  | VList l => negb (bool_decide (length l = 0%nat))
  | VDict items => negb (bool_decide (length items = 0%nat))
  end.

(** The truth value of [d.get(key)], which is [None] for a missing key. *)
Definition truthy_get (o : option value) : bool :=
  match o with
  | Some v => truthy v
  | None => false
  end.

(** [type(v).__name__] *)
Definition type_name (v : value) : string :=
  match v with
  | VNone => "NoneType"
  | VBool _ => "bool"
  | VInt _ => "int"
  | VFloat _ => "float"
  | VStr _ => "str"
  | VList _ => "list"
  | VDict _ => "dict"
  end.

(** Every character of [s] is whitespace. *)
Fixpoint only_whitespace (s : string) : bool :=
  match s with
  | EmptyString => true
  | String c rest => isspace c && only_whitespace rest
  end.

(** [s] begins, or ends, with a whitespace character. *)
Definition starts_blank (s : string) : bool :=
  match s with
  | EmptyString => false
  | String c _ => isspace c
  end.

Definition ends_blank (s : string) : bool := starts_blank (String.rev s).

End py_more.

(** * Using the pending-query store from the front ends *)

Module front_ends.
Import warehouse_tools chatbot py_more.

(** Every record of [_PENDING_QUERIES] is filed under its own id. *)
Definition filed_under_own_id (w : World) : Prop :=
  ∀ (key : string) (pq : PendingQuery),
    _PENDING_QUERIES w !! key = Some pq → query_id pq = key.

(** How an object keys a dict whose keys are all strings: a string is its
    own key, a list or a dict cannot be hashed, anything else is a key the
    dict does not have. *)
Definition store_key (v : value) : Exc (option string) :=
  match v with
  | VStr s => Returned (Some s)
  | VList _ => Raised "unhashable type: 'list'"
  | VDict _ => Raised "unhashable type: 'dict'"
  | _ => Returned None
  end.

(** [chatbot.cancel_query(query_id)] and [chatbot.execute_approved_query(query_id)]
    for a [query_id] read out of a payload. *)
Definition cancel_query_of (query_id : value) (w : World) : Exc bool * World :=
  match store_key query_id with
  | Raised msg => (Raised msg, w)
  | Returned (Some key) => let '(found, w') := cancel_query key w in (Returned found, w')
  | Returned None => (Returned false, w)
  end.

Definition execute_approved_query_of `{Platform} (warehouse : string → Snowflake)
    (query_id : value) (w : World) : Exc string * World :=
  match store_key query_id with
  | Raised msg => (Raised msg, w)
  | Returned (Some key) =>
      let '(out, w') := execute_approved_query (warehouse key) key w in (Returned out, w')
  | Returned None => (Returned NO_PENDING_QUERY, w)
  end.

(** ** chatbot.py, [main]: the approval prompt *)

(** [input(...).strip().lower() in {"y", "yes"}] *)
Definition approves (typed : string) : bool :=
  let said := lower (strip typed) in
  bool_decide (said = "y") || bool_decide (said = "yes").

(** How many of the typed lines approve. *)
Fixpoint approvals (typed : list string) : nat :=
  match typed with
  | [] => 0
  | line :: rest => ((if approves line then 1 else 0) + approvals rest)%nat
  end.

(** The entry appended to [executed_payloads]. *)
Definition executed_payload (query_id sql : value) (tool_name : option value)
    (query_result : string) : value :=
  VDict [("query_id", query_id);
         ("tool_name", default VNone tool_name);
         ("sql", sql);
         ("result", VStr query_result)].

(** [for pq in pending_queries: ...] in [main]. [typed] holds the lines the
    user will type, one per [input] call; [warehouse] says how Snowflake
    answers for each query id. The result is [executed_payloads], or the
    exception that left the loop, with the lines not yet read and the world. *)
Fixpoint approval_loop `{Platform} (warehouse : string → Snowflake)
    (pending_queries : list value) (typed : list string) (executed_payloads : list value)
    (w : World) : Exc (list value) * list string * World :=
  match pending_queries with
  | [] => (Returned executed_payloads, typed, w)
  | pq :: rest =>
      match pq with
      | VDict items =>
          let query_id := dict_get "query_id" items in
          let tool_name := dict_get "tool_name" items in
          let sql := dict_get "sql" items in
          match query_id, sql with
          | Some query_id, Some sql =>
              if negb (truthy query_id) || negb (truthy sql)
              then approval_loop warehouse rest typed executed_payloads w
              else
                match sql with
                | VStr _ =>
                    match typed with
                    | [] => (Raised "EOF when reading a line", [], w)
                    | line :: typed =>
                        if negb (approves line) then
                          match cancel_query_of query_id w with
                          | (Raised msg, w') => (Raised msg, typed, w')
                          | (Returned _, w') =>
                              approval_loop warehouse rest typed executed_payloads w'
                          end
                        else
                          match execute_approved_query_of warehouse query_id w with
                          | (Raised msg, w') => (Raised msg, typed, w')
                          | (Returned query_result, w') =>
                              approval_loop warehouse rest typed
                                (executed_payloads ++
                                   [executed_payload query_id sql tool_name query_result])
                                w'
                          end
                    end
                | other =>
                    (Raised ("'" +:+ type_name other +:+ "' object has no attribute 'strip'"),
                     typed, w)
                end
          | _, _ => approval_loop warehouse rest typed executed_payloads w
          end
      | other =>
          (Raised ("'" +:+ type_name other +:+ "' object has no attribute 'get'"), typed, w)
      end
  end.

(** The query ids the prompt asks about: the entries with a true
    [query_id], which is a string, and a true [sql]. *)
Definition asked_id (pq : value) : option string :=
  match pq with
  | VDict items =>
      match dict_get "query_id" items, dict_get "sql" items with
      | Some (VStr key), Some sql =>
          if truthy (VStr key) && truthy sql then Some key else None
      | _, _ => None
      end
  | _ => None
  end.

(** What the loop leaves behind, seen from the world [w] it started in:
    [after] holds no record that [w] did not hold, the warehouse has been
    handed at most [budget] statements more, and if the loop ran to its end
    then no query it asked about is left in the store. *)
Definition loop_leaves (w : World) (budget : nat) (pending_queries : list value)
    (after : Exc (list value) * list string * World) : Prop :=
  _PENDING_QUERIES after.2 ⊆ _PENDING_QUERIES w ∧
  (∃ ran, warehouse_log after.2 = warehouse_log w ++ ran ∧ (length ran ≤ budget)%nat) ∧
  (∀ payloads, after.1.1 = Returned payloads →
     ∀ pq q, pq ∈ pending_queries → asked_id pq = Some q →
             _PENDING_QUERIES after.2 !! q = None).

(** ** chatbot_app.py: a new question drops the queries still pending *)

(** [try: chatbot.cancel_query(pq["query_id"]) except: pass] *)
Definition cancel_stale_query (w : World) (pq : value) : World :=
  match pq with
  | VDict items =>
      match dict_get "query_id" items with
      | Some query_id => (cancel_query_of query_id w).2
      | None => w
      end
  | _ => w
  end.

(** [for pq in st.session_state.pending_queries: ...], then
    [st.session_state.pending_queries = []]: the session list and the world
    afterwards. *)
Definition cancel_stale_queries (pending_queries : list value) (w : World)
  : list value * World :=
  ([], foldl cancel_stale_query w pending_queries).

(** The string under ["query_id"] of a payload. *)
Definition listed_id (pq : value) : option string :=
  match pq with
  | VDict items =>
      match dict_get "query_id" items with
      | Some (VStr key) => Some key
      | _ => None
      end
  | _ => None
  end.

End front_ends.

(** * More to state the turn with *)

Module turn_more.
Import warehouse_tools chatbot.

(** The names of the tools the messages ask for, in request order. *)
Definition requested_tools (messages : list Message) : list string :=
  tc_name <$> (messages ≫= tool_calls_of).

(** The number of tool results of [document_search] among the messages. *)
Definition is_document_result (msg : Message) : bool :=
  match msg with
  | ToolMessage _ name _ => bool_decide (name = "document_search")
  | _ => false
  end.

Fixpoint document_results (messages : list Message) : nat :=
  match messages with
  | [] => 0
  | msg :: rest =>
      ((if is_document_result msg then 1 else 0) + document_results rest)%nat
  end.

(** The content is the empty string or the empty list. *)
Definition is_empty_content (c : Content) : bool :=
  match c with
  | CText s => bool_decide (s = EmptyString)
  | CBlocks blocks => bool_decide (length blocks = 0%nat)
  end.

End turn_more.

(** * scripts/chatbot/ocr_tools.py *)

Module ocr_tools.
Import py_more.

Inductive ReFlag : Type := IGNORECASE | MULTILINE.

(** What [extract_text_from_image] asks of the file system, OpenCV,
    Tesseract, [re] and [json]. *)
Record Imaging : Type := {
  (** [Path(image_path).exists()], which raises for a path it may not look at *)
  path_exists : string → Exc bool;
  (** [Path(image_path).suffix] *)
  path_suffix : string → string;
  (** [str(Path(image_path))] *)
  path_text : string → string;
  (** [cv2.imread] and the filters after it: whether the image could be
      read, or the exception of a filter *)
  cv2_read : string → Exc bool;
  (** [pytesseract.image_to_string(gray, config=OCR_CONFIG)] for the image
      read from the path *)
  image_to_string : string → Exc string;
  (** [re.findall(pattern, text, flags)] for a pattern with at most one
      group *)
  re_findall : string → list ReFlag → string → list string;
  (** [json.dumps(obj)] and [json.dumps(obj, indent=2)] *)
  dumps : value → string;
  dumps_indent : value → string;
}.

Definition preprocess_image (im : Imaging) (image_path : string) : Exc unit :=
  read ← cv2_read im image_path;
  if read : bool then mret () else Raised ("Could not load image from " +:+ image_path).

Definition valid_extensions : list string :=
  [".png"; ".jpg"; ".jpeg"; ".PNG"; ".JPG"; ".JPEG"].

Definition id_patterns : list string :=
  ["\b[A-Z]{2,}\d{4,}\b";
   "\b\d{6,}\b";
   "ID[:\s]+([A-Z0-9]+)";
   "Customer[:\s]+([A-Z0-9]+)"].

Definition name_patterns : list string :=
  ["(?:Name|Full Name|Customer Name|Holder Name|Cardholder)[:\s]*\n?\s*([A-Z][a-z]{2,}\s+[A-Z][a-z]{2,}(?:\s+[A-Z][a-z]+)?)";
   "\n([A-Z][a-z]{2,}\s+[A-Z][a-z]{2,})\n";
   "^([A-Z][a-z]{2,}\s+[A-Z][a-z]{2,})";
   "\b([A-Z][a-z]{2,}\s+[A-Z][a-z]{2,})\b"].

Definition false_positives : list string :=
  ["Date"; "Issue"; "Expiry"; "Valid"; "Until"; "Address"; "Country"; "State"; "City";
   "Rank"; "Citizen"; "IP"].

(** [match and not any(fp.lower() in match.lower() for fp in false_positives)] *)
Definition keeps_name (m : string) : bool :=
  negb (bool_decide (m = EmptyString)) &&
  negb (existsb (λ fp, contains (lower fp) (lower m)) false_positives).

(** The two loops that fill [customer_identifiers]. *)
Definition id_matches (im : Imaging) (extracted_text : string) : list string :=
  id_patterns ≫= (λ pattern, re_findall im pattern [IGNORECASE] extracted_text).

Definition name_matches (im : Imaging) (extracted_text : string) : list string :=
  name_patterns ≫= (λ pattern,
    strip <$> List.filter keeps_name
                (re_findall im pattern [MULTILINE; IGNORECASE] extracted_text)).

(** [for item in customer_identifiers: if item not in seen: ...] *)
Fixpoint unique_from (seen : list string) (items : list string) : list string :=
  match items with
  | [] => []
  | item :: rest =>
      if bool_decide (item ∈ seen) then unique_from seen rest
      else item :: unique_from (item :: seen) rest
  end.

Definition failure (error : string) (more : list (string * value)) : value :=
  VDict ([("error", VStr error);
          ("extracted_text", VStr EmptyString);
          ("customer_identifiers", VList [])] ++ more).

Definition extract_text_from_image (im : Imaging) (image_path : string) : string :=
  match path_exists im image_path with
  | Raised msg =>
      dumps im (failure ("Error processing image: " +:+ msg) [("status", VStr "error")])
  | Returned false => dumps im (failure ("Image file not found: " +:+ image_path) [])
  | Returned true =>
      if negb (bool_decide (path_suffix im image_path ∈ valid_extensions)) then
        dumps im (failure "Unsupported image format. Supported: PNG, JPG, JPEG" [])
      else
        match preprocess_image im (path_text im image_path) with
        | Raised msg => dumps im (failure ("Error preprocessing image: " +:+ msg) [])
        | Returned _ =>
            match image_to_string im (path_text im image_path) with
            | Raised msg =>
                dumps im (failure ("OCR extraction failed: " +:+ msg)
                  [("note", VStr "Make sure Tesseract is installed and TESSERACT_CMD is set correctly")])
            | Returned extracted_text =>
                let customer_identifiers :=
                  id_matches im extracted_text ++ name_matches im extracted_text in
                let unique_identifiers := unique_from [] customer_identifiers in
                dumps_indent im
                  (VDict [("extracted_text", VStr (strip extracted_text));
                          ("customer_identifiers",
                           VList (VStr <$> take 10 unique_identifiers));
                          ("image_path", VStr (path_text im image_path));
                          ("ocr_engine", VStr "pytesseract");
                          ("status", VStr "success")])
            end
        end
  end.

End ocr_tools.

(** * scripts/chatbot/document_processor.py *)

Module document_processor.
Import py_more.

Record Document : Type := {
  page_content : string;
  metadata : value;
}.

(** The file system, the three loaders and the text splitter. *)
Record Library : Type := {
  (** [file_path.exists()], which raises for a path it may not look at *)
  file_exists : string → Exc bool;
  file_suffix : string → string;
  file_text : string → string;
  PyPDFLoader : string → Exc (list Document);
  TextLoader : string → Exc (list Document);
  CSVLoader : string → Exc (list Document);
  split_documents : list Document → list Document;
}.

(** The Pinecone service, and the calls made to it so far. *)
Record Service : Type := {
  list_indexes : Exc (list string);
  create_index : string → Z → Exc unit;
  from_documents : list Document → string → option string → Exc unit;
}.

Inductive Call : Type :=
| called_list_indexes
| called_create_index (name : string) (dimension : Z)
| called_from_documents (chunks : list Document) (index_name : string)
                        (namespace : option string).

(** [self.pinecone_index_name] and [self.embedding_model]. *)
Record Processor : Type := {
  pinecone_index_name : string;
  embedding_model : string;
}.

Definition load_document (lib : Library) (file_path : string) : Exc (list Document) :=
  there ← file_exists lib file_path;
  if negb there then
    Raised ("File not found: " +:+ file_text lib file_path)
  else
    let file_ext := lower (file_suffix lib file_path) in
    if bool_decide (file_ext = ".pdf") then PyPDFLoader lib (file_text lib file_path)
    else if bool_decide (file_ext = ".txt") then TextLoader lib (file_text lib file_path)
    else if bool_decide (file_ext = ".csv") then CSVLoader lib (file_text lib file_path)
    else Raised ("Unsupported file type: " +:+ file_ext).

(** [_ensure_index_exists]: every exception is caught and reported by a
    warning only. *)
Definition _ensure_index_exists (self : Processor) (pc : Service) (calls : list Call)
  : list Call :=
  let calls := calls ++ [called_list_indexes] in
  match list_indexes pc with
  | Raised _ => calls
  | Returned existing_indexes =>
      if bool_decide (pinecone_index_name self ∈ existing_indexes) then calls
      else
        let dimension :=
          if contains "small" (embedding_model self) then 1536
          else if contains "large" (embedding_model self) then 3072 else 1536 in
        calls ++ [called_create_index (pinecone_index_name self) dimension]
  end.

(** [for file_path in file_paths: all_documents.extend(self.load_document(file_path))] *)
Fixpoint load_all (lib : Library) (file_paths : list string) (all_documents : list Document)
  : Exc (list Document) :=
  match file_paths with
  | [] => Returned all_documents
  | file_path :: rest =>
      docs ← load_document lib file_path;
      load_all lib rest (all_documents ++ docs)
  end.

Definition process_documents (self : Processor) (lib : Library) (pc : Service)
    (file_paths : list string) (namespace : option string) (calls : list Call)
  : Exc unit * list Call :=
  match load_all lib file_paths [] with
  | Raised msg => (Raised msg, calls)
  | Returned all_documents =>
      let chunks := split_documents lib all_documents in
      let calls := _ensure_index_exists self pc calls in
      (from_documents pc chunks (pinecone_index_name self) namespace,
       calls ++ [called_from_documents chunks (pinecone_index_name self) namespace])
  end.

End document_processor.

(** * scripts/chatbot/chatbot_app.py: the tool badges *)

Module tool_badges.
Import py_more.

Inductive Badge : Type := Snowflake_badge | OCR_badge | RAG_badge.

(** The [if]/[elif] chain in [display_message], for one tool name. *)
Definition badge_of (tool : string) : option Badge :=
  if contains "snowflake" (lower tool) || contains "query_" (lower tool)
  then Some Snowflake_badge
  else if contains "ocr" (lower tool) || contains "extract_text" (lower tool)
  then Some OCR_badge
  else if contains "document_search" (lower tool) then Some RAG_badge
  else None.

(** [tool_badges] after the loop over [tools_used]. *)
Definition badges (tools_used : list string) : list Badge := omap badge_of tools_used.

End tool_badges.

(** * More sample inputs *)

Module more_samples.
Import warehouse_tools chatbot store_trace tool_calls samples py_more front_ends.
Import ocr_tools document_processor.

(** A warehouse that cannot be reached. *)
Definition warehouse_down : Snowflake :=
  {| sf_connect := Raised "could not connect";
     sf_run := λ _, Raised "not connected" |}.

(** A model that answers at once, on a graph without tools. *)
Definition plain_graph : Graph World :=
  {| system_prompt := "You are an assistant.";
     llm_with_tools := λ _, Returned (AIMessage (CText "A stablecoin is a pegged token.") []);
     tools_by_name := ∅;
     recursion_limit := 25 |}.

(** An identity card read as three lines, with the matches the patterns
    find in it. *)
Definition card_text : string :=
  "Name: John Doe" +:+ nl +:+ "ID: AB123456" +:+ nl +:+ "Issue Date".

(** What [re.findall] gives for the eight patterns on [card_text]: letter
    case is ignored, so the optional third word of the first name pattern
    takes the "ID" of the next line along. *)
Definition card_matches (pattern : string) (flags : list ReFlag) (text : string)
  : list string :=
  if bool_decide (pattern = "\b[A-Z]{2,}\d{4,}\b") then ["AB123456"]
  else if bool_decide (pattern = "ID[:\s]+([A-Z0-9]+)") then ["AB123456"]
  else if bool_decide (pattern = "(?:Name|Full Name|Customer Name|Holder Name|Cardholder)[:\s]*\n?\s*([A-Z][a-z]{2,}\s+[A-Z][a-z]{2,}(?:\s+[A-Z][a-z]+)?)")
  then ["John Doe" +:+ nl +:+ "ID"]
  else if bool_decide (pattern = "^([A-Z][a-z]{2,}\s+[A-Z][a-z]{2,})") then ["Issue Date"]
  else if bool_decide (pattern = "\b([A-Z][a-z]{2,}\s+[A-Z][a-z]{2,})\b")
  then ["John Doe"; "Issue Date"]
  else [].

Definition card_imaging : Imaging :=
  {| path_exists := λ _, Returned true;
     path_suffix := λ _, ".png";
     path_text := λ p, p;
     cv2_read := λ _, Returned true;
     image_to_string := λ _, Returned card_text;
     re_findall := card_matches;
     dumps := reference.dumps;
     dumps_indent := reference.dumps |}.

(** A folder with a PDF report and a word-processor file. *)
Definition folder : Library :=
  {| file_exists := λ f, Returned (bool_decide (f ≠ "missing.pdf"));
     file_suffix := λ f, if bool_decide (f = "notes.DOCX") then ".DOCX" else ".PDF";
     file_text := λ f, f;
     PyPDFLoader := λ f, Returned [{| page_content := "page one of " +:+ f;
                                      metadata := VDict [] |}];
     TextLoader := λ _, Returned [];
     CSVLoader := λ _, Returned [];
     split_documents := λ docs, docs |}.

Definition pinecone_up : Service :=
  {| list_indexes := Returned [];
     create_index := λ _ _, Returned ();
     from_documents := λ _ _ _, Returned () |}.

Definition processor : Processor :=
  {| pinecone_index_name := "fa-dae2-capstone";
     embedding_model := "text-embedding-3-small" |}.

End more_samples.

(** * Properties of the pending-query store *)

Section store_properties.
Context `{Platform}.
Import warehouse_tools store_trace.

Lemma with_pending_same (w : World) : with_pending (_PENDING_QUERIES w) w = w.
Proof. by destruct w. Qed.

Lemma executions_with_pending (q : string) (d : gmap string PendingQuery) (w : World) :
  executions q (with_pending d w) = executions q w.
Proof. reflexivity. Qed.

Lemma executions_with_statement (q q' sql : string) (w : World) :
  executions q (with_statement (q', sql) w)
  = (executions q w + (if bool_decide (q' = q) then 1 else 0))%nat.
Proof.
  unfold executions, with_statement; simpl.
  rewrite filter_app, length_app. f_equal.
  rewrite filter_cons, filter_nil; simpl.
  by repeat case_decide; case_bool_decide.
Qed.

(** A cancel never reaches the warehouse. *)
Lemma cancel_log (q : string) (w : World) :
  warehouse_log (cancel_pending_query q w).2 = warehouse_log w.
Proof. reflexivity. Qed.

Lemma cancel_pending (q : string) (w : World) :
  _PENDING_QUERIES (cancel_pending_query q w).2 = delete q (_PENDING_QUERIES w).
Proof. reflexivity. Qed.

(** What the connection does to the store and to the log. *)
Lemma run_on_snowflake_world (sf : Snowflake) (q : string) (pq : PendingQuery) (w : World) :
  _PENDING_QUERIES (run_on_snowflake sf q pq w).2 = _PENDING_QUERIES w ∧
  ((run_on_snowflake sf q pq w).2 = w ∨
   (run_on_snowflake sf q pq w).2 = with_statement (q, sql pq) w).
Proof.
  unfold run_on_snowflake.
  destruct (sf_connect sf); simpl; [by auto|].
  destruct (sf_run sf (sql pq)) as [|[columns [|row rows]]]; simpl; [by auto..|].
  destruct (records_to_json columns (row :: rows)); simpl; by auto.
Qed.

Lemma execute_pending (sf : Snowflake) (q : string) (w : World) :
  _PENDING_QUERIES (execute_pending_query sf q w).2 = delete q (_PENDING_QUERIES w).
Proof.
  unfold execute_pending_query, dict_pop.
  destruct (_PENDING_QUERIES w !! q) as [pq|]; [|done].
  pose proof (run_on_snowflake_world sf q pq (with_pending (delete q (_PENDING_QUERIES w)) w))
    as [Hd _].
  destruct (run_on_snowflake sf q pq _) as [[msg|out] w']; simpl in *; done.
Qed.

(** Without a record nothing is executed and the world stays as it is. *)
Lemma execute_absent (sf : Snowflake) (q : string) (w : World) :
  _PENDING_QUERIES w !! q = None →
  execute_pending_query sf q w = (NO_PENDING_QUERY, w).
Proof.
  intros Hq. unfold execute_pending_query, dict_pop. rewrite Hq.
  by rewrite delete_id, with_pending_same.
Qed.

Lemma cancel_absent (q : string) (w : World) :
  _PENDING_QUERIES w !! q = None →
  cancel_pending_query q w = (false, w).
Proof.
  intros Hq. unfold cancel_pending_query, dict_pop. rewrite Hq.
  by rewrite delete_id, with_pending_same.
Qed.

(** An execute of [q'] adds at most one statement, under [q'] itself. *)
Lemma execute_executions (sf : Snowflake) (q q' : string) (w : World) :
  executions q (execute_pending_query sf q' w).2 = executions q w ∨
  (q' = q ∧ executions q (execute_pending_query sf q' w).2 = S (executions q w)).
Proof.
  unfold execute_pending_query, dict_pop.
  destruct (_PENDING_QUERIES w !! q') as [pq|]; [|by left].
  pose proof (run_on_snowflake_world sf q' pq (with_pending (delete q' (_PENDING_QUERIES w)) w))
    as [_ Hw].
  destruct (run_on_snowflake sf q' pq _) as [[msg|out] w']; simpl in *;
    (destruct Hw as [-> | ->]; [by left|]);
    rewrite executions_with_statement, executions_with_pending;
    case_bool_decide; first [right; split; [done|lia] | left; lia].
Qed.

(** One call: the count for [q] stays, or it grows by one and [q] is gone. *)
Lemma perform_executions (q : string) (c : StoreCall) (w : World) :
  executions q (perform c w).2 = executions q w ∨
  (executions q (perform c w).2 = S (executions q w) ∧
   _PENDING_QUERIES (perform c w).2 !! q = None).
Proof.
  destruct c as [tn sql e | q' | sf q']; simpl.
  - by left.
  - by left.
  - pose proof (execute_executions sf q q' w) as Hx.
    pose proof (execute_pending sf q' w) as Hd.
    destruct (execute_pending_query sf q' w) as [out w']; simpl in *.
    destruct Hx as [Hx | [-> Hx]]; [by left|].
    right. split; [done|]. rewrite Hd. apply lookup_delete_eq.
Qed.

(** One call on a store without [q], by a call that does not hand out [q]. *)
Lemma perform_absent (q : string) (c : StoreCall) (w : World) :
  _PENDING_QUERIES w !! q = None →
  stages q c = false →
  _PENDING_QUERIES (perform c w).2 !! q = None ∧
  executions q (perform c w).2 = executions q w ∧
  (consumes q c = true → found_nothing (perform c w).1 = true).
Proof.
  intros Hq Hs. destruct c as [tn sql e | q' | sf q']; simpl in *.
  - apply bool_decide_eq_false in Hs.
    split_and!; [|done|done]. by rewrite lookup_insert_ne.
  - split_and!; [|done|].
    + destruct (decide (q' = q)) as [->|Hne].
      * apply lookup_delete_eq.
      * by rewrite lookup_delete_ne.
    + intros ->%bool_decide_eq_true. unfold dict_pop. by rewrite Hq.
  - pose proof (execute_executions sf q q' w) as Hx.
    pose proof (execute_pending sf q' w) as Hd.
    destruct (decide (q' = q)) as [->|Hne].
    + rewrite (execute_absent sf q w Hq). simpl.
      by split_and!.
    + destruct (execute_pending_query sf q' w) as [out w']; simpl in *.
      split_and!.
      * rewrite Hd. by rewrite lookup_delete_ne.
      * by destruct Hx as [Hx | [? _]].
      * intros Hc%bool_decide_eq_true. done.
Qed.

(** Once [q] is gone it stays gone, whatever is called afterwards. *)
Lemma perform_all_absent (q : string) (cs : list StoreCall) (w : World) :
  _PENDING_QUERIES w !! q = None →
  Forall (λ c, stages q c = false) cs →
  _PENDING_QUERIES (perform_all cs w).2 !! q = None ∧
  executions q (perform_all cs w).2 = executions q w ∧
  all_found_nothing q cs (perform_all cs w).1 = true.
Proof.
  revert w. induction cs as [|c cs IH]; intros w Hq Hs; simpl; [done|].
  apply Forall_cons in Hs as [Hc Hs].
  destruct (perform_absent q c w Hq Hc) as (Hq1 & Hx1 & Hr1).
  destruct (perform c w) as [r w1]; simpl in *.
  destruct (IH w1 Hq1 Hs) as (Hq2 & Hx2 & Hr2).
  destruct (perform_all cs w1) as [rs w2]; simpl in *.
  split_and!; [done|congruence|].
  rewrite Hr2, andb_true_r. destruct (consumes q c); auto.
Qed.

Lemma perform_all_executions (q : string) (cs : list StoreCall) (w : World) :
  Forall (λ c, stages q c = false) cs →
  (executions q (perform_all cs w).2 ≤ executions q w + 1)%nat.
Proof.
  revert w. induction cs as [|c cs IH]; intros w Hs; simpl; [lia|].
  apply Forall_cons in Hs as [Hc Hs].
  pose proof (perform_executions q c w) as Hx.
  destruct (perform c w) as [r w1] eqn:Hp; simpl in *.
  destruct Hx as [Hx | [Hx Hq]].
  - specialize (IH w1 Hs). destruct (perform_all cs w1) as [rs w2]; simpl in *. lia.
  - destruct (perform_all_absent q cs w1 Hq Hs) as (_ & Hx2 & _).
    destruct (perform_all cs w1) as [rs w2]; simpl in *. lia.
Qed.

End store_properties.

Section store_claims.
Context `{Platform}.
Import warehouse_tools store_trace tool_calls.

Lemma perform_all_app (cs1 cs2 : list StoreCall) (w : World) :
  (perform_all (cs1 ++ cs2) w).2 = (perform_all cs2 (perform_all cs1 w).2).2.
Proof.
  revert w. induction cs1 as [|c cs1 IH]; intros w; simpl; [done|].
  destruct (perform c w) as [r w1]. specialize (IH w1).
  destruct (perform_all (cs1 ++ cs2) w1), (perform_all cs1 w1). simpl in *. done.
Qed.

Lemma perform_consuming (q : string) (c : StoreCall) (w : World) :
  consumes q c = true → _PENDING_QUERIES (perform c w).2 !! q = None.
Proof.
  destruct c as [tn sql e | q' | sf q']; simpl; [done|..];
    intros ->%bool_decide_eq_true.
  - apply lookup_delete_eq.
  - pose proof (execute_pending sf q w) as Hd.
    destruct (execute_pending_query sf q w). simpl in *. rewrite Hd. apply lookup_delete_eq.
Qed.

(** C1. At most one execution per query id. Take any sequence of store calls
    in which the id [q] is handed out by no staging call, and any call [c] in
    it that approves or cancels [q]. After [c] the store holds no record under
    [q]; every later approve or cancel of [q] answers that nothing was found;
    the later calls hand no statement to the warehouse on behalf of [q]; and
    over the whole sequence the warehouse was handed at most one statement
    for [q]. *)
Theorem pending_query_consumed_at_most_once
    (q : string) (before : list StoreCall) (c : StoreCall) (after : list StoreCall)
    (w : World) :
  Forall (λ c', stages q c' = false) (before ++ c :: after) →
  consumes q c = true →
  let w0 := (perform_all before w).2 in
  let w1 := (perform c w0).2 in
  let w2 := (perform_all after w1).2 in
  _PENDING_QUERIES w1 !! q = None ∧
  all_found_nothing q after (perform_all after w1).1 = true ∧
  executions q w2 = executions q w1 ∧
  (executions q w2 ≤ executions q w + 1)%nat.
Proof.
  intros Hs Hc w0 w1 w2.
  pose proof Hs as Hs'. apply Forall_app in Hs' as [_ Hs'].
  apply Forall_cons in Hs' as [_ Hafter].
  pose proof (perform_consuming q c w0 Hc) as Hgone. fold w1 in Hgone.
  destruct (perform_all_absent q after w1 Hgone Hafter) as (_ & Hsame & Hnothing).
  fold w2 in Hsame. split_and!; [done..|].
  pose proof (perform_all_executions q (before ++ c :: after) w Hs) as Hle.
  rewrite perform_all_app in Hle. fold w0 in Hle. simpl in Hle.
  subst w2 w1. destruct (perform c w0) as [r w1]. simpl in *.
  destruct (perform_all after w1) as [rs w2]. simpl in *. done.
Qed.

(** C4. For a query id with a staged record, the first cancel answers true,
    a second cancel answers false, and an approve after the cancel answers
    that no pending query was found; neither changes the world any further,
    so nothing is executed. *)
Theorem cancel_twice_then_execute (q : string) (sf : Snowflake) (w : World) :
  is_Some (_PENDING_QUERIES w !! q) →
  let w1 := (cancel_pending_query q w).2 in
  (cancel_pending_query q w).1 = true ∧
  cancel_pending_query q w1 = (false, w1) ∧
  execute_pending_query sf q w1 = (NO_PENDING_QUERY, w1) ∧
  warehouse_log w1 = warehouse_log w.
Proof.
  intros Hq w1.
  assert (_PENDING_QUERIES w1 !! q = None) as Hgone.
  { subst w1. rewrite cancel_pending. apply lookup_delete_eq. }
  split_and!.
  - unfold cancel_pending_query, dict_pop. simpl. by apply bool_decide_eq_true.
  - by apply cancel_absent.
  - by apply execute_absent.
  - done.
Qed.

(** C10. A [group_by] outside the four accepted values makes
    [query_transaction_summary] answer the "Invalid group_by" text that lists
    them, and leaves the world, the pending-query store included, as it was. *)
Theorem invalid_group_by_is_rejected
    (group_by : string) (limit : Z) (e : Entropy) (w : World) :
  group_by ∉ ["asset_symbol"; "customer_tier"; "country"; "transaction_type"] →
  query_transaction_summary group_by limit e w =
    ("Invalid group_by. Must be one of: asset_symbol, customer_tier, country, transaction_type",
     w).
Proof.
  intros Hg. unfold query_transaction_summary.
  rewrite bool_decide_eq_false_2 by exact Hg. reflexivity.
Qed.

End store_claims.

(** * Properties of tool dispatch *)

Section dispatch_properties.
Context `{Platform} {W : Type}.
Import chatbot turn_spec.

Lemma run_tool_call_answers (g : Graph W) (tool_call : ToolCall) (w : W) :
  answers tool_call (run_tool_call g tool_call w).1.
Proof.
  unfold run_tool_call, try_tool_call, answers.
  destruct (tools_by_name g !! tc_name tool_call) as [tool|]; simpl; [|by eexists].
  destruct (tool (tc_args tool_call) w) as [[msg|out] w']; simpl; by eexists.
Qed.

Lemma run_tool_calls_answers (g : Graph W) (tool_calls : list ToolCall)
    (outputs : list Message) (w : W) :
  ∃ added : list Message,
    (run_tool_calls g tool_calls outputs w).1 = outputs ++ added ∧
    Forall2 answers tool_calls added.
Proof.
  revert outputs w. induction tool_calls as [|tool_call rest IH]; intros outputs w; simpl.
  - exists []. by rewrite app_nil_r.
  - pose proof (run_tool_call_answers g tool_call w) as Hone.
    destruct (run_tool_call g tool_call w) as [output w1]. simpl in Hone.
    destruct (IH (outputs ++ [output]) w1) as (added & Heq & Hall).
    exists (output :: added). split.
    + by rewrite Heq, <- app_assoc.
    + by constructor.
Qed.

(** The loop resolves and invokes every call, in order, and turns each
    outcome into its tool-result message. *)
Lemma run_tool_calls_dispatched (g : Graph W) (tool_calls : list ToolCall)
    (outputs : list Message) (w : W) :
  ∃ (added : list Message) (w' : W),
    run_tool_calls g tool_calls outputs w = (outputs ++ added, w') ∧
    dispatched g tool_calls w added w'.
Proof.
  revert outputs w. induction tool_calls as [|tool_call rest IH]; intros outputs w.
  - exists [], w. simpl. rewrite app_nil_r. split; [done|constructor].
  - cbn [run_tool_calls]. unfold run_tool_call, try_tool_call, Tool in *.
    destruct (_ !! tc_name tool_call) as [tool|] eqn:Htool.
    + destruct (tool (tc_args tool_call) w) as [[msg|tool_result] w1] eqn:Hcall.
      * destruct (IH (outputs ++
            [ToolMessage (CText ("Error: " +:+ msg)) (tc_name tool_call) (tc_id tool_call)])
            w1) as (added & w' & Heq & Hrest).
        eexists (_ :: added), w'. split.
        -- rewrite Heq, <- app_assoc. done.
        -- by eapply dispatched_raised.
      * destruct (IH (outputs ++
            [ToolMessage (CText (result_text tool_result)) (tc_name tool_call)
                         (tc_id tool_call)]) w1) as (added & w' & Heq & Hrest).
        eexists (_ :: added), w'. split.
        -- rewrite Heq, <- app_assoc. done.
        -- by eapply dispatched_returned.
    + destruct (IH (outputs ++
          [ToolMessage (CText ("Tool " +:+ tc_name tool_call +:+ " not found"))
                       (tc_name tool_call) (tc_id tool_call)]) w)
        as (added & w' & Heq & Hrest).
      eexists (_ :: added), w'. split.
      * rewrite Heq, <- app_assoc. done.
      * by eapply dispatched_not_found.
Qed.

Lemma tools_node_dispatched (g : Graph W) (history : list Message) (content : Content)
    (tool_calls : list ToolCall) (w : W) :
  ∃ (outputs : list Message) (w' : W),
    tools_node g (history ++ [AIMessage content tool_calls]) w = (outputs, w') ∧
    dispatched g tool_calls w outputs w'.
Proof.
  unfold tools_node. rewrite last_snoc. cbn [tool_calls_of].
  destruct tool_calls as [|first rest].
  - exists [], w. split; [done|constructor].
  - destruct (run_tool_calls_dispatched g (first :: rest) [] w) as (added & w' & Heq & Hd).
    exists added, w'. split; [exact Heq|exact Hd].
Qed.

Lemma dispatched_answers (g : Graph W) (tool_calls : list ToolCall) (w w' : W)
    (outputs : list Message) :
  dispatched g tool_calls w outputs w' → Forall2 answers tool_calls outputs.
Proof. induction 1; constructor; try done; by eexists. Qed.

(** Dispatch does to the world only what the registered tools do to it. *)
Lemma run_tool_calls_keep {A : Type} (observe : W → A) (g : Graph W) :
  (∀ name tool tool_args w,
     tools_by_name g !! name = Some tool → observe (tool tool_args w).2 = observe w) →
  ∀ tool_calls outputs w, observe (run_tool_calls g tool_calls outputs w).2 = observe w.
Proof.
  intros Hkeep tool_calls. induction tool_calls as [|tool_call rest IH]; intros outputs w;
    simpl; [done|].
  assert (observe (run_tool_call g tool_call w).2 = observe w) as Hone.
  { unfold run_tool_call, try_tool_call, Tool in *.
    destruct (_ !! tc_name tool_call) as [tool|] eqn:Htool; [|done].
    specialize (Hkeep _ tool (tc_args tool_call) w Htool).
    by destruct (tool (tc_args tool_call) w) as [[msg|out] w']. }
  destruct (run_tool_call g tool_call w) as [output w1]. simpl in Hone.
  by rewrite IH.
Qed.

Lemma tools_node_keeps {A : Type} (observe : W → A) (g : Graph W) :
  (∀ name tool tool_args w,
     tools_by_name g !! name = Some tool → observe (tool tool_args w).2 = observe w) →
  ∀ messages w, observe (tools_node g messages w).2 = observe w.
Proof.
  intros Hkeep messages w. unfold tools_node.
  destruct (last messages) as [last_message|]; [|done].
  destruct (tool_calls_of last_message) as [|first rest]; [done|].
  by apply run_tool_calls_keep.
Qed.

(** The run of the graph, once a reasoning step it reaches fails. *)
Lemma run_graph_failing_backend (g : Graph W) (msg : string)
    (failing : list Message) (wf : W) (st : Node * list Message * W) :
  rtc (graph_step g) st (node_chatbot, failing, wf) →
  chatbot_node g failing = Raised msg →
  ∀ steps : nat,
    (run_graph g steps st.1.1 st.1.2 st.2).1 = Raised msg ∨
    (run_graph g steps st.1.1 st.1.2 st.2).1 =
      Raised "Recursion limit reached without hitting a stop condition.".
Proof.
  intros Hreach Hfail. remember (node_chatbot, failing, wf) as target eqn:Htarget.
  induction Hreach as [st|st1 st2 st3 Hstep Hrest IH];
    intros [|steps]; subst; simpl; [by right| |by right|].
  - left. by rewrite Hfail.
  - specialize (IH eq_refl). destruct Hstep as [messages added w Hnode Hroute | messages added w w' Htools]; simpl in *.
    + rewrite Hnode, Hroute. apply (IH steps).
    + rewrite Htools. apply (IH steps).
Qed.

End dispatch_properties.

Section tool_claims.
Context `{Platform}.
Import warehouse_tools chatbot tool_calls.

(** No warehouse tool hands a statement to the warehouse. *)
Lemma invoke_log (c : WarehouseCall) (e : Entropy) (w : World) :
  warehouse_log (invoke c e w).2 = warehouse_log w.
Proof.
  destruct c; simpl.
  - unfold query_transactions. by destruct (query_transactions_sql _ _ _ _ _).
  - done.
  - unfold query_transaction_summary. by case_match.
  - done.
  - done.
  - unfold query_customer_by_name. by destruct (query_customer_by_name_sql _ _).
Qed.

Lemma as_tool_log (validate : value → Exc WarehouseCall) (draw : World → Entropy)
    (tool_args : value) (w : World) :
  warehouse_log (as_tool validate draw tool_args w).2 = warehouse_log w.
Proof.
  unfold as_tool. destruct (validate tool_args) as [msg|c]; [done|].
  pose proof (invoke_log c (draw w) w) as Hlog.
  by destruct (invoke c (draw w) w).
Qed.

(** What a tool that builds a query returns. *)
Lemma invoke_returns (c : WarehouseCall) (e : Entropy) (w : World) (sql : string) :
  built_sql c = Some sql →
  (invoke c e w).1 = _pending_response (_register_pending_query (name_of c) sql e w).1.
Proof.
  intros Hb. destruct c; simpl in *.
  - unfold query_transactions. by destruct (query_transactions_sql _ _ _ _ _); simplify_eq.
  - by simplify_eq.
  - unfold query_transaction_summary. by case_bool_decide; simplify_eq.
  - by simplify_eq.
  - by simplify_eq.
  - unfold query_customer_by_name. by destruct (query_customer_by_name_sql _ _); simplify_eq.
Qed.

(** C2. A warehouse tool invoked with arguments that build a query returns
    the PENDING_APPROVAL payload of the record it staged: the record is made
    from the fresh id, the tool's name, the stripped SQL text and the time,
    it is now in the store under its id, and the text returned is
    [json.dumps] of the status and the record. No invocation, of any of the
    six tools and with any arguments, hands a statement to the warehouse, and
    neither does a dispatch by [tools_node] over a registry of such tools. *)
Theorem privileged_tool_stages_and_never_executes
    (c : WarehouseCall) (e : Entropy) (w : World)
    (g : Graph World) (messages : list Message) :
  warehouse_log (invoke c e w).2 = warehouse_log w ∧
  (∀ sql : string, built_sql c = Some sql →
     let pq := {| query_id := fresh_uuid e; tool_name := name_of c;
                  sql := strip sql; created_at := now e |} in
     (invoke c e w).1 = json_dumps (VDict [("status", VStr "PENDING_APPROVAL");
                                           ("query", asdict pq)]) ∧
     _PENDING_QUERIES (invoke c e w).2 = <[fresh_uuid e := pq]> (_PENDING_QUERIES w) ∧
     name_of c ∈ WAREHOUSE_TOOLS) ∧
  ((∀ name tool, tools_by_name g !! name = Some tool →
      ∃ validate draw, tool = as_tool validate draw) →
   warehouse_log (tools_node g messages w).2 = warehouse_log w).
Proof.
  split_and!.
  - apply invoke_log.
  - intros sql Hb pq. destruct c; simpl in *.
    + unfold query_transactions.
      destruct (query_transactions_sql _ _ _ _ _); simplify_eq.
      split_and!; [done..|by repeat constructor].
    + simplify_eq. split_and!; [done..|by repeat constructor].
    + unfold query_transaction_summary. case_bool_decide; simplify_eq.
      split_and!; [done..|by repeat constructor].
    + simplify_eq. split_and!; [done..|by repeat constructor].
    + simplify_eq. split_and!; [done..|by repeat constructor].
    + unfold query_customer_by_name.
      destruct (query_customer_by_name_sql _ _); simplify_eq.
      split_and!; [done..|by repeat constructor].
  - intros Hreg. apply (tools_node_keeps warehouse_log). intros name tool tool_args w0 Htool.
    destruct (Hreg name tool Htool) as (validate & draw & ->). apply as_tool_log.
Qed.

End tool_claims.

Section dispatch_claims.
Context `{Platform} {W : Type}.
Import chatbot turn_spec.

(** C9. Tool dispatch survives failing tool calls. When the last message
    requests tool calls, [tools_node] resolves every one of them, in call
    order, and returns exactly one tool-result message per call, carrying the
    name and the id of the call: "Tool <name> not found" for a name that is
    not registered, "Error: <text of the exception>" for a tool that raises,
    the text of the result for a tool that returns; a failing call does not
    keep the calls after it from being dispatched. The graph then goes on to
    the next reasoning step with those messages appended, and when the model
    answers that step without a tool call the invocation returns the whole
    thread, the failure messages in place. *)
Theorem failing_tool_call_does_not_abort_the_turn
    (g : Graph W) (history : list Message) (content : Content)
    (tool_calls : list ToolCall) (w : W) :
  let messages := history ++ [AIMessage content tool_calls] in
  ∃ (outputs : list Message) (w' : W),
    tools_node g messages w = (outputs, w') ∧
    dispatched g tool_calls w outputs w' ∧
    Forall2 answers tool_calls outputs ∧
    (∀ steps : nat,
       run_graph g (S steps) node_tools messages w =
       run_graph g steps node_chatbot (messages ++ outputs) w') ∧
    (∀ final : Message,
       llm_with_tools g (SystemMessage (CText (system_prompt g)) :: messages ++ outputs)
       = Returned final →
       tool_calls_of final = [] →
       ∀ steps : nat,
         run_graph g (S (S steps)) node_tools messages w =
         (Returned (messages ++ outputs ++ [final]), w')).
Proof.
  intros messages.
  destruct (tools_node_dispatched g history content tool_calls w) as (outputs & w' & Hnode & Hd).
  fold messages in Hnode.
  assert (∀ steps : nat,
            run_graph g (S steps) node_tools messages w =
            run_graph g steps node_chatbot (messages ++ outputs) w') as Hstep.
  { intros steps. cbn [run_graph]. by rewrite Hnode. }
  exists outputs, w'. split_and!; [done|done|by eapply dispatched_answers|done|].
  intros final Hllm Hfinal steps. rewrite Hstep. cbn [run_graph].
  unfold chatbot_node. rewrite Hllm. simpl.
  unfold route_query. rewrite last_snoc, Hfinal. by rewrite <- app_assoc.
Qed.

End dispatch_claims.

(** * Properties of the turn post-processing *)

Section chat_properties.
Context `{Platform}.
Import warehouse_tools chatbot turn_spec.


#[local] Arguments str_take : simpl never.


(** Tool calls touch neither the sources nor the pending queries. *)
Lemma note_tool_calls_keep (t : Tally) (tool_calls : list ToolCall) :
  t_sources (foldl note_tool_call t tool_calls) = t_sources t ∧
  t_pending (foldl note_tool_call t tool_calls) = t_pending t.
Proof.
  revert t. induction tool_calls as [|tool_call rest IH]; intros t; simpl; [done|].
  destruct (IH (note_tool_call t tool_call)) as [-> ->]. done.
Qed.

Lemma note_message_pending (t : Tally) (msg : Message) :
  t_pending (note_message t msg) = t_pending t ++ option_list (detected_in msg).
Proof.
  unfold note_message.
  destruct (note_tool_calls_keep t (tool_calls_of msg)) as [_ Hp].
  destruct msg as [c|c|c tcs|c name id]; simpl; rewrite ?app_nil_r; try done.
  unfold note_tool_message, detected_in.
  destruct c as [payload|blocks].
  - destruct (_try_parse_pending_query_payload payload); simpl;
      case_bool_decide; simpl; by rewrite ?app_nil_r.
  - case_bool_decide; simpl; by rewrite ?app_nil_r.
Qed.

Lemma foldl_note_message_pending (t : Tally) (messages : list Message) :
  t_pending (foldl note_message t messages) = t_pending t ++ detected_pending messages.
Proof.
  revert t. induction messages as [|msg rest IH]; intros t; simpl.
  - by rewrite app_nil_r.
  - rewrite IH, note_message_pending. unfold detected_pending. simpl.
    destruct (detected_in msg); simpl; by rewrite <- ?app_assoc, ?app_nil_r.
Qed.

Lemma tally_pending (messages : list Message) :
  t_pending (tally_messages messages) = detected_pending messages.
Proof. unfold tally_messages. by rewrite foldl_note_message_pending. Qed.

(** The detector accepts the PENDING_APPROVAL payloads and nothing else. *)
Lemma detector_accepts (text : string) (q : value) :
  _try_parse_pending_query_payload text = Some q ↔ pending_approval_payload text q.
Proof.
  unfold _try_parse_pending_query_payload, pending_approval_payload. split.
  - destruct (json_loads text) as [msg|[|b|z|qf|s|l|items]]; try discriminate.
    destruct (dict_get "status" items) as [[|b|z|qf|status|l|its]|] eqn:Hstatus;
      try discriminate.
    destruct (dict_get "query" items) as [[|b|z|qf|s|l|query]|] eqn:Hquery;
      try discriminate.
    case_bool_decide as Hpending; [|discriminate]. intros [= <-].
    exists items, query. by subst status.
  - intros (items & query & -> & -> & -> & ->).
    by rewrite bool_decide_eq_true_2.
Qed.

Lemma detected_in_carries (msg : Message) (q : value) :
  detected_in msg = Some q ↔ carries_pending msg q.
Proof.
  unfold detected_in, carries_pending. split.
  - destruct msg as [c|c|c tcs|[text|blocks] name id]; try discriminate.
    intros Hq%detector_accepts. by exists text, name, id.
  - intros (text & name & id & -> & Hq). by apply detector_accepts.
Qed.

Lemma pending_among_detected (messages : list Message) :
  pending_among messages (detected_pending messages).
Proof.
  induction messages as [|msg rest IH]; [constructor|].
  unfold detected_pending in *. cbn [omap list_omap].
  destruct (detected_in msg) as [q|] eqn:Hmsg.
  - apply pending_hit; [by apply detected_in_carries|done].
  - apply pending_miss; [|done]. intros q Hq%detected_in_carries. congruence.
Qed.

(** What [chat] takes for the messages of this turn, when [get_state]
    answered with the history of the thread. *)
Lemma select_read_history (values : gmap string (list Message))
    (history appended : list Message) :
  default [] (values !! "messages") = history →
  select_this_turn (count_messages_before (Returned values)) (history ++ appended) = appended.
Proof.
  intros Hhistory.
  assert (count_messages_before (Returned values) = length history) as ->.
  { unfold count_messages_before. case_bool_decide as Hdom; [|by rewrite Hhistory].
    apply dom_empty_iff_L in Hdom. subst values. rewrite lookup_empty in Hhistory.
    by subst history. }
  unfold select_this_turn. case_bool_decide as Hlen.
  - by rewrite drop_app_length.
  - destruct history; [done|simpl in Hlen; lia].
Qed.

(** The method of the result goes by the pending payloads among the messages
    [chat] selects. *)
Lemma method_by_selection
    (state_values : Exc (gmap string (list Message)))
    (earlier : list Message) (final_message : Message) :
  let messages := earlier ++ [final_message] in
  let result := chat state_values (Returned messages) in
  match detected_pending (select_this_turn (count_messages_before state_values) messages) with
  | [] => method result = "agent_with_tools" ∧ pending_queries result = None
  | (_ :: _) as detected =>
      method result = "pending_approval" ∧ pending_queries result = Some detected
  end.
Proof.
  intros messages result. subst result. unfold chat, chat_body. simpl.
  subst messages. rewrite last_snoc. simpl.
  rewrite <- tally_pending.
  by destruct (t_pending (tally_messages _)); cbn.
Qed.

(** What the loop over the retrieved items appends. *)
Lemma append_sources_added (docs : list value) (sources : list Source) :
  ∃ added : list Source,
    (append_sources docs sources).2 = sources ++ added ∧
    (length added ≤ length docs)%nat ∧
    Forall (λ s, ∃ doc, doc ∈ docs ∧ source_of_item doc s) added.
Proof.
  revert sources. induction docs as [|doc rest IH]; intros sources; simpl.
  - exists []. by rewrite app_nil_r.
  - assert (∀ srcs, ∃ added, (append_sources rest srcs).2 = srcs ++ added ∧
              (length added ≤ S (length rest))%nat ∧
              Forall (λ s, ∃ d, d ∈ doc :: rest ∧ source_of_item d s) added) as Hskip.
    { intros srcs. destruct (IH srcs) as (added & Heq & Hlen & Hall).
      exists added. split_and!; [done|lia|].
      eapply Forall_impl; [exact Hall|]. intros s (d & Hd & Hs). exists d.
      split; [by right|done]. }
    destruct doc as [|b|z|q|s|l|items]; try apply Hskip.
    destruct (default (VStr (py_str (VDict items))) (dict_get "page_content" items))
      as [|b|z|q|full|l|its] eqn:Hpage; simpl;
      try (exists []; rewrite app_nil_r; split_and!; [done|simpl; lia|constructor]).
    destruct (IH (sources ++
        [{| src_content := str_take 200 full +:+ "...";
            src_metadata := default (VDict []) (dict_get "metadata" items) |}]))
      as (added & Heq & Hlen & Hall).
    eexists (_ :: added). split_and!.
    + by rewrite Heq, <- app_assoc.
    + simpl. lia.
    + constructor.
      * exists (VDict items). split; [by left|]. exists items, full. done.
      * eapply Forall_impl; [exact Hall|]. intros s (d & Hd & Hs). exists d.
        split; [by right|done].
Qed.




(** What the [try] block of [document_search] appends. *)
Lemma document_sources_added (content : Content) (sources : list Source) :
  ∃ added : list Source,
    document_sources content sources = sources ++ added ∧
    (length added ≤ 3)%nat ∧
    Forall (λ s, ∃ doc, doc ∈ take 3 (default [] (retrieved_items content)) ∧
                        source_of_item doc s) added ∧
    (retrieved_items content = None → added = []).
Proof.
  assert (∃ added : list Source, sources = sources ++ added ∧ (length added ≤ 3)%nat ∧
            Forall (λ s, ∃ doc, doc ∈ take 3 (default [] (retrieved_items content)) ∧
                                source_of_item doc s) added ∧ added = []) as Hnone.
  { exists []. rewrite app_nil_r. split_and!; [done|simpl; lia|constructor|done]. }
  assert (∀ docs, retrieved_items content = Some docs →
            ∃ added : list Source,
              (append_sources (take 3 docs) sources).2 = sources ++ added ∧
              (length added ≤ 3)%nat ∧
              Forall (λ s, ∃ doc, doc ∈ take 3 (default [] (retrieved_items content)) ∧
                                  source_of_item doc s) added ∧
              (retrieved_items content = None → added = [])) as Hsome.
  { intros docs Hdocs.
    destruct (append_sources_added (take 3 docs) sources) as (added & Heq & Hlen & Hall).
    exists added. rewrite Hdocs. simpl. split_and!; [done| |done|done].
    pose proof (firstn_le_length 3 docs). lia. }
  unfold document_sources, try_document_sources.
  destruct content as [s|blocks]; simpl.
  - unfold retrieved_items in *.
    destruct (json_loads s) as [msg|[|b|z|q|s0|docs|items]]; simpl;
      try (destruct Hnone as (added & ? & ? & ? & ?); exists added; by split_and!).
    by apply Hsome.
  - by apply Hsome.
Qed.

End chat_properties.

Section chat_claims.
Context `{Platform}.
Import warehouse_tools chatbot turn_spec.

(** C3, as the code has it. The payload of a staged query is [json.dumps]
    of an object with the status "PENDING_APPROVAL" and a query object of
    four fields: query_id, tool_name, sql and created_at; and this is the
    text every warehouse tool that builds a query returns, for the record it
    staged. The detector of the turn post-processor recognises this shape: a
    text that reads as this object is accepted, and the query object with
    its four fields is what the detector returns. What the detector accepts
    are the texts that read as a JSON object whose status is
    "PENDING_APPROVAL" and whose query is an object, and no other. *)
Theorem pending_payload_has_four_fields_and_is_detected (pq : PendingQuery) :
  let query := VDict [("query_id", VStr (query_id pq));
                      ("tool_name", VStr (tool_name pq));
                      ("sql", VStr (sql pq));
                      ("created_at", VFloat (created_at pq))] in
  let payload := VDict [("status", VStr "PENDING_APPROVAL"); ("query", query)] in
  _pending_response pq = json_dumps payload ∧
  (∀ (c : tool_calls.WarehouseCall) (e : Entropy) (w : World) (built : string),
     tool_calls.built_sql c = Some built →
     (tool_calls.invoke c e w).1 =
       _pending_response {| query_id := fresh_uuid e; tool_name := tool_calls.name_of c;
                            sql := strip built; created_at := now e |}) ∧
  (∀ text : string,
     json_loads text = Returned payload →
     _try_parse_pending_query_payload text = Some query) ∧
  (∀ (text : string) (q : value),
     _try_parse_pending_query_payload text = Some q ↔ pending_approval_payload text q).
Proof.
  intros query payload. split_and!.
  - reflexivity.
  - intros c e w built Hb. by rewrite (invoke_returns c e w built Hb).
  - intros text Hread. apply detector_accepts. unfold pending_approval_payload.
    eexists _, _. split; [exact Hread|]. by split_and!.
  - apply detector_accepts.
Qed.

(** C5, as the code has it. When [get_state] answered with the history of
    the thread (no messages on a new thread) and [graph.invoke] returned, the
    method of the result follows the PENDING_APPROVAL payloads among the
    tool results appended in this turn: with none the method is
    "agent_with_tools"; with at least one it is "pending_approval" and
    [pending_queries] lists the query of every one of them in message order.
    The text of the final message plays no part. When [get_state] raises, the
    payloads are looked for among all messages of the thread, those of
    earlier turns too. *)
Theorem method_follows_pending_payloads_of_the_turn
    (values : gmap string (list Message)) (history this_turn : list Message)
    (final_message : Message) :
  default [] (values !! "messages") = history →
  let appended := this_turn ++ [final_message] in
  (∃ detected : list value,
     pending_among appended detected ∧
     let result := chat (Returned values) (Returned (history ++ appended)) in
     match detected with
     | [] => method result = "agent_with_tools" ∧ pending_queries result = None
     | _ :: _ => method result = "pending_approval" ∧ pending_queries result = Some detected
     end) ∧
  (∀ msg : string,
     ∃ detected : list value,
       pending_among (history ++ appended) detected ∧
       let result := chat (Raised msg) (Returned (history ++ appended)) in
       match detected with
       | [] => method result = "agent_with_tools" ∧ pending_queries result = None
       | _ :: _ => method result = "pending_approval" ∧ pending_queries result = Some detected
       end).
Proof.
  intros Hhistory appended. split.
  - exists (detected_pending appended). split; [apply pending_among_detected|].
    pose proof (method_by_selection (Returned values) (history ++ this_turn) final_message)
      as Hmethod.
    cbv zeta in Hmethod. rewrite <- app_assoc in Hmethod. fold appended in Hmethod.
    rewrite (select_read_history values history appended Hhistory) in Hmethod.
    by destruct (detected_pending appended).
  - intros msg. exists (detected_pending (history ++ appended)).
    split; [apply pending_among_detected|].
    pose proof (method_by_selection (Raised msg) (history ++ this_turn) final_message)
      as Hmethod.
    cbv zeta in Hmethod. rewrite <- app_assoc in Hmethod. fold appended in Hmethod.
    change (select_this_turn (count_messages_before (Raised msg)) (history ++ appended))
      with (history ++ appended) in Hmethod.
    by destruct (detected_pending (history ++ appended)).
Qed.

(** C6, as the code has it. When [get_state] answers with the history of
    the thread, and that history is not empty, the sources, the tool lists
    and the pending queries of the result are those tallied from the messages
    appended in this turn alone: nothing in them depends on the history.
    When [get_state] raises, they are tallied from every message that
    [graph.invoke] returned. *)
Theorem turn_attribution_when_state_is_read
    (values : gmap string (list Message)) (history this_turn : list Message) :
  values !! "messages" = Some history →
  history ≠ [] →
  attributed (chat (Returned values) (Returned (history ++ this_turn)))
  = tallied (tally_messages this_turn) ∧
  ∀ msg : string,
    attributed (chat (Raised msg) (Returned (history ++ this_turn)))
    = tallied (tally_messages (history ++ this_turn)).
Proof.
  intros Hvalues Hhistory.
  assert (is_Some (last (history ++ this_turn))) as [final Hfinal].
  { apply last_is_Some. by destruct history. }
  split.
  - unfold chat, chat_body. simpl. rewrite Hfinal. simpl.
    rewrite bool_decide_eq_false_2, Hvalues; last first.
    { intros Hdom. apply dom_empty_iff_L in Hdom. by rewrite Hdom in Hvalues. }
    simpl. unfold select_this_turn.
    rewrite bool_decide_eq_true_2 by (destruct history; simpl; [done|lia]).
    rewrite drop_app_length.
    unfold attributed, tallied.
    by destruct (t_pending (tally_messages this_turn)) eqn:Hp; cbn; rewrite ?Hp.
  - intros msg. unfold chat, chat_body. simpl. rewrite Hfinal. simpl.
    unfold select_this_turn. simpl. unfold attributed, tallied.
    by destruct (t_pending (tally_messages (history ++ this_turn))) eqn:Hp; cbn; rewrite ?Hp.
Qed.


(** C8. [chat] never lets an exception out. Whenever a step inside its [try]
    raises, the result is the error result: method "error", the answer
    "I encountered an error: <text>. Please try rephrasing your question.",
    and nothing in the sources, in the two tool lists and in the pending
    queries (the dict has no pending_queries key). In particular, once a run
    of the graph reaches a reasoning step at which the model raises, [chat]
    returns the error result, with the text of that exception or, if the
    recursion limit is hit first, of the limit. *)
Theorem chat_turns_exceptions_into_error_results {W : Type}
    (g : Graph W) (state_values : Exc (gmap string (list Message)))
    (history : list Message) (question : string) (w : W) :
  (∀ (invoked : Exc (list Message)) (msg : string),
     chat_body state_values invoked = Raised msg →
     let result := chat state_values invoked in
     method result = "error" ∧
     answer result = CText ("I encountered an error: " +:+ msg +:+
                            ". Please try rephrasing your question.") ∧
     attributed result = ([], [], [], []) ∧
     pending_queries result = None) ∧
  (∀ (failing : list Message) (wf : W) (msg : string),
     rtc (graph_step g)
         (node_chatbot, history ++ [HumanMessage (CText question)], w)
         (node_chatbot, failing, wf) →
     llm_with_tools g (SystemMessage (CText (system_prompt g)) :: failing) = Raised msg →
     ∃ shown : string,
       (shown = msg ∨
        shown = "Recursion limit reached without hitting a stop condition.") ∧
       let result := (chat_on_graph g state_values history question w).1 in
       method result = "error" ∧
       answer result = CText ("I encountered an error: " +:+ shown +:+
                              ". Please try rephrasing your question.") ∧
       attributed result = ([], [], [], []) ∧
       pending_queries result = None).
Proof.
  split.
  - intros invoked msg Hbody. unfold chat. by rewrite Hbody.
  - intros failing wf msg Hreach Hraise.
    assert (chatbot_node g failing = Raised msg) as Hnode.
    { unfold chatbot_node. by rewrite Hraise. }
    pose proof (run_graph_failing_backend g msg failing wf _ Hreach Hnode (recursion_limit g))
      as Hrun. simpl in Hrun.
    unfold chat_on_graph, graph_invoke.
    destruct (run_graph g (recursion_limit g) node_chatbot _ w) as [invoked w'].
    simpl in *. destruct Hrun as [-> | ->]; eexists; (split; [|done]); auto.
Qed.

End chat_claims.

(** * The properties on the sample inputs *)

Section on_samples.
Import warehouse_tools chatbot store_trace tool_calls turn_spec samples.
#[local] Existing Instance reference.platform.

(** The string functions on sample texts. *)
Example strip_and_split :
  strip (nl +:+ "   SELECT 1  " +:+ nl) = "SELECT 1" ∧
  split "  John   van Doe " = ["John"; "van"; "Doe"] ∧
  split "   " = [] ∧
  upper "buy-2x" = "BUY-2X" ∧
  str_take 3 "abcdef" = "abc" ∧ str_take 3 "ab" = "ab".
Proof. by vm_compute. Qed.

(** The statement [query_news_events("BTC", 5)] stages. *)
Example news_events_statement :
  strip (query_news_events_sql (Some "BTC") 5)
  = "SELECT
            h.asset_symbol,
            n.title,
            n.description,
            n.published_at,
            n.ingestion_source
        FROM DB_T23.SC_T23_MART.fct_news_events n
        JOIN DB_T23.SC_T23_MART.dim_asset h
            ON n.asset_hk = h.asset_hk
        WHERE h.asset_symbol = 'BTC'
        ORDER BY n.published_at DESC
        LIMIT 5".
Proof. vm_compute. reflexivity. Qed.

(** A full name is searched as first and last name; a blank name raises
    inside the tool and comes back as its error text. *)
Example customer_name_conditions :
  (∃ sql, query_transactions_sql None (Some "John Doe") None (Some "buy") 10 = Returned sql ∧
          is_Some (String.index 0
            "WHERE TRIM(c.first_name) ILIKE '%John%' AND TRIM(c.last_name) ILIKE '%Doe%' AND t.transaction_type = 'BUY'"
            sql)) ∧
  (query_transactions None (Some "   ") None None 10 entropy1 empty_world
   = ("Error preparing transactions query: list index out of range", empty_world)) ∧
  (query_customer_by_name EmptyString 10 entropy1 empty_world
   = ("Error preparing customer search query: list index out of range", empty_world)).
Proof.
  split_and!; [eexists; split; [reflexivity|]|..]; vm_compute; by eauto.
Qed.

(** The sample approve runs the statement once; the approve and the cancel
    after it find nothing. *)
Example sample_calls_execute_once :
  warehouse_log (perform_all (calls_before ++ consuming_call :: calls_after) staged_world).2
  = [("3f2b8c1e", sql staged_query)] ∧
  found_nothing <$> (perform_all calls_after (perform consuming_call staged_world).2).1
  = [true; true].
Proof. split; vm_compute; reflexivity. Qed.

Lemma pending_query_consumed_at_most_once_witness :
  Forall (λ c', stages "3f2b8c1e" c' = false) (calls_before ++ consuming_call :: calls_after) ∧
  consumes "3f2b8c1e" consuming_call = true ∧
  all_found_nothing "3f2b8c1e" calls_after
    (perform_all calls_after
       (perform consuming_call (perform_all calls_before staged_world).2).2).1 = true ∧
  (executions "3f2b8c1e"
     (perform_all calls_after
        (perform consuming_call (perform_all calls_before staged_world).2).2).2
   ≤ executions "3f2b8c1e" staged_world + 1)%nat.
Proof.
  assert (Forall (λ c', stages "3f2b8c1e" c' = false)
            (calls_before ++ consuming_call :: calls_after)) as Hs
    by (repeat constructor).
  assert (consumes "3f2b8c1e" consuming_call = true) as Hc by reflexivity.
  pose proof (@pending_query_consumed_at_most_once reference.platform
                "3f2b8c1e" calls_before consuming_call calls_after staged_world Hs Hc)
    as (_ & Hnothing & _ & Hle).
  split_and!; [exact Hs|exact Hc|exact Hnothing|exact Hle].
Defined.

Lemma cancel_twice_then_execute_witness :
  is_Some (_PENDING_QUERIES staged_world !! "3f2b8c1e") ∧
  (cancel_pending_query "3f2b8c1e" staged_world).1 = true ∧
  (cancel_pending_query "3f2b8c1e" (cancel_pending_query "3f2b8c1e" staged_world).2).1 = false ∧
  (execute_pending_query warehouse_up "3f2b8c1e"
     (cancel_pending_query "3f2b8c1e" staged_world).2).1 = NO_PENDING_QUERY.
Proof.
  assert (is_Some (_PENDING_QUERIES staged_world !! "3f2b8c1e")) as Hq
    by (vm_compute; eauto).
  pose proof (@cancel_twice_then_execute reference.platform "3f2b8c1e" warehouse_up
                staged_world Hq) as (Hfirst & Hsecond & Hexec & _).
  split_and!; [exact Hq|exact Hfirst|by rewrite Hsecond|by rewrite Hexec].
Defined.

Lemma invalid_group_by_is_rejected_witness :
  ("region" ∉ ["asset_symbol"; "customer_tier"; "country"; "transaction_type"]) ∧
  query_transaction_summary "region" 20 entropy1 staged_world =
    ("Invalid group_by. Must be one of: asset_symbol, customer_tier, country, transaction_type",
     staged_world).
Proof.
  assert ("region" ∉ ["asset_symbol"; "customer_tier"; "country"; "transaction_type"]) as Hg.
  { rewrite !not_elem_of_cons. split_and!; try done. apply not_elem_of_nil. }
  split; [exact Hg|].
  exact (@invalid_group_by_is_rejected reference.platform "region" 20 entropy1 staged_world Hg).
Defined.

Lemma privileged_tool_stages_and_never_executes_witness :
  built_sql (call_query_price_trends "BTC" 7) = Some (query_price_trends_sql "BTC" 7) ∧
  warehouse_log (invoke (call_query_price_trends "BTC" 7) entropy1 empty_world).2 = [] ∧
  (invoke (call_query_price_trends "BTC" 7) entropy1 empty_world).1
  = _pending_response staged_query ∧
  _PENDING_QUERIES (invoke (call_query_price_trends "BTC" 7) entropy1 empty_world).2
  = <["3f2b8c1e" := staged_query]> ∅ ∧
  warehouse_log
    (tools_node approval_graph [AIMessage (CText EmptyString) [trends_call]] empty_world).2
  = [].
Proof.
  assert (built_sql (call_query_price_trends "BTC" 7) = Some (query_price_trends_sql "BTC" 7))
    as Hb by reflexivity.
  assert (∀ name tool, tools_by_name approval_graph !! name = Some tool →
            ∃ validate draw, tool = as_tool validate draw) as Hreg.
  { intros name tool Htool. unfold approval_graph in Htool. simpl in Htool.
    apply lookup_singleton_Some in Htool as [_ <-]. by eexists _, _. }
  pose proof (@privileged_tool_stages_and_never_executes reference.platform
                (call_query_price_trends "BTC" 7) entropy1 empty_world
                approval_graph [AIMessage (CText EmptyString) [trends_call]])
    as (Hlog & Hstage & Hdispatch).
  destruct (Hstage _ Hb) as (Hout & Hstore & _).
  split_and!; [exact Hb|exact Hlog|exact Hout|exact Hstore|exact (Hdispatch Hreg)].
Defined.

(** The payload of the sample staged query has a fourth field. *)
Lemma staged_payload_has_created_at :
  ¬ three_field_payload (pending_payload staged_query).
Proof. intros (a & b & c & Heq). vm_compute in Heq. discriminate Heq. Qed.

Lemma pending_payload_has_four_fields_and_is_detected_witness :
  built_sql (call_query_price_trends "BTC" 7) = Some (query_price_trends_sql "BTC" 7) ∧
  (invoke (call_query_price_trends "BTC" 7) entropy1 empty_world).1
  = _pending_response staged_query ∧
  json_loads (_pending_response staged_query) = Returned (pending_payload staged_query) ∧
  _try_parse_pending_query_payload (_pending_response staged_query)
  = Some (asdict staged_query).
Proof.
  assert (built_sql (call_query_price_trends "BTC" 7)
          = Some (query_price_trends_sql "BTC" 7)) as Hb by reflexivity.
  assert (json_loads (_pending_response staged_query) = Returned (pending_payload staged_query))
    as Hread by (vm_compute; reflexivity).
  destruct (@pending_payload_has_four_fields_and_is_detected reference.platform staged_query)
    as (_ & Htool & Hshape & _).
  split_and!; [exact Hb| |exact Hread|exact (Hshape _ Hread)].
  exact (Htool (call_query_price_trends "BTC" 7) entropy1 empty_world _ Hb).
Defined.

(** With [get_state] failing, a turn that staged nothing is reported as
    waiting for approval, with the query an earlier turn staged. *)
Lemma earlier_pending_query_reported_when_state_read_fails :
  pending_among second_turn [] ∧
  method (chat (Raised "connection closed") (Returned (staged_turn ++ second_turn)))
  = "pending_approval" ∧
  pending_queries (chat (Raised "connection closed") (Returned (staged_turn ++ second_turn)))
  = Some [asdict staged_query].
Proof.
  split_and!; [|vm_compute; reflexivity..].
  repeat (apply pending_miss; [intros q (text & name & id & Hmsg & _); discriminate Hmsg|]).
  constructor.
Qed.

Lemma method_follows_pending_payloads_of_the_turn_witness :
  default [] (({["messages" := staged_turn]} : gmap string (list Message)) !! "messages")
  = staged_turn ∧
  ∃ detected : list value,
    pending_among ([HumanMessage (CText "Thanks, what is a stablecoin?")] ++
                   [AIMessage (CText "A stablecoin is a token pegged to a reference asset.") []])
                  detected ∧
    let result :=
      chat (Returned {["messages" := staged_turn]})
           (Returned (staged_turn ++
                      [HumanMessage (CText "Thanks, what is a stablecoin?")] ++
                      [AIMessage (CText "A stablecoin is a token pegged to a reference asset.")
                                 []])) in
    match detected with
    | [] => method result = "agent_with_tools" ∧ pending_queries result = None
    | _ :: _ => method result = "pending_approval" ∧ pending_queries result = Some detected
    end.
Proof.
  assert (default [] (({["messages" := staged_turn]} : gmap string (list Message))
                        !! "messages") = staged_turn) as Hhistory
    by (rewrite lookup_singleton_eq; reflexivity).
  split; [exact Hhistory|].
  exact (proj1 (@method_follows_pending_payloads_of_the_turn reference.platform _ staged_turn
                  [HumanMessage (CText "Thanks, what is a stablecoin?")]
                  (AIMessage (CText "A stablecoin is a token pegged to a reference asset.") [])
                  Hhistory)).
Defined.

(** The same turn, with the state read and with the state not read. *)
Example stablecoin_turn_after_a_staged_query :
  method (chat (Returned {["messages" := staged_turn]}) (Returned (staged_turn ++ second_turn)))
  = "agent_with_tools" ∧
  method (chat (Raised "connection closed") (Returned (staged_turn ++ second_turn)))
  = "pending_approval" ∧
  method (chat (Returned ∅) (Returned staged_turn)) = "pending_approval".
Proof. split_and!; vm_compute; reflexivity. Qed.

(** A turn that stages a query, its approval, and a second approval. *)
Example approval_round_trip :
  let '(result, w1) :=
    chat_on_graph approval_graph (Returned ∅) [] "How did BTC move this week?" empty_world in
  let '(rows, w2) := execute_approved_query warehouse_up "3f2b8c1e" w1 in
  let '(again, w3) := execute_approved_query warehouse_up "3f2b8c1e" w2 in
  method result = "pending_approval" ∧
  pending_queries result = Some [asdict staged_query] ∧
  warehouse_tools_used result = ["query_price_trends"] ∧
  answer result = CText "The query is ready and needs your approval." ∧
  warehouse_log w1 = [] ∧
  rows = "[{" +:+ reference.quote +:+ "N" +:+ reference.quote +:+ ":1}]" ∧
  again = NO_PENDING_QUERY ∧
  warehouse_log w3 = [("3f2b8c1e", sql staged_query)].
Proof. vm_compute. by split_and!. Qed.

(** With [get_state] failing, the second sample turn is charged with the
    warehouse tool of the first one. *)
Example second_turn_with_unread_state :
  warehouse_tools_used (chat (Raised "connection closed") (Returned (first_turn ++ second_turn)))
  = ["query_transactions"] ∧
  t_warehouse (tally_messages second_turn) = [].
Proof. split; vm_compute; reflexivity. Qed.

Lemma prior_turn_attributed_when_state_read_fails :
  first_turn ≠ [] ∧
  attributed (chat (Raised "connection closed") (Returned (first_turn ++ second_turn)))
  ≠ tallied (tally_messages second_turn).
Proof. split; [done|]. vm_compute. intros Heq. discriminate Heq. Qed.

Lemma turn_attribution_when_state_is_read_witness :
  ({["messages" := first_turn]} : gmap string (list Message)) !! "messages" = Some first_turn ∧
  first_turn ≠ [] ∧
  attributed (chat (Returned {["messages" := first_turn]}) (Returned (first_turn ++ second_turn)))
  = tallied (tally_messages second_turn).
Proof.
  assert (({["messages" := first_turn]} : gmap string (list Message)) !! "messages"
          = Some first_turn) as Hvalues by apply lookup_singleton_eq.
  assert (first_turn ≠ []) as Hhistory by done.
  split_and!; [exact Hvalues|exact Hhistory|].
  exact (proj1 (@turn_attribution_when_state_is_read reference.platform _ first_turn
                  second_turn Hvalues Hhistory)).
Defined.

(** Of four retrieved items the first three are looked at: the object with
    a page content and the object without one give a source each, the number
    is passed over, and the fourth item is never reached. *)
Example four_documents_sources :
  t_sources (note_message empty_tally (ToolMessage four_documents "document_search" "call_7"))
  = [{| src_content := "Foundry AI is a platform....";
        src_metadata := VDict [("page", VInt 1)] |};
     {| src_content := "{'metadata': None}...";
        src_metadata := VNone |}].
Proof. vm_compute. reflexivity. Qed.


Lemma chat_turns_exceptions_into_error_results_witness :
  chat_body (Raised "connection closed") (Returned []) = Raised "list index out of range" ∧
  method (chat (Raised "connection closed") (Returned [])) = "error" ∧
  llm_with_tools backend_down_graph
    (SystemMessage (CText (system_prompt backend_down_graph))
       :: [] ++ [HumanMessage (CText "What is BTC?")])
  = Raised "connection refused" ∧
  method (chat_on_graph backend_down_graph (Raised "connection closed") [] "What is BTC?"
                        empty_world).1
  = "error".
Proof.
  assert (chat_body (Raised "connection closed") (Returned [])
          = Raised "list index out of range") as Hbody by reflexivity.
  assert (llm_with_tools backend_down_graph
            (SystemMessage (CText (system_prompt backend_down_graph))
               :: [] ++ [HumanMessage (CText "What is BTC?")])
          = Raised "connection refused") as Hdown by reflexivity.
  pose proof (@chat_turns_exceptions_into_error_results reference.platform World
                backend_down_graph (Raised "connection closed") [] "What is BTC?" empty_world)
    as [Hany Hbackend].
  split_and!; [exact Hbody| |exact Hdown|].
  - exact (proj1 (Hany _ _ Hbody)).
  - destruct (Hbackend _ empty_world _ (rtc_refl _ _) Hdown) as (shown & _ & Hmethod & _).
    exact Hmethod.
Defined.

(** With the model down, the answer carries the text of its exception. *)
Example backend_down_answer :
  (chat_on_graph backend_down_graph (Returned ∅) [] "What is BTC?" empty_world).1
  = {| answer := CText "I encountered an error: connection refused. Please try rephrasing your question.";
       sources := []; warehouse_tools_used := []; rag_tools_used := [];
       pending_queries := None; method := "error" |}.
Proof. vm_compute. reflexivity. Qed.

(** The sample graph asks for a missing tool and for a tool that raises; the
    turn still ends with the model's answer, after two tool results. *)
Example failing_tools_turn :
  (graph_invoke failing_tools_graph [] "Read this image" empty_world).1
  = Returned
      [HumanMessage (CText "Read this image");
       AIMessage (CText EmptyString) two_calls;
       ToolMessage (CText "Tool no_such_tool not found") "no_such_tool" "call_a";
       ToolMessage (CText "Error: file not found") "extract_text_from_image" "call_b";
       AIMessage (CText "Both tools failed.") []].
Proof. vm_compute. reflexivity. Qed.

Lemma failing_tool_call_does_not_abort_the_turn_witness :
  ∃ (outputs : list Message) (w' : World),
    tools_node failing_tools_graph
      ([HumanMessage (CText "Read this image")] ++ [AIMessage (CText EmptyString) two_calls])
      empty_world
    = (outputs, w') ∧
    outputs = [ToolMessage (CText "Tool no_such_tool not found") "no_such_tool" "call_a";
               ToolMessage (CText "Error: file not found") "extract_text_from_image" "call_b"] ∧
    llm_with_tools failing_tools_graph
      (SystemMessage (CText (system_prompt failing_tools_graph))
         :: ([HumanMessage (CText "Read this image")] ++ [AIMessage (CText EmptyString) two_calls])
            ++ outputs)
    = Returned (AIMessage (CText "Both tools failed.") []) ∧
    tool_calls_of (AIMessage (CText "Both tools failed.") []) = [] ∧
    run_graph failing_tools_graph 2 node_tools
      ([HumanMessage (CText "Read this image")] ++ [AIMessage (CText EmptyString) two_calls])
      empty_world
    = (Returned (([HumanMessage (CText "Read this image")]
                    ++ [AIMessage (CText EmptyString) two_calls])
                 ++ outputs ++ [AIMessage (CText "Both tools failed.") []]), w').
Proof.
  destruct (@failing_tool_call_does_not_abort_the_turn reference.platform World
              failing_tools_graph [HumanMessage (CText "Read this image")]
              (CText EmptyString) two_calls empty_world)
    as (outputs & w' & Hnode & _ & _ & _ & Hend).
  assert (outputs = [ToolMessage (CText "Tool no_such_tool not found") "no_such_tool" "call_a";
                     ToolMessage (CText "Error: file not found") "extract_text_from_image"
                                 "call_b"]) as Houtputs
    by (vm_compute in Hnode; congruence).
  assert (llm_with_tools failing_tools_graph
            (SystemMessage (CText (system_prompt failing_tools_graph))
               :: ([HumanMessage (CText "Read this image")]
                     ++ [AIMessage (CText EmptyString) two_calls]) ++ outputs)
          = Returned (AIMessage (CText "Both tools failed.") [])) as Hllm
    by (rewrite Houtputs; reflexivity).
  assert (tool_calls_of (AIMessage (CText "Both tools failed.") []) = []) as Hfinal
    by reflexivity.
  exists outputs, w'.
  split_and!; [exact Hnode|exact Houtputs|exact Hllm|exact Hfinal|exact (Hend _ Hllm Hfinal 0%nat)].
Defined.

End on_samples.

(** * More properties of the pending-query store and the warehouse tools *)

Section more_store_properties.
Context `{Platform}.
Import warehouse_tools store_trace tool_calls py_more front_ends.

(** What a tool that builds a query does to the store. *)
Lemma invoke_stages (c : WarehouseCall) (e : Entropy) (w : World) (sql : string) :
  built_sql c = Some sql →
  (invoke c e w).2 =
    (_register_pending_query (name_of c) sql e w).2.
Proof.
  intros Hb. destruct c; simpl in *.
  - unfold query_transactions. by destruct (query_transactions_sql _ _ _ _ _); simplify_eq.
  - by simplify_eq.
  - unfold query_transaction_summary. by case_bool_decide; simplify_eq.
  - by simplify_eq.
  - by simplify_eq.
  - unfold query_customer_by_name. by destruct (query_customer_by_name_sql _ _); simplify_eq.
Qed.

(** X1. After a warehouse tool has staged a query, [get_pending_query] on the
    new id gives the record made from the tool's name, the stripped SQL and
    the time, and on every other id what it gave before. *)
Theorem staged_query_can_be_peeked
    (c : WarehouseCall) (e : Entropy) (w : World) (sql key : string) :
  built_sql c = Some sql →
  get_pending_query key (invoke c e w).2 =
    if bool_decide (key = fresh_uuid e)
    then Some {| query_id := fresh_uuid e; tool_name := name_of c;
                 sql := strip sql; created_at := now e |}
    else get_pending_query key w.
Proof.
  intros Hb. rewrite (invoke_stages c e w sql Hb).
  unfold get_pending_query, _register_pending_query. simpl.
  case_bool_decide as Hk.
  - subst key. apply lookup_insert_eq.
  - by rewrite lookup_insert_ne.
Qed.

Lemma perform_keeps_filing (c : StoreCall) (w : World) :
  filed_under_own_id w → filed_under_own_id (perform c w).2.
Proof.
  intros Hw key pq. destruct c as [tn sql e | q | sf q]; simpl.
  - destruct (decide (fresh_uuid e = key)) as [<-|Hne].
    + rewrite lookup_insert_eq. by intros [= <-].
    + rewrite lookup_insert_ne by done. apply Hw.
  - intros Hl. apply lookup_delete_Some in Hl as [_ Hl]. by apply Hw.
  - pose proof (execute_pending sf q w) as Hd.
    destruct (execute_pending_query sf q w) as [out w']. simpl in *.
    rewrite Hd. intros Hl. apply lookup_delete_Some in Hl as [_ Hl]. by apply Hw.
Qed.

(** X2. Every record of the store is filed under its own query id, and
    staging, cancelling and executing, in any order, keep it so. *)
Theorem records_stay_filed_under_their_id (cs : list StoreCall) (w : World) :
  filed_under_own_id w → filed_under_own_id (perform_all cs w).2.
Proof.
  revert w. induction cs as [|c cs IH]; intros w Hw; simpl; [done|].
  pose proof (perform_keeps_filing c w Hw) as H1.
  destruct (perform c w) as [r w1]. simpl in H1.
  specialize (IH w1 H1). by destruct (perform_all cs w1).
Qed.

(** X3. Approving or cancelling one query id leaves the record of every
    other id in the store as it was. *)
Theorem consuming_a_query_leaves_the_others
    (c : StoreCall) (q key : string) (w : World) :
  consumes q c = true →
  key ≠ q →
  get_pending_query key (perform c w).2 = get_pending_query key w.
Proof.
  intros Hc Hne. unfold get_pending_query.
  destruct c as [tn sql e | q' | sf q']; simpl in *; [done|..];
    apply bool_decide_eq_true in Hc; subst q'.
  - by rewrite lookup_delete_ne.
  - pose proof (execute_pending sf q w) as Hd.
    destruct (execute_pending_query sf q w) as [out w']. simpl in *.
    rewrite Hd. by rewrite lookup_delete_ne.
Qed.

(** X4. An approval that cannot connect to the warehouse still uses the
    pending query up: the answer is the error text around the message of the
    connection failure, no statement reaches the warehouse, the record is
    gone, and approving again, whatever the warehouse does then, finds no
    pending query. *)
Theorem failed_connection_still_consumes_the_query
    (q : string) (pq : PendingQuery) (sf : Snowflake) (msg : string) (w : World) :
  _PENDING_QUERIES w !! q = Some pq →
  sf_connect sf = Raised msg →
  let after := execute_pending_query sf q w in
  after.1 = "Error executing query: Snowflake connection failed: " +:+ msg ∧
  warehouse_log after.2 = warehouse_log w ∧
  get_pending_query q after.2 = None ∧
  ∀ sf' : Snowflake, execute_pending_query sf' q after.2 = (NO_PENDING_QUERY, after.2).
Proof.
  intros Hq Hdown after.
  assert (after = ("Error executing query: Snowflake connection failed: " +:+ msg,
                   with_pending (delete q (_PENDING_QUERIES w)) w)) as ->.
  { subst after. unfold execute_pending_query, dict_pop, run_on_snowflake.
    by rewrite Hq, Hdown. }
  simpl. split_and!; [done|done|apply lookup_delete_eq|].
  intros sf'. apply execute_absent. apply lookup_delete_eq.
Qed.

(** X5. What is approved is what was shown. When a warehouse tool has staged
    a query and the warehouse can be reached, approving the new id hands the
    warehouse exactly one statement, the stripped SQL of the payload, removes
    the record, and answers with the rows as JSON, with the no-rows text for
    an empty result, or with the error text when the statement or the
    conversion raises. *)
Theorem approval_runs_the_staged_sql
    (c : WarehouseCall) (e : Entropy) (sf : Snowflake) (w : World) (sql : string) :
  built_sql c = Some sql →
  sf_connect sf = Returned () →
  let staged := (invoke c e w).2 in
  let after := execute_pending_query sf (fresh_uuid e) staged in
  warehouse_log after.2 = warehouse_log w ++ [(fresh_uuid e, strip sql)] ∧
  get_pending_query (fresh_uuid e) after.2 = None ∧
  after.1 =
    match sf_run sf (strip sql) with
    | Raised msg => "Error executing query: Snowflake connection failed: " +:+ msg
    | Returned (columns, []) => "Query executed successfully but returned no rows."
    | Returned (columns, results) =>
        match records_to_json columns results with
        | Raised msg => "Error executing query: Snowflake connection failed: " +:+ msg
        | Returned rows => rows
        end
    end.
Proof.
  intros Hb Hup staged after. subst after staged.
  rewrite (invoke_stages c e w sql Hb).
  unfold execute_pending_query, dict_pop, _register_pending_query. simpl.
  rewrite lookup_insert_eq. unfold run_on_snowflake. rewrite Hup. simpl.
  destruct (sf_run sf (strip sql)) as [msg|[columns [|row rows]]]; simpl.
  - split_and!; [done|apply lookup_delete_eq|done].
  - split_and!; [done|apply lookup_delete_eq|done].
  - destruct (records_to_json columns (row :: rows)); simpl;
      (split_and!; [done|apply lookup_delete_eq|done]).
Qed.

End more_store_properties.

Section string_properties.
Import py_more.

Lemma str_app_cons (c : ascii) (s1 s2 : string) :
  String c s1 +:+ s2 = String c (s1 +:+ s2).
Proof. reflexivity. Qed.

Lemma str_app_nil_l (s : string) : EmptyString +:+ s = s.
Proof. reflexivity. Qed.

Lemma str_app_assoc (s1 s2 s3 : string) : (s1 +:+ s2) +:+ s3 = s1 +:+ (s2 +:+ s3).
Proof.
  induction s1 as [|c s1 IH]; [done|]. by rewrite !str_app_cons, IH.
Qed.

Lemma str_app_nil_r (s : string) : s +:+ EmptyString = s.
Proof. induction s as [|c s IH]; [done|]. by rewrite str_app_cons, IH. Qed.

Lemma rev_app_is_rev (s1 s2 : string) : String.rev_app s1 s2 = String.rev s1 +:+ s2.
Proof.
  revert s2. induction s1 as [|c s1 IH]; intros s2; [done|].
  unfold String.rev. cbn [String.rev_app]. rewrite !IH, str_app_assoc. done.
Qed.

Lemma rev_cons (c : ascii) (s : string) :
  String.rev (String c s) = String.rev s +:+ String c EmptyString.
Proof. unfold String.rev at 1. cbn [String.rev_app]. apply rev_app_is_rev. Qed.

Lemma rev_app_distr (s1 s2 : string) :
  String.rev (s1 +:+ s2) = String.rev s2 +:+ String.rev s1.
Proof.
  induction s1 as [|c s1 IH].
  - by rewrite str_app_nil_l, str_app_nil_r.
  - by rewrite str_app_cons, !rev_cons, IH, str_app_assoc.
Qed.

Lemma rev_involutive (s : string) : String.rev (String.rev s) = s.
Proof.
  induction s as [|c s IH]; [done|].
  by rewrite rev_cons, rev_app_distr, IH.
Qed.

Lemma only_whitespace_app (s1 s2 : string) :
  only_whitespace (s1 +:+ s2) = only_whitespace s1 && only_whitespace s2.
Proof.
  induction s1 as [|c s1 IH]; [done|].
  rewrite str_app_cons. cbn [only_whitespace]. by rewrite IH, andb_assoc.
Qed.

Lemma only_whitespace_rev (s : string) : only_whitespace (String.rev s) = only_whitespace s.
Proof.
  induction s as [|c s IH]; [done|].
  rewrite rev_cons, only_whitespace_app, IH. cbn [only_whitespace].
  by rewrite andb_true_r, andb_comm.
Qed.

(** [lstrip] takes a run of whitespace off the front and stops at the first
    other character. *)
Lemma lstrip_splits (s : string) :
  ∃ left : string,
    s = left +:+ lstrip s ∧ only_whitespace left = true ∧ starts_blank (lstrip s) = false.
Proof.
  induction s as [|c s (left & Heq & Hleft & Hstart)]; simpl.
  - by exists EmptyString.
  - destruct (isspace c) eqn:Hc.
    + exists (String c left). rewrite str_app_cons, <- Heq. simpl. by rewrite Hc, Hleft.
    + exists EmptyString. simpl. by rewrite Hc.
Qed.

Lemma rstrip_splits (s : string) :
  ∃ right : string,
    s = rstrip s +:+ right ∧ only_whitespace right = true ∧ ends_blank (rstrip s) = false.
Proof.
  destruct (lstrip_splits (String.rev s)) as (left & Heq & Hleft & Hstart).
  exists (String.rev left). unfold rstrip, ends_blank. split_and!.
  - by rewrite <- rev_app_distr, <- Heq, rev_involutive.
  - by rewrite only_whitespace_rev.
  - by rewrite rev_involutive.
Qed.

Lemma starts_blank_app (s1 s2 : string) :
  starts_blank (s1 +:+ s2) = false → starts_blank s1 = false.
Proof. by destruct s1. Qed.

(** What [strip] does: it takes whitespace, and nothing else, off both ends,
    and leaves no whitespace at either end. *)
Lemma strip_splits (s : string) :
  ∃ left right : string,
    s = left +:+ strip s +:+ right ∧
    only_whitespace left = true ∧ only_whitespace right = true ∧
    starts_blank (strip s) = false ∧ ends_blank (strip s) = false.
Proof.
  destruct (lstrip_splits s) as (left & Hl & Hleft & Hstart).
  destruct (rstrip_splits (lstrip s)) as (right & Hr & Hright & Hend).
  exists left, right. unfold strip. split_and!; [|done|done| |done].
  - by rewrite <- Hr.
  - rewrite Hr in Hstart. by apply starts_blank_app in Hstart.
Qed.

Lemma lstrip_whitespace (s : string) : only_whitespace s = true → lstrip s = EmptyString.
Proof.
  induction s as [|c s IH]; simpl; [done|].
  intros [Hc Hs]%andb_true_iff. rewrite Hc. by apply IH.
Qed.

Lemma split_whitespace (s : string) : only_whitespace s = true → split (strip s) = [].
Proof. intros Hs. unfold strip. by rewrite (lstrip_whitespace s Hs). Qed.

(** [split] does not see whitespace at either end. *)
Lemma split_from_blank_end (word right : string) :
  only_whitespace right = true → split_from word right = split_from word EmptyString.
Proof.
  revert word. induction right as [|c right IH]; intros word; [done|].
  cbn [only_whitespace split_from]. intros [Hc Hright]%andb_true_iff. rewrite Hc.
  rewrite (IH EmptyString Hright). simpl. by case_bool_decide.
Qed.

Lemma split_from_app_blank (word s right : string) :
  only_whitespace right = true → split_from word (s +:+ right) = split_from word s.
Proof.
  intros Hright. revert word. induction s as [|c s IH]; intros word.
  - rewrite str_app_nil_l. by apply split_from_blank_end.
  - rewrite str_app_cons. cbn [split_from]. by rewrite !IH.
Qed.

Lemma split_blank_app (left s : string) :
  only_whitespace left = true → split (left +:+ s) = split s.
Proof.
  unfold split. induction left as [|c left IH]; [done|].
  cbn [only_whitespace]. intros [Hc Hleft]%andb_true_iff.
  rewrite str_app_cons. cbn [split_from]. rewrite Hc. simpl. by apply IH.
Qed.

(** [s.strip().split()] is [s.split()]. *)
Lemma split_strip (s : string) : split (strip s) = split s.
Proof.
  destruct (strip_splits s) as (left & right & Heq & Hleft & Hright & _).
  rewrite Heq at 2. rewrite (split_blank_app left _ Hleft).
  unfold split. by rewrite (split_from_app_blank _ _ right Hright).
Qed.

Lemma upper_empty (s s' : string) :
  upper s = upper s' → (s = EmptyString ↔ s' = EmptyString).
Proof. by destruct s, s'. Qed.

End string_properties.

Section more_tool_properties.
Context `{Platform}.
Import warehouse_tools store_trace tool_calls py_more front_ends.

(** X6. The SQL kept in a staged record is the SQL the tool built with the
    whitespace taken off both ends and nothing else changed: the built text is
    whitespace, then the staged text, then whitespace, and the staged text
    neither begins nor ends with a whitespace character. *)
Theorem staged_sql_is_the_built_sql_trimmed
    (tool_name built : string) (e : Entropy) (w : World) :
  let staged := sql (_register_pending_query tool_name built e w).1 in
  ∃ left right : string,
    built = left +:+ staged +:+ right ∧
    only_whitespace left = true ∧ only_whitespace right = true ∧
    starts_blank staged = false ∧ ends_blank staged = false.
Proof. simpl. apply strip_splits. Qed.

(** X7. A customer name of whitespace only is an error, not a query:
    [query_customer_by_name] answers with its error text around "list index
    out of range", and so does [query_transactions] when the name is not the
    empty string (which it takes as no filter); neither stages anything. *)
Theorem blank_customer_name_is_an_error
    (customer_name : string) (customer_id asset_symbol transaction_type : option string)
    (limit : Z) (e : Entropy) (w : World) :
  only_whitespace customer_name = true →
  query_customer_by_name customer_name limit e w =
    ("Error preparing customer search query: list index out of range", w) ∧
  (customer_name ≠ EmptyString →
   query_transactions customer_id (Some customer_name) asset_symbol transaction_type limit e w =
     ("Error preparing transactions query: list index out of range", w)).
Proof.
  intros Hblank. split.
  - unfold query_customer_by_name, query_customer_by_name_sql.
    by rewrite (split_whitespace customer_name Hblank).
  - intros Hne. unfold query_transactions, query_transactions_sql. simpl.
    rewrite (split_whitespace customer_name Hblank).
    rewrite bool_decide_eq_false_2 by done. simpl.
    by destruct (given customer_id).
Qed.

(** X20. The customer search goes by the words of the name: two names that
    [split] into the same words, such as a name and the same name with
    whitespace around it or with longer runs of whitespace between its words,
    get the same answer and leave the same store, from
    [query_customer_by_name] always and from [query_transactions] when
    neither name is the empty string. *)
Theorem customer_name_is_matched_by_its_words
    (name name' : string) (customer_id asset_symbol transaction_type : option string)
    (limit : Z) (e : Entropy) (w : World) :
  split name = split name' →
  query_customer_by_name name limit e w = query_customer_by_name name' limit e w ∧
  (name ≠ EmptyString → name' ≠ EmptyString →
   query_transactions customer_id (Some name) asset_symbol transaction_type limit e w =
   query_transactions customer_id (Some name') asset_symbol transaction_type limit e w).
Proof.
  intros Hwords. split.
  - unfold query_customer_by_name, query_customer_by_name_sql.
    by rewrite !split_strip, Hwords.
  - intros Hne Hne'. unfold query_transactions, query_transactions_sql.
    assert (given (Some name) = true) as ->
      by (unfold given; by rewrite bool_decide_eq_false_2).
    assert (given (Some name') = true) as ->
      by (unfold given; by rewrite bool_decide_eq_false_2).
    change (text (Some name)) with name. change (text (Some name')) with name'.
    by rewrite !split_strip, Hwords.
Qed.

(** X21. The transaction type is compared in upper case: two types with the
    same upper-case form, such as "buy" and "BUY", get the same answer from
    [query_transactions] and leave the same store. *)
Theorem transaction_type_is_matched_in_upper_case
    (type type' : string) (customer_id customer_name asset_symbol : option string)
    (limit : Z) (e : Entropy) (w : World) :
  upper type = upper type' →
  query_transactions customer_id customer_name asset_symbol (Some type) limit e w =
  query_transactions customer_id customer_name asset_symbol (Some type') limit e w.
Proof.
  intros Hupper.
  assert (given (Some type) = given (Some type')) as Hgiven.
  { unfold given. destruct (upper_empty type type' Hupper) as [Hto Hfrom].
    repeat case_bool_decide; naive_solver. }
  unfold query_transactions, query_transactions_sql.
  rewrite Hgiven. change (text (Some type)) with type.
  change (text (Some type')) with type'. by rewrite Hupper.
Qed.

End more_tool_properties.

(** * More properties of the agent graph *)

Section more_graph_properties.
Context `{Platform} {W : Type}.
Import warehouse_tools chatbot turn_spec tool_calls.

(** A run that succeeds appends to the messages it started from, and ends
    with a message without tool calls. *)
Lemma run_graph_appends (g : Graph W) (steps : nat) :
  ∀ (node : Node) (messages : list Message) (w : W) (out : list Message) (w' : W),
    run_graph g steps node messages w = (Returned out, w') →
    ∃ (added : list Message) (final : Message),
      out = messages ++ added ++ [final] ∧ tool_calls_of final = [].
Proof.
  induction steps as [|steps IH]; intros node messages w out w' Hrun; simpl in Hrun;
    [done|].
  destruct node.
  - unfold chatbot_node in Hrun.
    destruct (llm_with_tools g _) as [msg|response]; simpl in Hrun; [done|].
    unfold route_query in Hrun. rewrite last_snoc in Hrun.
    destruct (tool_calls_of response) as [|first rest] eqn:Hcalls.
    + simplify_eq. by exists [], response.
    + apply IH in Hrun as (added & final & -> & Hfinal).
      exists (response :: added), final. by rewrite <- app_assoc.
  - destruct (tools_node g messages w) as [results w1].
    apply IH in Hrun as (added & final & -> & Hfinal).
    exists (results ++ added), final. by rewrite <- !app_assoc.
Qed.

(** A run does to the world only what the registered tools do to it. *)
Lemma run_graph_keeps {A : Type} (observe : W → A) (g : Graph W) :
  (∀ name tool tool_args w,
     tools_by_name g !! name = Some tool → observe (tool tool_args w).2 = observe w) →
  ∀ steps node messages w, observe (run_graph g steps node messages w).2 = observe w.
Proof.
  intros Hkeep steps. induction steps as [|steps IH]; intros node messages w; simpl; [done|].
  destruct node.
  - destruct (chatbot_node g messages) as [msg|added]; [done|].
    destruct (route_query (messages ++ added)); [apply IH|done].
  - pose proof (tools_node_keeps observe g Hkeep messages w) as Htools.
    destruct (tools_node g messages w) as [results w1]. simpl in Htools.
    by rewrite IH.
Qed.

(** X8. A turn whose first model response requests no tool ends after that
    one reasoning step: [graph.invoke] returns the history, the question and
    the response, no tool is called and the world is as before; a recursion
    limit of one node execution is enough for it. *)
Theorem turn_without_tool_calls_is_one_reasoning_step
    (g : Graph W) (history : list Message) (question : string) (w : W)
    (response : Message) :
  llm_with_tools g
    (SystemMessage (CText (system_prompt g)) :: history ++ [HumanMessage (CText question)])
  = Returned response →
  tool_calls_of response = [] →
  recursion_limit g ≠ 0%nat →
  graph_invoke g history question w
  = (Returned (history ++ [HumanMessage (CText question)] ++ [response]), w) ∧
  run_graph g 1 node_chatbot (history ++ [HumanMessage (CText question)]) w
  = (Returned (history ++ [HumanMessage (CText question)] ++ [response]), w).
Proof.
  intros Hllm Hcalls Hlimit.
  assert (∀ steps, run_graph g (S steps) node_chatbot
            (history ++ [HumanMessage (CText question)]) w
          = (Returned (history ++ [HumanMessage (CText question)] ++ [response]), w)) as Hrun.
  { intros steps. simpl. unfold chatbot_node. rewrite Hllm. simpl.
    unfold route_query. rewrite last_snoc, Hcalls. by rewrite <- app_assoc. }
  split; [|apply Hrun].
  unfold graph_invoke. destruct (recursion_limit g) as [|limit]; [done|apply Hrun].
Qed.

(** X9. Whenever [graph.invoke] returns, the messages it returns are the
    history of the thread and the question, unchanged and in place, followed
    by what the turn appended; and the last message carries no tool call. *)
Theorem successful_turn_extends_the_history
    (g : Graph W) (history : list Message) (question : string) (w w' : W)
    (out : list Message) :
  graph_invoke g history question w = (Returned out, w') →
  ∃ (added : list Message) (final : Message),
    out = history ++ [HumanMessage (CText question)] ++ added ++ [final] ∧
    tool_calls_of final = [] ∧
    last out = Some final.
Proof.
  intros Hrun. unfold graph_invoke in Hrun.
  apply run_graph_appends in Hrun as (added & final & -> & Hfinal).
  exists added, final. split_and!; [by rewrite <- !app_assoc|done|].
  by rewrite !app_assoc, last_snoc.
Qed.

End more_graph_properties.

Section more_gating_properties.
Context `{Platform}.
Import warehouse_tools chatbot turn_spec tool_calls.

(** X10. A whole turn of the agent on a registry of warehouse tools, with
    however many rounds of tool calls and whatever the model asks for, hands
    no statement to the warehouse: only an approval does. *)
Theorem agent_turn_never_reaches_the_warehouse
    (g : Graph World) (state_values : Exc (gmap string (list Message)))
    (history : list Message) (question : string) (w : World) :
  (∀ name tool, tools_by_name g !! name = Some tool →
     ∃ validate draw, tool = as_tool validate draw) →
  warehouse_log (chat_on_graph g state_values history question w).2 = warehouse_log w.
Proof.
  intros Hreg. unfold chat_on_graph, graph_invoke.
  assert (∀ name tool tool_args w0, tools_by_name g !! name = Some tool →
            warehouse_log (tool tool_args w0).2 = warehouse_log w0) as Htools.
  { intros name tool tool_args w0 Htool.
    destruct (Hreg name tool Htool) as (validate & draw & ->). apply as_tool_log. }
  pose proof (run_graph_keeps warehouse_log g Htools (recursion_limit g) node_chatbot
                (history ++ [HumanMessage (CText question)]) w) as Hkeep.
  by destruct (run_graph g (recursion_limit g) node_chatbot _ w).
Qed.

End more_gating_properties.

(** * More properties of the turn post-processing *)

Section more_chat_properties.
Context `{Platform}.
Import warehouse_tools chatbot turn_spec turn_more.

(** When [graph.invoke] returned messages, the four lists of the result are
    those tallied over the messages selected for this turn. *)
Lemma chat_returned_attributed
    (state_values : Exc (gmap string (list Message)))
    (earlier : list Message) (final_message : Message) :
  attributed (chat state_values (Returned (earlier ++ [final_message])))
  = tallied (tally_messages
               (select_this_turn (count_messages_before state_values)
                                 (earlier ++ [final_message]))).
Proof.
  unfold chat, chat_body. simpl. rewrite last_snoc. simpl.
  unfold attributed, tallied.
  by destruct (t_pending (tally_messages _)) eqn:Hp; cbn; rewrite ?Hp.
Qed.

Lemma note_warehouse_tool_member (tools : list string) (tool_name : string)
    (used : list string) :
  note_warehouse_tool tools tool_name used =
    if bool_decide (tool_name ∈ tools) then used ++ [tool_name] else used.
Proof.
  induction tools as [|tool rest IH]; cbn [note_warehouse_tool].
  - by rewrite bool_decide_eq_false_2 by apply not_elem_of_nil.
  - destruct (decide (tool = tool_name)) as [->|Hne].
    + rewrite (bool_decide_eq_true_2 (tool_name = tool_name)) by done.
      by rewrite bool_decide_eq_true_2 by left.
    + rewrite (bool_decide_eq_false_2 (tool = tool_name)) by done. rewrite IH.
      destruct (decide (tool_name ∈ rest)) as [Hin|Hout].
      * rewrite (bool_decide_eq_true_2 (tool_name ∈ rest)) by done.
        by rewrite bool_decide_eq_true_2 by (by right).
      * rewrite (bool_decide_eq_false_2 (tool_name ∈ rest)) by done.
        rewrite bool_decide_eq_false_2; [done|].
        intros [Heq|Hin]%elem_of_cons; by subst.
Qed.

#[local] Arguments note_warehouse_tool : simpl never.

Lemma note_tool_calls_lists (t : Tally) (tool_calls : list ToolCall) :
  t_warehouse (foldl note_tool_call t tool_calls)
  = t_warehouse t ++ filter (.∈ WAREHOUSE_TOOLS) (tc_name <$> tool_calls) ∧
  (Forall (λ n, n = "document_search") (t_rag t) →
   Forall (λ n, n = "document_search") (t_rag (foldl note_tool_call t tool_calls))).
Proof.
  revert t. induction tool_calls as [|tool_call rest IH]; intros t; simpl.
  - by rewrite app_nil_r.
  - destruct (IH (note_tool_call t tool_call)) as [Hw Hr]. split.
    + rewrite Hw. simpl. rewrite note_warehouse_tool_member, filter_cons.
      case_bool_decide; case_decide; try done; by rewrite <- ?app_assoc.
    + intros Ht. apply Hr. simpl. case_bool_decide; [|done].
      apply Forall_app. split; [done|]. by constructor.
Qed.

Lemma note_message_lists (t : Tally) (msg : Message) :
  t_warehouse (note_message t msg)
  = t_warehouse t ++ filter (.∈ WAREHOUSE_TOOLS) (tc_name <$> tool_calls_of msg) ∧
  (Forall (λ n, n = "document_search") (t_rag t) →
   Forall (λ n, n = "document_search") (t_rag (note_message t msg))).
Proof.
  destruct (note_tool_calls_lists t (tool_calls_of msg)) as [Hw Hr].
  unfold note_message.
  destruct msg as [c|c|c tcs|c name id]; try done.
  simpl in *. rewrite app_nil_r. unfold note_tool_message. split.
  - destruct c as [payload|blocks]; [|by case_bool_decide].
    destruct (_try_parse_pending_query_payload payload); by case_bool_decide.
  - intros Ht.
    assert (Forall (λ n, n = "document_search")
              (if bool_decide ("document_search" ∈ t_rag t)
               then t_rag t else t_rag t ++ ["document_search"])) as Hrag.
    { case_bool_decide; [done|]. apply Forall_app. split; [done|]. by constructor. }
    destruct c as [payload|blocks];
      [destruct (_try_parse_pending_query_payload payload)|];
      destruct (bool_decide (name = "document_search")); simpl;
      first [exact Hrag|exact Ht].
Qed.

Lemma foldl_note_message_lists (t : Tally) (messages : list Message) :
  t_warehouse (foldl note_message t messages)
  = t_warehouse t ++ filter (.∈ WAREHOUSE_TOOLS) (requested_tools messages) ∧
  (Forall (λ n, n = "document_search") (t_rag t) →
   Forall (λ n, n = "document_search") (t_rag (foldl note_message t messages))).
Proof.
  revert t. induction messages as [|msg rest IH]; intros t; simpl.
  - unfold requested_tools. simpl. by rewrite app_nil_r.
  - destruct (IH (note_message t msg)) as [Hw Hr].
    destruct (note_message_lists t msg) as [Hw1 Hr1]. split.
    + rewrite Hw, Hw1. unfold requested_tools. simpl.
      by rewrite fmap_app, filter_app, <- app_assoc.
    + intros Ht. by apply Hr, Hr1.
Qed.

Lemma chat_tool_lists
    (state_values : Exc (gmap string (list Message)))
    (earlier : list Message) (final_message : Message) :
  let result := chat state_values (Returned (earlier ++ [final_message])) in
  let this_turn := select_this_turn (count_messages_before state_values)
                                    (earlier ++ [final_message]) in
  warehouse_tools_used result = filter (.∈ WAREHOUSE_TOOLS) (requested_tools this_turn) ∧
  Forall (λ n, n = "document_search") (rag_tools_used result).
Proof.
  intros result this_turn.
  pose proof (chat_returned_attributed state_values earlier final_message) as Hfields.
  unfold attributed, tallied in Hfields. fold result this_turn in Hfields.
  injection Hfields as _ Hw Hr _.
  destruct (foldl_note_message_lists empty_tally this_turn) as [Hlist Hrag].
  unfold tally_messages in *. rewrite Hw, Hr. split; [exact Hlist|].
  apply Hrag. constructor.
Qed.

(** X11. When [get_state] answered with the history of the thread,
    [warehouse_tools_used] holds exactly the tool names requested in the
    messages appended in this turn that are warehouse tools, one entry per
    request and in request order, and [rag_tools_used] holds nothing but
    "document_search". When [get_state] raises, [warehouse_tools_used] holds
    the warehouse tools requested in any message of the thread. *)
Theorem tool_lists_hold_the_requested_tools
    (values : gmap string (list Message)) (history this_turn : list Message)
    (final_message : Message) :
  default [] (values !! "messages") = history →
  let appended := this_turn ++ [final_message] in
  let result := chat (Returned values) (Returned (history ++ appended)) in
  warehouse_tools_used result = filter (.∈ WAREHOUSE_TOOLS) (requested_tools appended) ∧
  Forall (λ n, n = "document_search") (rag_tools_used result) ∧
  ∀ msg : string,
    warehouse_tools_used (chat (Raised msg) (Returned (history ++ appended)))
    = filter (.∈ WAREHOUSE_TOOLS) (requested_tools (history ++ appended)).
Proof.
  intros Hhistory appended result. split_and!.
  - pose proof (chat_tool_lists (Returned values) (history ++ this_turn) final_message)
      as [Hw _].
    cbv zeta in Hw. rewrite <- app_assoc in Hw. fold appended in Hw.
    by rewrite (select_read_history values history appended Hhistory) in Hw.
  - pose proof (chat_tool_lists (Returned values) (history ++ this_turn) final_message)
      as [_ Hr].
    by rewrite <- app_assoc in Hr.
  - intros msg.
    pose proof (chat_tool_lists (Raised msg) (history ++ this_turn) final_message) as [Hw _].
    by rewrite <- app_assoc in Hw.
Qed.

Lemma foldl_note_message_sources (t : Tally) (messages : list Message) :
  (length (t_sources (foldl note_message t messages))
   ≤ length (t_sources t) + 3 * document_results messages)%nat.
Proof.
  revert t. induction messages as [|msg rest IH]; intros t; simpl; [lia|].
  specialize (IH (note_message t msg)).
  assert (length (t_sources (note_message t msg))
          ≤ length (t_sources t) + 3 * (if is_document_result msg then 1 else 0))%nat;
    [|lia].
  unfold note_message.
  destruct (note_tool_calls_keep t (tool_calls_of msg)) as [Hs _].
  destruct msg as [c|c|c tcs|c name id]; simpl in *; rewrite ?Hs; try lia.
  unfold note_tool_message.
  destruct (document_sources_added c (t_sources t)) as (added & Heq & Hlen & _).
  assert (length (document_sources c (t_sources t)) ≤ length (t_sources t) + 3)%nat.
  { rewrite Heq, length_app. lia. }
  destruct (bool_decide (name = "document_search"));
    (destruct c as [payload|blocks]; simpl; [|lia]);
    destruct (_try_parse_pending_query_payload payload); simpl; lia.
Qed.

Lemma chat_sources_bound
    (state_values : Exc (gmap string (list Message)))
    (earlier : list Message) (final_message : Message) :
  let result := chat state_values (Returned (earlier ++ [final_message])) in
  let selected := select_this_turn (count_messages_before state_values)
                                   (earlier ++ [final_message]) in
  (length (sources result) ≤ 3 * document_results selected)%nat.
Proof.
  intros result selected.
  pose proof (chat_returned_attributed state_values earlier final_message) as Hfields.
  unfold attributed, tallied in Hfields. fold result selected in Hfields.
  injection Hfields as Hs _ _ _. rewrite Hs.
  pose proof (foldl_note_message_sources empty_tally selected) as Hle.
  unfold tally_messages. simpl in Hle. lia.
Qed.

(** X12. When [get_state] answered with the history of the thread, a turn
    reports at most three sources for each tool result of [document_search]
    among the messages appended in this turn, and none when there is no such
    result among them, whatever the history holds. When [get_state] raises,
    the bound is three for each such result in any message of the thread. *)
Theorem sources_are_bounded_by_the_document_results
    (values : gmap string (list Message)) (history this_turn : list Message)
    (final_message : Message) :
  default [] (values !! "messages") = history →
  let appended := this_turn ++ [final_message] in
  let result := chat (Returned values) (Returned (history ++ appended)) in
  (length (sources result) ≤ 3 * document_results appended)%nat ∧
  (document_results appended = 0%nat → sources result = []) ∧
  ∀ msg : string,
    (length (sources (chat (Raised msg) (Returned (history ++ appended))))
     ≤ 3 * document_results (history ++ appended))%nat.
Proof.
  intros Hhistory appended result.
  assert (length (sources result) ≤ 3 * document_results appended)%nat as Hbound.
  { pose proof (chat_sources_bound (Returned values) (history ++ this_turn) final_message)
      as Hle.
    cbv zeta in Hle. rewrite <- app_assoc in Hle. fold appended in Hle.
    by rewrite (select_read_history values history appended Hhistory) in Hle. }
  split_and!; [exact Hbound| |].
  - intros Hnone. rewrite Hnone in Hbound. destruct (sources result); [done|simpl in Hbound; lia].
  - intros msg.
    pose proof (chat_sources_bound (Raised msg) (history ++ this_turn) final_message) as Hle.
    by rewrite <- app_assoc in Hle.
Qed.

(** X13. [chat] always answers with something: whatever [get_state] and
    [graph.invoke] did, the answer of the result is neither the empty string
    nor the empty list. *)
Theorem chat_answer_is_never_empty
    (state_values : Exc (gmap string (list Message))) (invoked : Exc (list Message)) :
  is_empty_content (answer (chat state_values invoked)) = false.
Proof.
  assert (∀ (c : Content) (fallback : string),
            fallback ≠ EmptyString → is_empty_content (answer_or c fallback) = false)
    as Hor.
  { intros [s|[|block blocks]] fallback Hf; simpl.
    - case_bool_decide; simpl; by apply bool_decide_eq_false_2.
    - by apply bool_decide_eq_false_2.
    - done. }
  unfold chat, chat_body.
  destruct invoked as [msg|messages]; simpl; [done|].
  destruct (last messages) as [final|]; simpl; [|done].
  destruct (t_pending (tally_messages _)); cbn; by apply Hor.
Qed.

End more_chat_properties.

(** * Properties of the approval prompt and of the web front end *)

Section front_end_properties.
Context `{Platform}.
Import warehouse_tools chatbot py_more front_ends.

(** Cancelling by a payload's [query_id]: the store loses at most that id,
    the warehouse sees nothing. *)
Lemma cancel_query_of_world (query_id : value) (w : World) :
  warehouse_log (cancel_query_of query_id w).2 = warehouse_log w ∧
  _PENDING_QUERIES (cancel_query_of query_id w).2 =
    match query_id with
    | VStr key => delete key (_PENDING_QUERIES w)
    | _ => _PENDING_QUERIES w
    end.
Proof. by destruct query_id. Qed.

(** Executing by a payload's [query_id]: the store loses at most that id,
    the warehouse sees at most one more statement. *)
Lemma execute_approved_query_of_world (warehouse : string → Snowflake)
    (query_id : value) (w : World) :
  (∃ ran, warehouse_log (execute_approved_query_of warehouse query_id w).2
          = warehouse_log w ++ ran ∧ (length ran ≤ 1)%nat) ∧
  _PENDING_QUERIES (execute_approved_query_of warehouse query_id w).2 =
    match query_id with
    | VStr key => delete key (_PENDING_QUERIES w)
    | _ => _PENDING_QUERIES w
    end.
Proof.
  assert (∃ ran, warehouse_log w = warehouse_log w ++ ran ∧ (length ran ≤ 1)%nat) as Hsame.
  { exists []. rewrite app_nil_r. simpl. split; [done|lia]. }
  destruct query_id as [|b|z|q|key|l|items]; try done.
  unfold execute_approved_query_of, execute_approved_query. simpl.
  pose proof (execute_pending (warehouse key) key w) as Hd.
  unfold execute_pending_query, dict_pop in *.
  destruct (_PENDING_QUERIES w !! key) as [pq|]; simpl in *.
  - pose proof (run_on_snowflake_world (warehouse key) key pq
                  (with_pending (delete key (_PENDING_QUERIES w)) w)) as [_ Hw].
    destruct (run_on_snowflake (warehouse key) key pq _) as [[msg|out] w']; simpl in *;
      (split; [|done]); destruct Hw as [-> | ->]; simpl;
      first [exact Hsame | by exists [(key, sql pq)]].
  - by split.
Qed.

(** An exception leaves the loop with the records and statements so far. *)
Lemma loop_leaves_raised (w w' : World) (budget : nat) (pending_queries : list value)
    (msg : string) (typed : list string) (ran : list (string * string)) :
  _PENDING_QUERIES w' ⊆ _PENDING_QUERIES w →
  warehouse_log w' = warehouse_log w ++ ran →
  (length ran ≤ budget)%nat →
  loop_leaves w budget pending_queries (Raised msg, typed, w').
Proof. intros Hsub Hlog Hlen. split_and!; [done|by exists ran|done]. Qed.

(** One more iteration in front of the rest of the loop. *)
Lemma loop_leaves_step (w w' : World) (budget budget' : nat) (pq : value)
    (rest : list value) (ran : list (string * string))
    (after : Exc (list value) * list string * World) :
  _PENDING_QUERIES w' ⊆ _PENDING_QUERIES w →
  warehouse_log w' = warehouse_log w ++ ran →
  (length ran + budget' ≤ budget)%nat →
  (∀ q, asked_id pq = Some q → _PENDING_QUERIES w' !! q = None) →
  loop_leaves w' budget' rest after →
  loop_leaves w budget (pq :: rest) after.
Proof.
  intros Hsub Hlog Hlen Hpq (Hsub' & (ran' & Hlog' & Hlen') & Hgone). split_and!.
  - by etrans.
  - exists (ran ++ ran'). rewrite Hlog', Hlog, length_app, <- app_assoc. split; [done|lia].
  - intros payloads Hret pq0 q [->|Hin]%elem_of_cons Hasked.
    + eapply lookup_weaken_None; [by apply Hpq|done].
    + by eapply Hgone.
Qed.

(** What [asked_id] says of an entry. *)
Lemma asked_id_Some (items : list (string * value)) (q : string) :
  asked_id (VDict items) = Some q →
  ∃ sql, dict_get "query_id" items = Some (VStr q) ∧ dict_get "sql" items = Some sql ∧
         truthy (VStr q) = true ∧ truthy sql = true.
Proof.
  unfold asked_id.
  destruct (dict_get "query_id" items) as [[|b|z|fq|key|l|its]|]; try done.
  destruct (dict_get "sql" items) as [sql|]; [|done].
  destruct (truthy (VStr key)) eqn:Hk; [|done].
  destruct (truthy sql) eqn:Hs; [|done].
  intros [= <-]. by exists sql.
Qed.

(** The loop over the pending queries only ever takes records out of the
    store, hands the warehouse at most one statement per approving line, and,
    when it runs to its end, leaves none of the queries it asked about. *)
Lemma approval_loop_leaves (warehouse : string → Snowflake) (pending_queries : list value) :
  ∀ (typed : list string) (executed_payloads : list value) (w : World),
    loop_leaves w (approvals typed) pending_queries
      (approval_loop warehouse pending_queries typed executed_payloads w).
Proof.
  induction pending_queries as [|pq rest IH]; intros typed executed_payloads w.
  { split_and!; [done| |].
    - exists []. rewrite app_nil_r. split; [done|simpl; lia].
    - intros _ _ pq q Hin. by apply elem_of_nil in Hin. }
  assert (∀ msg typed', loop_leaves w (approvals typed) (pq :: rest) (Raised msg, typed', w))
    as Hstop.
  { intros msg typed'. apply (loop_leaves_raised w w _ _ msg typed' []);
      [done|by rewrite app_nil_r|simpl; lia]. }
  assert ((∀ q, asked_id pq ≠ Some q) →
          loop_leaves w (approvals typed) (pq :: rest)
            (approval_loop warehouse rest typed executed_payloads w)) as Hskip.
  { intros Hnot. apply (loop_leaves_step w w _ (approvals typed) pq rest []);
      [done|by rewrite app_nil_r|simpl; lia| |apply IH].
    intros q Hq. by destruct (Hnot q). }
  cbn [approval_loop].
  destruct pq as [|b|z|fq|s|l|items]; try apply Hstop.
  destruct (dict_get "query_id" items) as [query_id|] eqn:Hqid; last first.
  { apply Hskip. intros q (sql & Hq & _)%asked_id_Some. congruence. }
  destruct (dict_get "sql" items) as [sql|] eqn:Hsql; last first.
  { apply Hskip. intros q (sql & _ & Hq & _)%asked_id_Some. congruence. }
  destruct (truthy query_id) eqn:Hid; last first.
  { apply Hskip. intros q (sql' & Hq & _ & Ht & _)%asked_id_Some. congruence. }
  destruct (truthy sql) eqn:Hts; last first.
  { apply Hskip. intros q (sql' & _ & Hq & _ & Ht)%asked_id_Some. congruence. }
  cbn [negb orb].
  destruct sql as [|b|z|fq|sql|l|its]; try apply Hstop.
  destruct typed as [|line typed']; [apply Hstop|].
  assert (∀ w', _PENDING_QUERIES w' =
                  match query_id with
                  | VStr key => delete key (_PENDING_QUERIES w)
                  | _ => _PENDING_QUERIES w
                  end →
                _PENDING_QUERIES w' ⊆ _PENDING_QUERIES w ∧
                ∀ q, asked_id (VDict items) = Some q → _PENDING_QUERIES w' !! q = None)
    as Hdeleted.
  { intros w' Hstore. split.
    - rewrite Hstore. destruct query_id; try done. apply delete_subseteq.
    - intros q (sql' & Hq & _)%asked_id_Some. rewrite Hstore.
      assert (query_id = VStr q) as -> by congruence. apply lookup_delete_eq. }
  cbn [approvals]. destruct (approves line) eqn:Hline; cbn [negb].
  - pose proof (execute_approved_query_of_world warehouse query_id w)
      as [(ran & Hlog & Hlen) Hstore].
    destruct (Hdeleted _ Hstore) as [Hsub Hgone].
    destruct (execute_approved_query_of warehouse query_id w) as [[msg|out] w'].
    + apply (loop_leaves_raised w w' _ _ msg typed' ran); [done|done|simpl in *; lia].
    + apply (loop_leaves_step w w' _ (approvals typed') _ rest ran);
        [done|done|simpl in *; lia|done|apply IH].
  - pose proof (cancel_query_of_world query_id w) as [Hlog Hstore].
    destruct (Hdeleted _ Hstore) as [Hsub Hgone].
    destruct (cancel_query_of query_id w) as [[msg|found] w'].
    + apply (loop_leaves_raised w w' _ _ msg typed' []);
        [done|by rewrite app_nil_r|simpl; lia].
    + apply (loop_leaves_step w w' _ (approvals typed') _ rest []);
        [done|by rewrite app_nil_r|simpl; lia|done|apply IH].
Qed.

(** X14. When the approval prompt of the command line has gone through the
    pending queries of a turn without an exception, every query it asked the
    user about (an entry with a non-empty string id and a true SQL) has been
    used up, by its approval or by its cancellation: none is left in the
    store. *)
Theorem approval_prompt_uses_up_every_query_it_asks_about
    (warehouse : string → Snowflake) (pending_queries payloads : list value)
    (typed typed' : list string) (w w' : World) (pq : value) (q : string) :
  approval_loop warehouse pending_queries typed [] w = (Returned payloads, typed', w') →
  pq ∈ pending_queries →
  asked_id pq = Some q →
  get_pending_query q w' = None.
Proof.
  intros Hloop Hin Hasked.
  destruct (approval_loop_leaves warehouse pending_queries typed [] w) as (_ & _ & Hgone).
  rewrite Hloop in Hgone. by apply (Hgone payloads eq_refl pq q).
Qed.

(** X15. The approval prompt stages nothing and executes only on a yes: after
    it, however it ended, the store holds no record it did not hold before,
    and the warehouse has been handed at most as many new statements as there
    were typed lines that read "y" or "yes" once stripped and lowered; with no
    such line it has been handed none. *)
Theorem approval_prompt_executes_only_on_yes
    (warehouse : string → Snowflake) (pending_queries executed_payloads : list value)
    (typed : list string) (w : World) :
  let after := approval_loop warehouse pending_queries typed executed_payloads w in
  _PENDING_QUERIES after.2 ⊆ _PENDING_QUERIES w ∧
  (∃ ran, warehouse_log after.2 = warehouse_log w ++ ran ∧
          (length ran ≤ approvals typed)%nat) ∧
  (approvals typed = 0%nat → warehouse_log after.2 = warehouse_log w).
Proof.
  intros after.
  destruct (approval_loop_leaves warehouse pending_queries typed executed_payloads w)
    as (Hsub & (ran & Hlog & Hlen) & _).
  fold after in Hsub, Hlog. split_and!; [done|by exists ran|].
  intros Hnone. rewrite Hlog. destruct ran; [by rewrite app_nil_r|simpl in Hlen; lia].
Qed.

Lemma cancel_stale_query_world (w : World) (pq : value) :
  warehouse_log (cancel_stale_query w pq) = warehouse_log w ∧
  ∀ key, _PENDING_QUERIES (cancel_stale_query w pq) !! key =
           if bool_decide (listed_id pq = Some key) then None
           else _PENDING_QUERIES w !! key.
Proof.
  assert (∀ key, listed_id pq ≠ Some key →
            _PENDING_QUERIES w !! key =
              if bool_decide (listed_id pq = Some key) then None
              else _PENDING_QUERIES w !! key) as Hsame.
  { intros key Hne. by rewrite bool_decide_eq_false_2. }
  unfold cancel_stale_query.
  destruct pq as [|b|z|fq|s|l|items]; try (split; [done|by intros; apply Hsame]).
  destruct (dict_get "query_id" items) as [query_id|] eqn:Hqid;
    [|split; [done|intros key; apply Hsame; unfold listed_id; by rewrite Hqid]].
  destruct (cancel_query_of_world query_id w) as [Hlog Hstore]. split; [done|].
  intros key. rewrite Hstore. unfold listed_id. rewrite Hqid.
  destruct query_id as [|b|z|fq|id|l|its]; try by rewrite bool_decide_eq_false_2.
  case_bool_decide as Hk.
  - injection Hk as ->. apply lookup_delete_eq.
  - rewrite lookup_delete_ne; [done|]. by intros ->.
Qed.

Lemma foldl_cancel_stale_world (pending_queries : list value) (w : World) :
  warehouse_log (foldl cancel_stale_query w pending_queries) = warehouse_log w ∧
  ∀ key, _PENDING_QUERIES (foldl cancel_stale_query w pending_queries) !! key =
           if bool_decide (key ∈ omap listed_id pending_queries) then None
           else _PENDING_QUERIES w !! key.
Proof.
  revert w. induction pending_queries as [|pq rest IH]; intros w; cbn [foldl omap list_omap].
  - split; [done|]. intros key. by rewrite bool_decide_eq_false_2 by apply not_elem_of_nil.
  - destruct (IH (cancel_stale_query w pq)) as [Hlog Hstore].
    destruct (cancel_stale_query_world w pq) as [Hlog1 Hstore1].
    split; [congruence|]. intros key. rewrite Hstore, Hstore1.
    destruct (listed_id pq) as [id|] eqn:Hid; simpl; [|done].
    destruct (decide (key ∈ omap listed_id rest)) as [Hin|Hout].
    + rewrite (bool_decide_eq_true_2 (key ∈ omap listed_id rest)) by done.
      by rewrite bool_decide_eq_true_2 by (by right).
    + rewrite (bool_decide_eq_false_2 (key ∈ omap listed_id rest)) by done.
      destruct (decide (id = key)) as [->|Hne].
      * rewrite (bool_decide_eq_true_2 (Some key = Some key)) by done.
        by rewrite bool_decide_eq_true_2 by left.
      * rewrite (bool_decide_eq_false_2 (Some id = Some key)) by congruence.
        rewrite bool_decide_eq_false_2; [done|].
        intros [?|?]%elem_of_cons; by subst.
Qed.

(** X16. In the web front end a new question drops what was pending: the
    session list is emptied, every listed query with a string id is gone from
    the store, the records of all other ids are untouched, and no statement
    reaches the warehouse. Entries without a usable id are passed over. *)
Theorem new_question_cancels_the_pending_queries
    (pending_queries : list value) (w : World) (key : string) :
  let after := cancel_stale_queries pending_queries w in
  after.1 = [] ∧
  warehouse_log after.2 = warehouse_log w ∧
  get_pending_query key after.2 =
    if bool_decide (key ∈ omap listed_id pending_queries) then None
    else get_pending_query key w.
Proof.
  destruct (foldl_cancel_stale_world pending_queries w) as [Hlog Hstore].
  simpl. split_and!; [done|done|apply Hstore].
Qed.

End front_end_properties.

(** * Properties of the OCR tool, of document loading and of the tool badges *)

Section ocr_properties.
Import py_more ocr_tools.

Lemma unique_from_fresh (seen items : list string) :
  NoDup (unique_from seen items) ∧
  ∀ x, x ∈ unique_from seen items → x ∈ items ∧ x ∉ seen.
Proof.
  revert seen. induction items as [|item rest IH]; intros seen; simpl.
  - split; [constructor|]. intros x Hx. by apply elem_of_nil in Hx.
  - case_bool_decide as Hseen.
    + destruct (IH seen) as [Hnd Hin]. split; [done|].
      intros x Hx. destruct (Hin x Hx). split; [by right|done].
    + destruct (IH (item :: seen)) as [Hnd Hin]. split.
      * constructor; [|done]. intros Hx. destruct (Hin item Hx) as [_ Hnot].
        apply Hnot. by left.
      * intros x [->|Hx]%elem_of_cons; [split; [by left|done]|].
        destruct (Hin x Hx) as [Hrest Hnot]. split; [by right|].
        intros Hs. apply Hnot. by right.
Qed.

Lemma NoDup_take_of {A : Type} (n : nat) (l : list A) : NoDup l → NoDup (take n l).
Proof.
  intros Hl. rewrite <- (take_drop n l) in Hl. by apply NoDup_app in Hl as [? _].
Qed.

Lemma elem_of_take_of {A : Type} (n : nat) (l : list A) (x : A) : x ∈ take n l → x ∈ l.
Proof.
  intros Hx. rewrite <- (take_drop n l). apply elem_of_app. by left.
Qed.

Lemma elem_of_name_matches (im : Imaging) (text id : string) :
  id ∈ name_matches im text →
  ∃ pattern m, pattern ∈ name_patterns ∧
               m ∈ re_findall im pattern [MULTILINE; IGNORECASE] text ∧
               keeps_name m = true ∧ id = strip m.
Proof.
  unfold name_matches. intros (pattern & Hid & Hp)%list_elem_of_bind.
  apply list_elem_of_fmap in Hid as (m & -> & Hm).
  apply list_elem_of_In, filter_In in Hm as [Hm Hk].
  apply list_elem_of_In in Hm. by exists pattern, m.
Qed.

(** X17. When the image file is there, is read, and Tesseract returns a text,
    [extract_text_from_image] answers with the indented JSON of the success
    record, and the customer identifiers in it are pairwise distinct, at most
    ten, and each one is a match of an id pattern or the stripped match of a
    name pattern that is not empty and contains no false-positive word in
    any letter case. *)
Theorem ocr_identifiers_are_distinct_and_at_most_ten
    (im : Imaging) (image_path text : string) :
  path_exists im image_path = Returned true →
  path_suffix im image_path ∈ valid_extensions →
  cv2_read im (path_text im image_path) = Returned true →
  image_to_string im (path_text im image_path) = Returned text →
  ∃ ids : list string,
    extract_text_from_image im image_path =
      dumps_indent im
        (VDict [("extracted_text", VStr (strip text));
                ("customer_identifiers", VList (VStr <$> ids));
                ("image_path", VStr (path_text im image_path));
                ("ocr_engine", VStr "pytesseract");
                ("status", VStr "success")]) ∧
    NoDup ids ∧
    (length ids ≤ 10)%nat ∧
    Forall (λ id, id ∈ id_matches im text ∨
                  ∃ pattern m, pattern ∈ name_patterns ∧
                               m ∈ re_findall im pattern [MULTILINE; IGNORECASE] text ∧
                               keeps_name m = true ∧ id = strip m) ids.
Proof.
  intros Hexists Hsuffix Hread Hocr.
  exists (take 10 (unique_from [] (id_matches im text ++ name_matches im text))).
  destruct (unique_from_fresh [] (id_matches im text ++ name_matches im text)) as [Hnd Hin].
  split_and!.
  - unfold extract_text_from_image, preprocess_image.
    rewrite Hexists, (bool_decide_eq_true_2 _ Hsuffix), Hread. simpl. by rewrite Hocr.
  - by apply NoDup_take_of.
  - rewrite length_take. lia.
  - apply Forall_forall. intros id Hid%elem_of_take_of.
    destruct (Hin id Hid) as [[Hi|Hn]%elem_of_app _]; [by left|right].
    by apply elem_of_name_matches.
Qed.

End ocr_properties.

Section document_properties.
Import py_more document_processor.

Lemma load_all_stops (lib : Library) (loaded : list string) (bad : string)
    (rest : list string) (msg : string) :
  Forall (λ f, ∃ docs, load_document lib f = Returned docs) loaded →
  load_document lib bad = Raised msg →
  ∀ all_documents, load_all lib (loaded ++ bad :: rest) all_documents = Raised msg.
Proof.
  intros Hloaded Hbad. induction Hloaded as [|f loaded [docs Hf] _ IH];
    intros all_documents; simpl.
  - by rewrite Hbad.
  - rewrite Hf. simpl. apply IH.
Qed.

(** X18. Loading comes before anything is sent to Pinecone: when one file of
    the list cannot be loaded, [process_documents] raises the exception of the
    first such file and has made no call to Pinecone, so nothing of the files
    before it is stored either. A missing file fails with "File not found",
    and a file whose extension, in lower case, is none of .pdf, .txt and .csv
    fails with "Unsupported file type". *)
Theorem unloadable_file_stops_the_ingestion
    (self : Processor) (lib : Library) (pc : Service)
    (loaded : list string) (bad : string) (rest : list string)
    (namespace : option string) (calls : list Call) :
  Forall (λ f, ∃ docs, load_document lib f = Returned docs) loaded →
  (∀ msg, load_document lib bad = Raised msg →
     process_documents self lib pc (loaded ++ bad :: rest) namespace calls
     = (Raised msg, calls)) ∧
  (file_exists lib bad = Returned false →
   load_document lib bad = Raised ("File not found: " +:+ file_text lib bad)) ∧
  (file_exists lib bad = Returned true →
   lower (file_suffix lib bad) ∉ [".pdf"; ".txt"; ".csv"] →
   load_document lib bad = Raised ("Unsupported file type: " +:+ lower (file_suffix lib bad))).
Proof.
  intros Hloaded. split_and!.
  - intros msg Hbad. unfold process_documents.
    by rewrite (load_all_stops lib loaded bad rest msg Hloaded Hbad).
  - intros Hmissing. unfold load_document. by rewrite Hmissing.
  - intros Hthere Hext. unfold load_document. rewrite Hthere. simpl.
    rewrite !not_elem_of_cons in Hext. destruct Hext as (Hpdf & Htxt & Hcsv & _).
    by rewrite !bool_decide_eq_false_2.
Qed.

End document_properties.

Section badge_properties.
Context `{Platform}.
Import warehouse_tools chatbot turn_spec turn_more py_more tool_badges.

Lemma badges_replicate (b : Badge) (tools : list string) :
  Forall (λ n, badge_of n = Some b) tools → badges tools = replicate (length tools) b.
Proof.
  induction 1 as [|n tools Hn _ IH]; [done|].
  unfold badges in *. cbn [omap list_omap length replicate]. by rewrite Hn, IH.
Qed.

(** X19. The web front end shows every tool a turn reports under the right
    badge: each entry of [warehouse_tools_used] as Snowflake and each entry of
    [rag_tools_used] as RAG, so the badges of the combined list are one
    Snowflake badge per warehouse entry followed by one RAG badge per
    retrieval entry. *)
Theorem reported_tools_get_their_badge
    (state_values : Exc (gmap string (list Message)))
    (earlier : list Message) (final_message : Message) :
  let result := chat state_values (Returned (earlier ++ [final_message])) in
  badges (warehouse_tools_used result ++ rag_tools_used result)
  = replicate (length (warehouse_tools_used result)) Snowflake_badge ++
    replicate (length (rag_tools_used result)) RAG_badge.
Proof.
  intros result.
  destruct (chat_tool_lists state_values earlier final_message) as [Hw Hr].
  fold result in Hw, Hr.
  unfold badges. rewrite omap_app. f_equal.
  - apply badges_replicate. rewrite Hw. apply Forall_forall.
    intros n [Hn _]%list_elem_of_filter. unfold WAREHOUSE_TOOLS in Hn.
    repeat (apply elem_of_cons in Hn as [->|Hn]; [by vm_compute|]).
    by apply elem_of_nil in Hn.
  - apply badges_replicate. eapply Forall_impl; [exact Hr|].
    intros n ->. by vm_compute.
Qed.

End badge_properties.

(** * The further properties on sample inputs *)

Section on_more_samples.
Import warehouse_tools chatbot store_trace tool_calls turn_spec turn_more samples.
Import py_more front_ends ocr_tools document_processor tool_badges more_samples.
#[local] Existing Instance reference.platform.

Lemma staged_query_can_be_peeked_witness :
  built_sql (call_query_price_trends "BTC" 7) = Some (query_price_trends_sql "BTC" 7) ∧
  get_pending_query "3f2b8c1e" (invoke (call_query_price_trends "BTC" 7) entropy1 empty_world).2
  = Some staged_query.
Proof.
  assert (built_sql (call_query_price_trends "BTC" 7) = Some (query_price_trends_sql "BTC" 7))
    as Hb by reflexivity.
  split; [exact Hb|].
  exact (@staged_query_can_be_peeked reference.platform (call_query_price_trends "BTC" 7)
           entropy1 empty_world _ "3f2b8c1e" Hb).
Defined.

Lemma records_stay_filed_under_their_id_witness :
  filed_under_own_id empty_world ∧
  filed_under_own_id
    (perform_all (calls_before ++ consuming_call :: calls_after) empty_world).2.
Proof.
  assert (filed_under_own_id empty_world) as Hw by (intros key pq Hl; done).
  split; [exact Hw|].
  exact (@records_stay_filed_under_their_id reference.platform
           (calls_before ++ consuming_call :: calls_after) empty_world Hw).
Defined.

Lemma consuming_a_query_leaves_the_others_witness :
  consumes "9a7d4e55" (Cancel "9a7d4e55") = true ∧
  "3f2b8c1e" ≠ "9a7d4e55" ∧
  get_pending_query "3f2b8c1e" (perform (Cancel "9a7d4e55") staged_world).2
  = get_pending_query "3f2b8c1e" staged_world.
Proof.
  assert (consumes "9a7d4e55" (Cancel "9a7d4e55") = true) as Hc by reflexivity.
  assert ("3f2b8c1e" ≠ "9a7d4e55") as Hne by done.
  split_and!; [exact Hc|exact Hne|].
  exact (@consuming_a_query_leaves_the_others reference.platform (Cancel "9a7d4e55")
           "9a7d4e55" "3f2b8c1e" staged_world Hc Hne).
Defined.

Lemma failed_connection_still_consumes_the_query_witness :
  _PENDING_QUERIES staged_world !! "3f2b8c1e" = Some staged_query ∧
  sf_connect warehouse_down = Raised "could not connect" ∧
  (execute_pending_query warehouse_down "3f2b8c1e" staged_world).1
  = "Error executing query: Snowflake connection failed: could not connect" ∧
  (execute_pending_query warehouse_up "3f2b8c1e"
     (execute_pending_query warehouse_down "3f2b8c1e" staged_world).2).1
  = NO_PENDING_QUERY.
Proof.
  assert (_PENDING_QUERIES staged_world !! "3f2b8c1e" = Some staged_query) as Hq
    by (vm_compute; reflexivity).
  assert (sf_connect warehouse_down = Raised "could not connect") as Hdown by reflexivity.
  destruct (@failed_connection_still_consumes_the_query reference.platform "3f2b8c1e"
              staged_query warehouse_down "could not connect" staged_world Hq Hdown)
    as (Hout & _ & _ & Hretry).
  split_and!; [exact Hq|exact Hdown|exact Hout|by rewrite (Hretry warehouse_up)].
Defined.

Lemma approval_runs_the_staged_sql_witness :
  built_sql (call_query_price_trends "BTC" 7) = Some (query_price_trends_sql "BTC" 7) ∧
  sf_connect warehouse_up = Returned () ∧
  warehouse_log
    (execute_pending_query warehouse_up "3f2b8c1e"
       (invoke (call_query_price_trends "BTC" 7) entropy1 empty_world).2).2
  = [("3f2b8c1e", strip (query_price_trends_sql "BTC" 7))].
Proof.
  assert (built_sql (call_query_price_trends "BTC" 7) = Some (query_price_trends_sql "BTC" 7))
    as Hb by reflexivity.
  assert (sf_connect warehouse_up = Returned ()) as Hup by reflexivity.
  split_and!; [exact Hb|exact Hup|].
  exact (proj1 (@approval_runs_the_staged_sql reference.platform
                  (call_query_price_trends "BTC" 7) entropy1 warehouse_up empty_world _
                  Hb Hup)).
Defined.

Lemma blank_customer_name_is_an_error_witness :
  only_whitespace "   " = true ∧
  query_customer_by_name "   " 10 entropy1 staged_world
  = ("Error preparing customer search query: list index out of range", staged_world) ∧
  "   " ≠ EmptyString ∧
  query_transactions None (Some "   ") None None 10 entropy1 staged_world
  = ("Error preparing transactions query: list index out of range", staged_world).
Proof.
  assert (only_whitespace "   " = true) as Hblank by reflexivity.
  assert ("   " ≠ EmptyString) as Hne by done.
  destruct (@blank_customer_name_is_an_error reference.platform "   " None None None 10
              entropy1 staged_world Hblank) as [Hsearch Htransactions].
  split_and!; [exact Hblank|exact Hsearch|exact Hne|exact (Htransactions Hne)].
Defined.

Lemma turn_without_tool_calls_is_one_reasoning_step_witness :
  llm_with_tools plain_graph
    (SystemMessage (CText (system_prompt plain_graph))
       :: first_turn ++ [HumanMessage (CText "What is a stablecoin?")])
  = Returned (AIMessage (CText "A stablecoin is a pegged token.") []) ∧
  tool_calls_of (AIMessage (CText "A stablecoin is a pegged token.") []) = [] ∧
  recursion_limit plain_graph ≠ 0%nat ∧
  graph_invoke plain_graph first_turn "What is a stablecoin?" empty_world
  = (Returned (first_turn ++ [HumanMessage (CText "What is a stablecoin?")] ++
               [AIMessage (CText "A stablecoin is a pegged token.") []]),
     empty_world).
Proof.
  assert (llm_with_tools plain_graph
            (SystemMessage (CText (system_prompt plain_graph))
               :: first_turn ++ [HumanMessage (CText "What is a stablecoin?")])
          = Returned (AIMessage (CText "A stablecoin is a pegged token.") [])) as Hllm
    by reflexivity.
  assert (tool_calls_of (AIMessage (CText "A stablecoin is a pegged token.") []) = [])
    as Hcalls by reflexivity.
  assert (recursion_limit plain_graph ≠ 0%nat) as Hlimit by done.
  split_and!; [exact Hllm|exact Hcalls|exact Hlimit|].
  exact (proj1 (@turn_without_tool_calls_is_one_reasoning_step reference.platform World
                  plain_graph first_turn "What is a stablecoin?" empty_world _
                  Hllm Hcalls Hlimit)).
Defined.

Lemma successful_turn_extends_the_history_witness :
  ∃ out added final,
    graph_invoke failing_tools_graph [] "Read this image" empty_world
    = (Returned out, empty_world) ∧
    out = [] ++ [HumanMessage (CText "Read this image")] ++ added ++ [final] ∧
    tool_calls_of final = [].
Proof.
  assert (∃ out, graph_invoke failing_tools_graph [] "Read this image" empty_world
                 = (Returned out, empty_world)) as [out Hrun]
    by (eexists; vm_compute; reflexivity).
  destruct (@successful_turn_extends_the_history reference.platform World
              failing_tools_graph [] "Read this image" empty_world empty_world out Hrun)
    as (added & final & Hout & Hfinal & _).
  by exists out, added, final.
Defined.

Lemma agent_turn_never_reaches_the_warehouse_witness :
  (∀ name tool, tools_by_name approval_graph !! name = Some tool →
     ∃ validate draw, tool = as_tool validate draw) ∧
  warehouse_log
    (chat_on_graph approval_graph (Returned ∅) [] "How did BTC move this week?"
                   empty_world).2
  = [].
Proof.
  assert (∀ name tool, tools_by_name approval_graph !! name = Some tool →
            ∃ validate draw, tool = as_tool validate draw) as Hreg.
  { intros name tool Htool. unfold approval_graph in Htool. simpl in Htool.
    apply lookup_singleton_Some in Htool as [_ <-]. by eexists _, _. }
  split; [exact Hreg|].
  exact (@agent_turn_never_reaches_the_warehouse reference.platform approval_graph
           (Returned ∅) [] "How did BTC move this week?" empty_world Hreg).
Defined.

Lemma tool_lists_hold_the_requested_tools_witness :
  default [] (({["messages" := first_turn]} : gmap string (list Message)) !! "messages")
  = first_turn ∧
  warehouse_tools_used
    (chat (Returned {["messages" := first_turn]}) (Returned (first_turn ++ staged_turn)))
  = ["query_price_trends"] ∧
  warehouse_tools_used
    (chat (Raised "connection closed") (Returned (first_turn ++ staged_turn)))
  = ["query_transactions"; "query_price_trends"].
Proof.
  assert (default [] (({["messages" := first_turn]} : gmap string (list Message))
                        !! "messages") = first_turn) as Hhistory
    by (rewrite lookup_singleton_eq; reflexivity).
  destruct (@tool_lists_hold_the_requested_tools reference.platform _ first_turn
              [HumanMessage (CText "How did BTC move this week?");
               AIMessage (CText EmptyString) [trends_call];
               ToolMessage (CText (@_pending_response reference.platform staged_query))
                           "query_price_trends" "call_t"]
              (AIMessage (CText "The query is ready and needs your approval.") [])
              Hhistory) as (Hread & _ & Hunread).
  split_and!; [exact Hhistory| |].
  - etransitivity; [exact Hread|]. vm_compute. reflexivity.
  - etransitivity; [exact (Hunread "connection closed")|]. vm_compute. reflexivity.
Defined.

Lemma sources_are_bounded_by_the_document_results_witness :
  default [] (({["messages" := search_turn]} : gmap string (list Message)) !! "messages")
  = search_turn ∧
  document_results second_turn = 0%nat ∧
  sources (chat (Returned {["messages" := search_turn]})
                (Returned (search_turn ++ second_turn)))
  = [].
Proof.
  assert (default [] (({["messages" := search_turn]} : gmap string (list Message))
                        !! "messages") = search_turn) as Hhistory
    by (rewrite lookup_singleton_eq; reflexivity).
  assert (document_results second_turn = 0%nat) as Hnone by reflexivity.
  destruct (@sources_are_bounded_by_the_document_results reference.platform _ search_turn
              [HumanMessage (CText "Thanks, what is a stablecoin?")]
              (AIMessage (CText "A stablecoin is a token pegged to a reference asset.") [])
              Hhistory) as (_ & Hempty & _).
  split_and!; [exact Hhistory|exact Hnone|exact (Hempty Hnone)].
Defined.

(** The search turn reports its page; with [get_state] failing, the turn
    after it reports that page again. *)
Example search_turn_sources :
  sources (chat (Returned ∅) (Returned search_turn))
  = [{| src_content := "Foundry AI is a platform....";
        src_metadata := VDict [("page", VInt 1)] |}] ∧
  sources (chat (Raised "connection closed") (Returned (search_turn ++ second_turn)))
  = [{| src_content := "Foundry AI is a platform....";
        src_metadata := VDict [("page", VInt 1)] |}].
Proof. split; vm_compute; reflexivity. Qed.

(** The prompt on the staged query: a yes runs it, anything else cancels
    it, and either way it is gone. *)
Example approval_prompt_on_the_staged_query :
  (approval_loop (λ _, warehouse_up) [asdict staged_query] ["  YES "] [] staged_world).2
  = {| _PENDING_QUERIES := ∅;
       warehouse_log := [("3f2b8c1e", sql staged_query)] |} ∧
  (approval_loop (λ _, warehouse_up) [asdict staged_query] ["sure"] [] staged_world).2
  = {| _PENDING_QUERIES := ∅; warehouse_log := [] |} ∧
  (approval_loop (λ _, warehouse_up) [asdict staged_query] [] [] staged_world).1.1
  = Raised "EOF when reading a line".
Proof. split_and!; vm_compute; reflexivity. Qed.

Lemma approval_prompt_uses_up_every_query_it_asks_about_witness :
  ∃ payloads typed' w',
    approval_loop (λ _, warehouse_up) [asdict staged_query] ["n"] [] staged_world
    = (Returned payloads, typed', w') ∧
    asdict staged_query ∈ [asdict staged_query] ∧
    asked_id (asdict staged_query) = Some "3f2b8c1e" ∧
    get_pending_query "3f2b8c1e" w' = None.
Proof.
  assert (∃ payloads typed' w',
            approval_loop (λ _, warehouse_up) [asdict staged_query] ["n"] [] staged_world
            = (Returned payloads, typed', w')) as (payloads & typed' & w' & Hloop)
    by (eexists _, _, _; vm_compute; reflexivity).
  assert (asdict staged_query ∈ [asdict staged_query]) as Hin by left.
  assert (asked_id (asdict staged_query) = Some "3f2b8c1e") as Hasked
    by (vm_compute; reflexivity).
  exists payloads, typed', w'. split_and!; [exact Hloop|exact Hin|exact Hasked|].
  exact (@approval_prompt_uses_up_every_query_it_asks_about reference.platform
           (λ _, warehouse_up) [asdict staged_query] payloads ["n"] typed'
           staged_world w' (asdict staged_query) "3f2b8c1e" Hloop Hin Hasked).
Defined.

Lemma approval_prompt_executes_only_on_yes_witness :
  approvals ["n"; "maybe"] = 0%nat ∧
  warehouse_log
    (approval_loop (λ _, warehouse_up) [asdict staged_query] ["n"; "maybe"] []
                   staged_world).2
  = warehouse_log staged_world.
Proof.
  assert (approvals ["n"; "maybe"] = 0%nat) as Hnone by reflexivity.
  split; [exact Hnone|].
  destruct (@approval_prompt_executes_only_on_yes reference.platform (λ _, warehouse_up)
              [asdict staged_query] [] ["n"; "maybe"] staged_world) as (_ & _ & Hlog).
  exact (Hlog Hnone).
Defined.

(** The identifiers read off the sample card: the id once, the name with the
    "ID" of the next line and the name alone, and not the words "Issue Date". *)
Example card_identifiers :
  extract_text_from_image card_imaging "card.png"
  = reference.dumps
      (VDict [("extracted_text", VStr card_text);
              ("customer_identifiers",
               VList [VStr "AB123456"; VStr ("John Doe" +:+ nl +:+ "ID"); VStr "John Doe"]);
              ("image_path", VStr "card.png");
              ("ocr_engine", VStr "pytesseract");
              ("status", VStr "success")]).
Proof. vm_compute. reflexivity. Qed.

Lemma ocr_identifiers_are_distinct_and_at_most_ten_witness :
  path_exists card_imaging "card.png" = Returned true ∧
  path_suffix card_imaging "card.png" ∈ valid_extensions ∧
  cv2_read card_imaging (path_text card_imaging "card.png") = Returned true ∧
  image_to_string card_imaging (path_text card_imaging "card.png") = Returned card_text ∧
  ∃ ids, extract_text_from_image card_imaging "card.png"
         = dumps_indent card_imaging
             (VDict [("extracted_text", VStr (strip card_text));
                     ("customer_identifiers", VList (VStr <$> ids));
                     ("image_path", VStr (path_text card_imaging "card.png"));
                     ("ocr_engine", VStr "pytesseract");
                     ("status", VStr "success")]) ∧
         NoDup ids.
Proof.
  assert (path_exists card_imaging "card.png" = Returned true) as Hexists by reflexivity.
  assert (path_suffix card_imaging "card.png" ∈ valid_extensions) as Hsuffix by left.
  assert (cv2_read card_imaging (path_text card_imaging "card.png") = Returned true)
    as Hread by reflexivity.
  assert (image_to_string card_imaging (path_text card_imaging "card.png")
          = Returned card_text) as Hocr by reflexivity.
  destruct (ocr_identifiers_are_distinct_and_at_most_ten card_imaging "card.png" card_text
              Hexists Hsuffix Hread Hocr) as (ids & Hout & Hnd & _).
  split_and!; [exact Hexists|exact Hsuffix|exact Hread|exact Hocr|].
  by exists ids.
Defined.

Lemma unloadable_file_stops_the_ingestion_witness :
  Forall (λ f, ∃ docs, load_document folder f = Returned docs) ["report.pdf"] ∧
  load_document folder "notes.DOCX" = Raised "Unsupported file type: .docx" ∧
  process_documents processor folder pinecone_up ["report.pdf"; "notes.DOCX"; "missing.pdf"]
                    None []
  = (Raised "Unsupported file type: .docx", []).
Proof.
  assert (Forall (λ f, ∃ docs, load_document folder f = Returned docs) ["report.pdf"])
    as Hloaded by (repeat constructor; by eexists).
  assert (load_document folder "notes.DOCX" = Raised "Unsupported file type: .docx")
    as Hbad by reflexivity.
  destruct (unloadable_file_stops_the_ingestion processor folder pinecone_up
              ["report.pdf"] "notes.DOCX" ["missing.pdf"] None [] Hloaded)
    as (Hstop & _ & _).
  split_and!; [exact Hloaded|exact Hbad|exact (Hstop _ Hbad)].
Defined.

Lemma customer_name_is_matched_by_its_words_witness :
  split "  John   Doe " = split "John Doe" ∧
  query_customer_by_name "  John   Doe " 10 entropy1 empty_world
  = query_customer_by_name "John Doe" 10 entropy1 empty_world ∧
  "  John   Doe " ≠ EmptyString ∧ "John Doe" ≠ EmptyString ∧
  query_transactions None (Some "  John   Doe ") None None 10 entropy1 empty_world
  = query_transactions None (Some "John Doe") None None 10 entropy1 empty_world.
Proof.
  assert (split "  John   Doe " = split "John Doe") as Hwords by reflexivity.
  assert ("  John   Doe " ≠ EmptyString) as Hne by done.
  assert ("John Doe" ≠ EmptyString) as Hne' by done.
  destruct (@customer_name_is_matched_by_its_words reference.platform
              "  John   Doe " "John Doe" None None None 10 entropy1 empty_world Hwords)
    as [Hsearch Htransactions].
  split_and!; [exact Hwords|exact Hsearch|exact Hne|exact Hne'|
               exact (Htransactions Hne Hne')].
Defined.

Lemma transaction_type_is_matched_in_upper_case_witness :
  upper "buy" = upper "BUY" ∧
  query_transactions None None (Some "BTC") (Some "buy") 10 entropy1 empty_world
  = query_transactions None None (Some "BTC") (Some "BUY") 10 entropy1 empty_world.
Proof.
  assert (upper "buy" = upper "BUY") as Hupper by reflexivity.
  split; [exact Hupper|].
  exact (@transaction_type_is_matched_in_upper_case reference.platform "buy" "BUY"
           None None (Some "BTC") 10 entropy1 empty_world Hupper).
Defined.

(** A list that loads is stored, after the index has been made. *)
Example loadable_files_are_stored :
  (process_documents processor folder pinecone_up ["report.pdf"] None []).2
  = [called_list_indexes;
     called_create_index "fa-dae2-capstone" 1536;
     called_from_documents
       [{| page_content := "page one of report.pdf"; metadata := VDict [] |}]
       "fa-dae2-capstone" None].
Proof. vm_compute. reflexivity. Qed.

End on_more_samples.
